(** * Payment orchestration worker: webhook intake, adapters, sessions

    A shallow embedding of the edge worker of this repository
    (index.js, router.js, adapters/*.js, utils/kv.js, utils/webhook.js,
    utils/logger.js, utils/response.js) and the properties of its
    webhook pipeline, checkout validation and adapter factory, followed
    by further properties of its signatures, counters, routing,
    subscriptions and processor calls.

    Conventions of the embedding:
    - JavaScript strings are byte strings ([string]); identifiers and
      provider names are ASCII, payloads are their UTF-8 bytes.
    - JavaScript values are the type [value] (JSON values plus
      [undefined]); numbers are integers ([Z], amounts are minor units).
      A JavaScript number holds an integer exactly up to 2^53: what is
      proved of a counter's arithmetic is stated for such numbers.
    - An [async] function is a computation [M A] over the three KV
      namespaces, reading the request's environment (bindings, clock,
      network) and writing the ordered list of effects it performed.
    - A thrown [Error] is [Throw msg]; [try/catch] is [try_catch]. *)

From Stdlib Require Import ZArith List Ascii String Bool Lia.
From stdpp Require Import base strings gmap.
Import ListNotations.
Local Open Scope string_scope.
Local Open Scope list_scope.
Local Open Scope Z_scope.

(** ** Strings: the JavaScript string methods the worker uses *)

Module Str.

(** [String.prototype.split(sep)] for a one-character separator: always
    at least one piece. *)
Fixpoint split (sep : ascii) (s : string) : list string :=
  match s with
  | EmptyString => [EmptyString]
  | String c rest =>
      if Ascii.eqb c sep then EmptyString :: split sep rest
      else match split sep rest with
           | p :: ps => String c p :: ps
           | [] => [String c EmptyString]
           end
  end.

(** [s.includes(c)] for a one-character needle. *)
Fixpoint includes (c : ascii) (s : string) : bool :=
  match s with
  | EmptyString => false
  | String d rest => Ascii.eqb d c || includes c rest
  end.

Definition lower_ascii (c : ascii) : ascii :=
  let n := nat_of_ascii c in
  if (Nat.leb 65 n && Nat.leb n 90)%bool then ascii_of_nat (n + 32) else c.

(** [s.toLowerCase()]. The model maps A-Z to a-z and leaves every other
    byte alone; the provider names the factory compares against are
    ASCII, and no non-ASCII letter lowercases to one of their letters
    in a way that completes one of the three names. *)
Fixpoint toLowerCase (s : string) : string :=
  match s with
  | EmptyString => EmptyString
  | String c rest => String (lower_ascii c) (toLowerCase rest)
  end.

Definition is_digit (c : ascii) : bool :=
  let n := nat_of_ascii c in (Nat.leb 48 n && Nat.leb n 57)%bool.

Definition is_space (c : ascii) : bool :=
  let n := nat_of_ascii c in
  (Nat.eqb n 32 || (Nat.leb 9 n && Nat.leb n 13))%bool.

Definition digit_val (c : ascii) : Z := Z.of_nat (nat_of_ascii c) - 48.

Fixpoint skip_spaces (s : string) : string :=
  match s with
  | String c rest => if is_space c then skip_spaces rest else s
  | EmptyString => s
  end.

(** The maximal leading run of decimal digits, as a number. *)
Fixpoint digits_prefix (acc : option Z) (s : string) : option Z :=
  match s with
  | String c rest =>
      if is_digit c
      then digits_prefix (Some (10 * default 0 acc + digit_val c)) rest
      else acc
  | EmptyString => acc
  end.

(** [parseInt(s)] on decimal text (what [String(n)] writes into the
    counters): leading white space, a sign, then the longest run of
    digits; [None] is NaN. The result is the number read, which
    JavaScript holds exactly up to 2^53; a [0x] prefix and white space
    outside ASCII are not part of decimal text and are not modelled. *)
Definition parseInt (s : string) : option Z :=
  match skip_spaces s with
  | String "-" rest => Z.opp <$> digits_prefix None rest
  | String "+" rest => digits_prefix None rest
  | t => digits_prefix None t
  end.

Definition digit_char (d : Z) : ascii := ascii_of_nat (Z.to_nat (48 + d)).

Fixpoint of_pos_fuel (fuel : nat) (n : Z) (acc : string) : string :=
  match fuel with
  | O => acc
  | S f =>
      let acc' := String (digit_char (n mod 10)) acc in
      if n <? 10 then acc' else of_pos_fuel f (n / 10) acc'
  end.

(** [String(n)] for an integer: its decimal digits, which is what
    JavaScript writes for every safe integer (below 2^53 in magnitude);
    larger numbers are rounded, and written with an exponent from 10^21. *)
Definition of_Z (n : Z) : string :=
  if n <? 0 then String "-" (of_pos_fuel (S (Z.to_nat (Z.log2 (- n)))) (- n) "")
  else of_pos_fuel (S (Z.to_nat (Z.log2 n))) n "".

(** [String(x)] for the result of integer arithmetic that may be NaN. *)
Definition of_number (n : option Z) : string :=
  match n with Some z => of_Z z | None => "NaN" end.

(** [s.startsWith(p)] *)
Fixpoint startsWith (p s : string) : bool :=
  match p with
  | EmptyString => true
  | String a p' =>
      match s with
      | String b s' => Ascii.eqb a b && startsWith p' s'
      | EmptyString => false
      end
  end.

Definition join (sep : string) (l : list string) : string :=
  match l with
  | [] => ""
  | x :: xs => fold_left (fun acc y => acc +:+ sep +:+ y) xs x
  end.

End Str.

(** ** HMAC-SHA-256, as [crypto.subtle] computes it (FIPS 180-4, RFC 2104) *)

Module Crypto.

Definition mask32 : Z := 0xffffffff.
Definition add32 (x y : Z) : Z := Z.land (x + y) mask32.
Definition rotr (n x : Z) : Z :=
  Z.lor (Z.shiftr x n) (Z.land (Z.shiftl x (32 - n)) mask32).
Definition Ch (x y z : Z) : Z :=
  Z.lxor (Z.land x y) (Z.land (Z.lxor x mask32) z).
Definition Maj (x y z : Z) : Z :=
  Z.lxor (Z.lxor (Z.land x y) (Z.land x z)) (Z.land y z).
Definition Sigma0 x := Z.lxor (Z.lxor (rotr 2 x) (rotr 13 x)) (rotr 22 x).
Definition Sigma1 x := Z.lxor (Z.lxor (rotr 6 x) (rotr 11 x)) (rotr 25 x).
Definition sigma0 x := Z.lxor (Z.lxor (rotr 7 x) (rotr 18 x)) (Z.shiftr x 3).
Definition sigma1 x := Z.lxor (Z.lxor (rotr 17 x) (rotr 19 x)) (Z.shiftr x 10).

(** The round constants: the first 32 bits of the fractional parts of
    the cube roots of the first 64 primes. *)
Definition K256 : list Z :=
    1116352408 :: 1899447441 :: 3049323471 :: 3921009573 ::
    961987163 :: 1508970993 :: 2453635748 :: 2870763221 ::
    3624381080 :: 310598401 :: 607225278 :: 1426881987 ::
    1925078388 :: 2162078206 :: 2614888103 :: 3248222580 ::
    3835390401 :: 4022224774 :: 264347078 :: 604807628 ::
    770255983 :: 1249150122 :: 1555081692 :: 1996064986 ::
    2554220882 :: 2821834349 :: 2952996808 :: 3210313671 ::
    3336571891 :: 3584528711 :: 113926993 :: 338241895 ::
    666307205 :: 773529912 :: 1294757372 :: 1396182291 ::
    1695183700 :: 1986661051 :: 2177026350 :: 2456956037 ::
    2730485921 :: 2820302411 :: 3259730800 :: 3345764771 ::
    3516065817 :: 3600352804 :: 4094571909 :: 275423344 ::
    430227734 :: 506948616 :: 659060556 :: 883997877 ::
    958139571 :: 1322822218 :: 1537002063 :: 1747873779 ::
    1955562222 :: 2024104815 :: 2227730452 :: 2361852424 ::
    2428436474 :: 2756734187 :: 3204031479 :: 3329325298 :: nil.

(** The initial hash value: likewise for the square roots of the first 8
    primes. *)
Definition H256 : list Z :=
    1779033703 :: 3144134277 :: 1013904242 :: 2773480762 ::
    1359893119 :: 2600822924 :: 528734635 :: 1541459225 :: nil.

Definition bytes_of (s : string) : list Z :=
  map (fun c => Z.of_nat (nat_of_ascii c)) (list_ascii_of_string s).

(** Big-endian encoding of [n] on [k] bytes. *)
Fixpoint be_bytes (k : nat) (n : Z) : list Z :=
  match k with
  | O => []
  | S k' => Z.land (Z.shiftr n (8 * Z.of_nat k')) 0xff :: be_bytes k' n
  end.

Definition pad (msg : list Z) : list Z :=
  let len := Z.of_nat (List.length msg) in
  let zeros := Z.to_nat ((55 - len) mod 64) in
  msg ++ [0x80] ++ repeat 0 zeros ++ be_bytes 8 (8 * len).

Fixpoint words (fuel : nat) (bs : list Z) : list Z :=
  match fuel, bs with
  | S f, a :: b :: c :: d :: rest =>
      (Z.shiftl a 24 + Z.shiftl b 16 + Z.shiftl c 8 + d) :: words f rest
  | _, _ => []
  end.

Fixpoint blocks (fuel : nat) (ws : list Z) : list (list Z) :=
  match fuel, ws with
  | _, [] => []
  | O, _ => []
  | S f, _ => firstn 16 ws :: blocks f (skipn 16 ws)
  end.

Fixpoint expand (n : nat) (w : list Z) : list Z :=
  match n with
  | O => w
  | S n' =>
      let t := List.length w in
      let g i := nth (t - i) w 0 in
      expand n' (w ++ [add32 (add32 (sigma1 (g 2%nat)) (g 7%nat))
                              (add32 (sigma0 (g 15%nat)) (g 16%nat))])
  end.

Definition round (st : list Z) (kw : Z * Z) : list Z :=
  match st with
  | [a; b; c; d; e; f; g; h] =>
      let t1 := add32 (add32 (add32 h (Sigma1 e)) (add32 (Ch e f g) (fst kw))) (snd kw) in
      let t2 := add32 (Sigma0 a) (Maj a b c) in
      [add32 t1 t2; a; b; c; add32 d t1; e; f; g]
  | _ => st
  end.

Definition compress (h : list Z) (block : list Z) : list Z :=
  let w := expand 48 block in
  let st := fold_left round (combine K256 w) h in
  map (fun p => add32 (fst p) (snd p)) (combine h st).

Definition sha256 (msg : list Z) : list Z :=
  let p := pad msg in
  let ws := words (List.length p) p in
  let h := fold_left compress (blocks (List.length ws) ws) H256 in
  concat (map (be_bytes 4) h).

Definition hmac_sha256 (key msg : list Z) : list Z :=
  let k0 := if (64 <? Z.of_nat (List.length key)) then sha256 key else key in
  let k := k0 ++ repeat 0 (64 - List.length k0)%nat in
  let ipad := map (fun b => Z.lxor b 0x36) k in
  let opad := map (fun b => Z.lxor b 0x5c) k in
  sha256 (opad ++ sha256 (ipad ++ msg)).

Definition hex_digit (d : Z) : ascii :=
  if d <? 10 then ascii_of_nat (Z.to_nat (48 + d))
  else ascii_of_nat (Z.to_nat (87 + d)).

(** [bytes.map(b => b.toString(16).padStart(2, '0')).join('')] *)
Fixpoint hex (bs : list Z) : string :=
  match bs with
  | [] => ""
  | b :: rest => String (hex_digit (b / 16)) (String (hex_digit (b mod 16)) (hex rest))
  end.

End Crypto.

(** ** JavaScript values *)

Set Warnings "-register-all".

Module JS.

Inductive value : Type :=
| VUndefined
| VNull
| VBool (b : bool)
| VNum (n : Z)
| VStr (s : string)
| VArr (items : list value)
| VObj (props : list (string * value)).

(** Truthiness, as [!x] and [x || y] test it. *)
Definition truthy (v : value) : bool :=
  match v with
  | VUndefined | VNull => false
  | VBool b => b
  | VNum n => negb (n =? 0)
  | VStr s => negb (String.eqb s "")
  | VArr _ | VObj _ => true
  end.

(** [a || b] *)
Definition or_else (a b : value) : value := if truthy a then a else b.

Fixpoint lookup_prop (k : string) (props : list (string * value)) : value :=
  match props with
  | [] => VUndefined
  | (k', v) :: rest => if String.eqb k' k then v else lookup_prop k rest
  end.

(** The value of [v.k] when [v] is neither [undefined] nor [null]; the
    property names read by the worker are own data properties of parsed
    JSON objects, so primitives and arrays give [undefined]. *)
Definition prop (v : value) (k : string) : value :=
  match v with
  | VObj props => lookup_prop k props
  | _ => VUndefined
  end.

Definition nullish (v : value) : bool :=
  match v with VUndefined | VNull => true | _ => false end.

(** [v?.k] *)
Definition opt_prop (v : value) (k : string) : value :=
  if nullish v then VUndefined else prop v k.

(** [String(v)], the conversion template literals apply. *)
Fixpoint to_string (v : value) : string :=
  match v with
  | VUndefined => "undefined"
  | VNull => "null"
  | VBool true => "true"
  | VBool false => "false"
  | VNum n => Str.of_Z n
  | VStr s => s
  | VArr items =>
      Str.join ","
        (map (fun x => match x with
                       | VUndefined | VNull => ""
                       | _ => to_string x
                       end) items)
  | VObj _ => "[object Object]"
  end.

(** What stringifying does to the items of an array and to the
    properties of an object, given what it does to their values. *)
Definition jsonify_items (f : value -> value) (items : list value) : list value :=
  map (fun x => match x with VUndefined => VNull | _ => f x end) items.

Fixpoint jsonify_props (f : value -> value) (ps : list (string * value))
  : list (string * value) :=
  match ps with
  | [] => []
  | (k, VUndefined) :: rest => jsonify_props f rest
  | (k, x) :: rest => (k, f x) :: jsonify_props f rest
  end.

(** [JSON.parse(JSON.stringify(v))] for an object or array [v]:
    properties whose value is [undefined] are dropped, [undefined]
    array items become [null]. *)
Fixpoint jsonify (v : value) : value :=
  match v with
  | VArr items => VArr (jsonify_items jsonify items)
  | VObj props => VObj (jsonify_props jsonify props)
  | _ => v
  end.

Definition has_key (k : string) (ps : list (string * value)) : bool :=
  existsb (fun q => String.eqb (fst q) k) ps.

(** [{...a, ...b}] on property lists: a key of [a] keeps its place and
    takes the value [b] gives it, the other keys of [b] follow. *)
Definition spread (a b : list (string * value)) : list (string * value) :=
  map (fun p => if has_key (fst p) b then (fst p, lookup_prop (fst p) b) else p) a
  ++ List.filter (fun p => negb (has_key (fst p) a)) b.

Definition of_opt (o : option string) : value :=
  match o with Some s => VStr s | None => VUndefined end.

End JS.
Export JS.

(** ** HTTP responses (utils/response.js) *)

Record Response : Type := { status : Z; body : value }.

Definition jsonResponse (data : value) (status : Z) : Response :=
  {| status := status; body := jsonify data |}.

Definition successResponse (data : value) (message : string) : Response :=
  jsonResponse
    (VObj [("success", VBool true); ("message", VStr message); ("data", data)])
    200.

Definition errorResponseWith (message : string) (status : Z)
    (details : list (string * value)) : Response :=
  jsonResponse
    (VObj (spread [("success", VBool false); ("error", VStr message)] details)) status.

(** [errorResponse(message, status)], with the default empty [details]. *)
Definition errorResponse (message : string) (status : Z) : Response :=
  errorResponseWith message status [].

(** [corsResponse()]: no body. The headers of a response (the CORS
    headers every response carries) are not part of [Response]. *)
Definition corsResponse : Response := {| status := 204; body := VNull |}.

(** ** The world a request runs in *)

Inductive namespace : Type := EVENTS | SESSIONS | METRICS.

Inductive level : Type := DEBUG | INFO | WARN | ERROR.

(** An outgoing [fetch(url, init)]. [payload] is the object passed to
    [JSON.stringify] for the body ([VStr] for a form body, [VUndefined]
    when there is none). The network answers a request as it pleases:
    nothing below depends on what a request carries. *)
Record FetchReq : Type := {
  url : string;
  method : string;
  authorization : string;
  internal_secret : option string;
  payload : value
}.

(** What [fetch] resolves to: a rejected promise, or a response with its
    status line, its body as text and, when the text is JSON, as a value. *)
Inductive FetchResult : Type :=
| NetworkError (msg : string)
| HttpResponse (code : Z) (statusText : string) (text : string) (json : option value).

Definition response_ok (code : Z) : bool := (200 <=? code) && (code <=? 299).

Definition fetch_failed (r : FetchResult) : bool :=
  match r with
  | NetworkError _ => true
  | HttpResponse code _ _ _ => negb (response_ok code)
  end.

(** Which file issues a [fetch]: an adapter (to the payment processor)
    or the router (to the internal backend). *)
Inductive caller : Type := Processor | Backend.

Inductive effect : Type :=
| KvGet (ns : namespace) (key : string)
| KvPut (ns : namespace) (key : string)
| Fetched (who : caller) (rq : FetchReq) (res : FetchResult)
| Imported (module : string)
| Logged (lvl : level) (message : string).

(** [env] and the ambient platform, fixed for the duration of a request. *)
Record Env : Type := {
  PADDLE_API_KEY : option string;
  PADDLE_WEBHOOK_SECRET : option string;
  PADDLE_SANDBOX : option string;
  PAYPAL_CLIENT_ID : option string;
  PAYPAL_CLIENT_SECRET : option string;
  PAYPAL_WEBHOOK_ID : option string;
  PAYPAL_SANDBOX : option string;
  INTERNAL_BACKEND_URL : option string;
  INTERNAL_SECRET : option string;
  LOG_LEVEL : option Z;
  (** [Date.now()], in milliseconds *)
  now : Z;
  (** [new Date().toISOString()] *)
  isoNow : string;
  (** the network: what each [fetch] resolves to *)
  net : FetchReq -> FetchResult
}.

(** A key's stored value and the [expirationTtl] it was put with. The
    EVENTS and SESSIONS namespaces hold JSON documents (the put sites
    stringify, the get sites parse or test for [null]); METRICS holds
    counters as text. *)
Record Stores : Type := {
  events : gmap string (value * Z);
  sessions : gmap string (value * Z);
  metrics : gmap string (string * Z)
}.

(** ** Computations *)

Inductive result (A : Type) : Type :=
| Ok (a : A)
| Throw (msg : string).
Arguments Ok {A} a.
Arguments Throw {A} msg.

Definition M (A : Type) : Type := Env -> Stores -> result A * Stores * list effect.

Definition ret {A} (a : A) : M A := fun _ st => (Ok a, st, []).

Definition throw {A} (msg : string) : M A := fun _ st => (Throw msg, st, []).

Definition bind {A B} (m : M A) (k : A -> M B) : M B :=
  fun env st =>
    match m env st with
    | (Ok a, st1, t1) =>
        match k a env st1 with
        | (r, st2, t2) => (r, st2, t1 ++ t2)
        end
    | (Throw msg, st1, t1) => (Throw msg, st1, t1)
    end.

Notation "x <- m ;; k" := (bind m (fun x => k))
  (at level 100, m at next level, right associativity).
Notation "m ;;; k" := (bind m (fun _ => k))
  (at level 100, right associativity).

(** [try { m } catch (error) { h(error.message) }] *)
Definition try_catch {A} (m : M A) (h : string -> M A) : M A :=
  fun env st =>
    match m env st with
    | (Ok a, st1, t1) => (Ok a, st1, t1)
    | (Throw msg, st1, t1) =>
        match h msg env st1 with
        | (r, st2, t2) => (r, st2, t1 ++ t2)
        end
    end.

Definition ask : M Env := fun env st => (Ok env, st, []).
Definition tell (e : effect) : M unit := fun _ st => (Ok tt, st, [e]).
Definition get_stores : M Stores := fun _ st => (Ok st, st, []).
Definition set_stores (st' : Stores) : M unit := fun _ _ => (Ok tt, st', []).

(** A value that must not be [undefined] or [null] to read [.k] from. *)
Definition read (v : value) (k : string) : M value :=
  if nullish v
  then throw ("Cannot read properties of " +:+ to_string v
              +:+ " (reading '" +:+ k +:+ "')")
  else ret (prop v k).

(** [fetch(url, init)] issued from [who]. *)
Definition fetch (who : caller) (rq : FetchReq) : M FetchResult :=
  env <- ask ;;
  let res := net env rq in
  tell (Fetched who rq res) ;;;
  match res with
  | NetworkError msg => throw msg
  | _ => ret res
  end.

(** [await response.json()] *)
Definition response_json (r : FetchResult) : M value :=
  match r with
  | HttpResponse _ _ _ (Some v) => ret v
  | _ => throw "Unexpected token in JSON"
  end.

Definition response_text (r : FetchResult) : string :=
  match r with HttpResponse _ _ t _ => t | NetworkError _ => "" end.

Definition response_statusText (r : FetchResult) : string :=
  match r with HttpResponse _ s _ _ => s | NetworkError _ => "" end.

Definition response_is_ok (r : FetchResult) : bool := negb (fetch_failed r).

(** [new Date().toISOString().split('T')[0]] *)
Definition today (env : Env) : string := hd "" (Str.split "T" (isoNow env)).

(** ** Cloudflare KV helpers (utils/kv.js) *)

Module KV.

Definition put_doc (ns : namespace) (key : string) (doc : value) (ttl : Z) : M unit :=
  st <- get_stores ;;
  tell (KvPut ns key) ;;;
  match ns with
  | EVENTS => set_stores {| events := <[key := (doc, ttl)]> (events st);
                            sessions := sessions st; metrics := metrics st |}
  | SESSIONS => set_stores {| events := events st;
                              sessions := <[key := (doc, ttl)]> (sessions st);
                              metrics := metrics st |}
  | METRICS => set_stores {| events := events st; sessions := sessions st;
                             metrics := <[key := (to_string doc, ttl)]> (metrics st) |}
  end.

(** [kv.get(key, 'json')] (and [kv.get(key)] compared with [null]) on a
    document namespace: [VNull] when the key is absent. *)
Definition get_doc (ns : namespace) (key : string) : M value :=
  st <- get_stores ;;
  tell (KvGet ns key) ;;;
  ret (match ns with
       | EVENTS => from_option fst VNull (events st !! key)
       | SESSIONS => from_option fst VNull (sessions st !! key)
       | METRICS => from_option (fun e => VStr (fst e)) VNull (metrics st !! key)
       end).

Definition storeSession (sessionId : value) (data : value) (ttl : Z) : M unit :=
  let key := "session:" +:+ to_string sessionId in
  put_doc SESSIONS key (jsonify data) ttl.

Definition default_session_ttl : Z := 3600.

Definition getSession (sessionId : value) : M value :=
  let key := "session:" +:+ to_string sessionId in
  get_doc SESSIONS key.

Definition event_key (provider eventId : value) : string :=
  "evt:" +:+ to_string provider +:+ ":" +:+ to_string eventId.

Definition isEventProcessed (provider eventId : value) : M bool :=
  let key := event_key provider eventId in
  st <- get_stores ;;
  tell (KvGet EVENTS key) ;;;
  ret (bool_decide (is_Some (events st !! key))).

Definition default_event_ttl : Z := 604800.

Definition markEventProcessed (provider eventId : value)
    (data : list (string * value)) (ttl : Z) : M unit :=
  env <- ask ;;
  let key := event_key provider eventId in
  put_doc EVENTS key
    (jsonify (VObj (spread [("processed_at", VStr (isoNow env))] data))) ttl.

Definition default_counter_ttl : Z := 86400.

(** [current = (await kv.get(counterKey)) || '0'], then
    [put(counterKey, String(parseInt(current) + 1))]; returns
    [parseInt(newValue)]. The sum is the integer sum: that of the code
    as long as the counter is a safe integer (below 2^53). *)
Definition incrementCounter (counterKey : string) (ttl : Z) : M (option Z) :=
  st <- get_stores ;;
  tell (KvGet METRICS counterKey) ;;;
  let stored := from_option fst "" (metrics st !! counterKey) in
  let current := if String.eqb stored "" then "0" else stored in
  let newValue := Str.of_number ((fun n => n + 1) <$> Str.parseInt current) in
  tell (KvPut METRICS counterKey) ;;;
  set_stores {| events := events st; sessions := sessions st;
                metrics := <[counterKey := (newValue, ttl)]> (metrics st) |} ;;;
  ret (Str.parseInt newValue).

End KV.

(** ** Logger (utils/logger.js)

    The logger every handler and adapter receives is the [Logger] that
    the worker's entry point creates for the request with [createLogger];
    [env.METRICS] is bound, as the handlers need it. *)

Module Logger.

Definition LOG_LEVELS (l : level) : Z :=
  match l with DEBUG => 0 | INFO => 1 | WARN => 2 | ERROR => 3 end.

(** [env.LOG_LEVEL || LOG_LEVELS.INFO] *)
Definition minLevel (env : Env) : Z :=
  match LOG_LEVEL env with
  | Some n => if n =? 0 then LOG_LEVELS INFO else n
  | None => LOG_LEVELS INFO
  end.

(** The key of the error counter for a log entry's data. *)
Definition error_counter (env : Env) (data : value) : string :=
  "error:" +:+ to_string (or_else (prop data "route") (VStr "unknown"))
  +:+ ":" +:+ today env.

(** The promise this returns is not awaited by [_log]; its KV read and
    write are placed where the call is made. A failure inside is caught
    and logged to the console. *)
Definition _incrementErrorMetric (data : value) : M unit :=
  try_catch
    (env <- ask ;;
     let key := error_counter env data in
     st <- get_stores ;;
     tell (KvGet METRICS key) ;;;
     let stored := from_option fst "" (metrics st !! key) in
     let current := if String.eqb stored "" then "0" else stored in
     tell (KvPut METRICS key) ;;;
     set_stores {| events := events st; sessions := sessions st;
                   metrics := <[key := (Str.of_number ((fun n => n + 1) <$> Str.parseInt current),
                                        86400 * 30)]> (metrics st) |})
    (fun _ => ret tt).

Definition _log (l : level) (message : string) (data : value) : M unit :=
  env <- ask ;;
  if LOG_LEVELS l <? minLevel env then ret tt
  else
    tell (Logged l message) ;;;
    match l with
    | ERROR => _incrementErrorMetric data
    | _ => ret tt
    end.

Definition debug := _log DEBUG.
Definition info := _log INFO.
Definition warn := _log WARN.
Definition error := _log ERROR.

End Logger.

(** ** Inbound requests *)

(** An inbound [Request]: header names are matched without regard to
    case; [text] is the raw body and [json] what [request.json()] gives
    for it ([None]: the body is not JSON and [json()] rejects). *)
Record Request : Type := {
  headers : list (string * string);
  text : string;
  json : option value
}.

Fixpoint header_lookup (name : string) (hs : list (string * string)) : option string :=
  match hs with
  | [] => None
  | (k, v) :: rest =>
      if String.eqb (Str.toLowerCase k) name then Some v else header_lookup name rest
  end.

(** [request.headers.get(name)] as a value: [null] when absent. *)
Definition header_get (rq : Request) (name : string) : value :=
  match header_lookup (Str.toLowerCase name) (headers rq) with
  | Some v => VStr v
  | None => VNull
  end.

Definition request_json (rq : Request) : M value :=
  match json rq with
  | Some v => ret v
  | None => throw "Unexpected token in JSON"
  end.

(** ** Signature utilities (utils/webhook.js) *)

Module Webhook.

(** [verifyHmacSignature(payload, signature, secret)] with the default
    algorithm. [crypto.subtle.importKey] rejects a zero-length key (an
    unset secret encodes to no bytes); the [catch] turns that into
    [false]. *)
Definition verifyHmacSignature (payload signature : string) (secret : option string) : bool :=
  match secret with
  | None | Some "" => false
  | Some key =>
      let expectedSignature :=
        Crypto.hex (Crypto.hmac_sha256 (Crypto.bytes_of key) (Crypto.bytes_of payload)) in
      if Str.includes "=" signature
      then match nth_error (Str.split "=" signature) 1 with
           | Some cleanSignature => String.eqb expectedSignature cleanSignature
           | None => false
           end
      else String.eqb expectedSignature signature
  end.

(** [isTimestampValid(timestamp, toleranceSeconds)]; [Date.now()] is
    [now_ms]. *)
Definition isTimestampValid (now_ms : Z) (timestamp : Z) (toleranceSeconds : Z) : bool :=
  let currentTime := now_ms / 1000 in
  let difference := Z.abs (currentTime - timestamp) in
  difference <=? toleranceSeconds.

Definition default_tolerance : Z := 300.

(** [s.charCodeAt(i)] for a character of the string. *)
Definition charCode (c : ascii) : Z := Z.of_nat (nat_of_ascii c).

(** The loop of [compareSignatures]:
    [result |= received.charCodeAt(i) ^ expected.charCodeAt(i)] for each
    index of [received]. Past the end of [expected], [charCodeAt] is NaN,
    which the bitwise operator reads as 0. *)
Fixpoint accumulate (result : Z) (received expected : string) : Z :=
  match received with
  | EmptyString => result
  | String x received' =>
      match expected with
      | String y expected' =>
          accumulate (Z.lor result (Z.lxor (charCode x) (charCode y))) received' expected'
      | EmptyString =>
          accumulate (Z.lor result (Z.lxor (charCode x) 0)) received' EmptyString
      end
  end.

(** [compareSignatures(received, expected)] *)
Definition compareSignatures (received expected : string) : bool :=
  if String.eqb received "" || String.eqb expected ""
     || negb (Nat.eqb (String.length received) (String.length expected))
  then false
  else accumulate 0 received expected =? 0.

End Webhook.

(** ** Provider adapters (adapters/*.js) *)

(** What [verifyWebhook] resolves to. *)
Record WebhookEvent : Type := {
  eventId : value;
  eventType : value;
  data : value;
  rawPayload : value
}.

(** The argument of [createCheckoutSession] and [createSubscription]. *)
Record CheckoutPayload : Type := {
  userId : value;
  email : value;
  amount : value;
  currency : value;
  productName : value;
  planId : value;
  priceId : value;
  successUrl : value;
  cancelUrl : value;
  metadata : value
}.

Inductive auth : Type :=
| NoAuth
| Bearer (token : string)
(** [Basic ${btoa(user:password)}] *)
| Basic (user password : string).

(** The text of the [Authorization] header. The pair of a [Basic]
    header is written in clear here; the code sends its base64 form. *)
Definition auth_header (a : auth) : string :=
  match a with
  | NoAuth => ""
  | Bearer t => "Bearer " +:+ t
  | Basic u p => "Basic " +:+ u +:+ ":" +:+ p
  end.

Definition request_to (u : string) (m : string) (a : auth) (b : value) : FetchReq :=
  {| url := u; method := m; authorization := auth_header a;
     internal_secret := None; payload := b |}.

Fixpoint indexed (i : Z) (items : list value) : list (string * value) :=
  match items with
  | [] => []
  | x :: rest => (Str.of_Z i, x) :: indexed (i + 1) rest
  end.

(** [{...v}]: the own enumerable properties of [v]: those of an object,
    the indexed items of an array, the indexed characters of a string,
    none for the other values. *)
Definition props_of (v : value) : list (string * value) :=
  match v with
  | VObj ps => ps
  | VArr items => indexed 0 items
  | VStr s => indexed 0 (map (fun c => VStr (String c EmptyString)) (list_ascii_of_string s))
  | _ => []
  end.

Module Paddle.

Record t : Type := { apiKey : option string; webhookSecret : option string; baseUrl : string }.

Definition new (env : Env) : t :=
  {| apiKey := PADDLE_API_KEY env;
     webhookSecret := PADDLE_WEBHOOK_SECRET env;
     baseUrl := match PADDLE_SANDBOX env with
                | Some "true" => "https://sandbox-api.paddle.com"
                | _ => "https://api.paddle.com"
                end |}.

Definition getName : string := "paddle".

Definition bearer (a : t) : auth := Bearer (to_string (of_opt (apiKey a))).

Definition createCheckoutSession (a : t) (p : CheckoutPayload) : M value :=
  let currency := match currency p with VUndefined => VStr "USD" | c => c end in
  let metadata := match metadata p with VUndefined => VObj [] | m => m end in
  try_catch
    (response <- fetch Processor
       (request_to (baseUrl a +:+ "/transactions") "POST" (bearer a)
          (VObj [("items", VArr [VObj [
                    ("price", VObj [("description", productName p);
                                    ("unit_price", VObj [("amount", VStr (to_string (amount p)));
                                                         ("currency_code", currency)])]);
                    ("quantity", VNum 1)]]);
                 ("customer", VObj [("email", email p)]);
                 ("custom_data", VObj (spread [("user_id", userId p)] (props_of metadata)));
                 ("return_url", successUrl p);
                 ("checkout", VObj [("url", cancelUrl p)])])) ;;
     if negb (response_is_ok response)
     then throw ("Paddle API error: " +:+ response_text response)
     else
       data <- response_json response ;;
       inner <- read data "data" ;;
       id <- read inner "id" ;;
       Logger.info "Paddle checkout session created"
         (VObj [("sessionId", id); ("userId", userId p)]) ;;;
       ret (VObj [("sessionId", id);
                  ("checkoutUrl", or_else (opt_prop (prop inner "checkout") "url")
                                          (prop inner "url"));
                  ("provider", VStr "paddle")]))
    (fun message =>
       Logger.error "Failed to create Paddle checkout session"
         (VObj [("error", VStr message); ("userId", userId p)]) ;;;
       throw message).

(** [sigParts]: the [key=value] pieces of the signature header, a later
    piece overriding an earlier one with the same key. *)
Definition sigParts (signature : string) : list (string * value) :=
  fold_left
    (fun acc part =>
       let kv := Str.split "=" part in
       let key := hd "" kv in
       let value := match nth_error kv 1 with Some v => VStr v | None => VUndefined end in
       (key, value) :: acc)
    (Str.split ";" signature) [].

Definition verifyWebhook (a : t) (request : Request) : M WebhookEvent :=
  let signature := header_get request "paddle-signature" in
  if negb (truthy signature) then throw "Missing Paddle signature header"
  else
    let payload := text request in
    eventData <- request_json request ;;
    let parts := sigParts (to_string signature) in
    let timestamp := lookup_prop "ts" parts in
    let receivedSignature := lookup_prop "h1" parts in
    if negb (truthy timestamp) || negb (truthy receivedSignature)
    then throw "Invalid Paddle signature format"
    else
      let signedPayload := to_string timestamp +:+ ":" +:+ payload in
      let isValid := Webhook.verifyHmacSignature signedPayload
                       (to_string receivedSignature) (webhookSecret a) in
      if negb isValid then throw "Invalid Paddle webhook signature"
      else
        event_type <- read eventData "event_type" ;;
        event_id <- read eventData "event_id" ;;
        Logger.info "Paddle webhook verified"
          (VObj [("eventType", event_type); ("eventId", event_id)]) ;;;
        ret {| eventId := event_id; eventType := event_type;
               data := prop eventData "data"; rawPayload := eventData |}.

Definition getSession (a : t) (sessionId : value) : M value :=
  try_catch
    (response <- fetch Processor
       (request_to (baseUrl a +:+ "/transactions/" +:+ to_string sessionId) "GET"
          (bearer a) VUndefined) ;;
     if negb (response_is_ok response)
     then throw ("Failed to get Paddle session: " +:+ response_statusText response)
     else
       data <- response_json response ;;
       read data "data")
    (fun message =>
       Logger.error "Failed to get Paddle session"
         (VObj [("error", VStr message); ("sessionId", sessionId)]) ;;;
       throw message).

Definition createSubscription (a : t) (p : CheckoutPayload) : M value :=
  try_catch
    (response <- fetch Processor
       (request_to (baseUrl a +:+ "/subscriptions") "POST" (bearer a)
          (VObj [("customer", VObj [("email", email p)]);
                 ("items", VArr [VObj [("price_id", priceId p); ("quantity", VNum 1)]]);
                 ("custom_data", VObj [("user_id", userId p)]);
                 ("return_url", successUrl p)])) ;;
     if negb (response_is_ok response)
     then throw ("Paddle subscription error: " +:+ response_text response)
     else
       data <- response_json response ;;
       inner <- read data "data" ;;
       id <- read inner "id" ;;
       Logger.info "Paddle subscription created"
         (VObj [("subscriptionId", id); ("userId", userId p)]) ;;;
       ret (VObj [("subscriptionId", id);
                  ("checkoutUrl", opt_prop (prop inner "checkout") "url");
                  ("provider", VStr "paddle")]))
    (fun message =>
       Logger.error "Failed to create Paddle subscription"
         (VObj [("error", VStr message); ("userId", userId p)]) ;;;
       throw message).

Definition cancelSubscription (a : t) (subscriptionId : value) : M value :=
  try_catch
    (response <- fetch Processor
       (request_to (baseUrl a +:+ "/subscriptions/" +:+ to_string subscriptionId +:+ "/cancel")
          "POST" (bearer a)
          (VObj [("effective_from", VStr "next_billing_period")])) ;;
     if negb (response_is_ok response)
     then throw ("Failed to cancel Paddle subscription: " +:+ response_statusText response)
     else
       data <- response_json response ;;
       Logger.info "Paddle subscription cancelled"
         (VObj [("subscriptionId", subscriptionId)]) ;;;
       read data "data")
    (fun message =>
       Logger.error "Failed to cancel Paddle subscription"
         (VObj [("error", VStr message); ("subscriptionId", subscriptionId)]) ;;;
       throw message).

End Paddle.

Module PayPal.

(** The adapter instance: credentials and the cached access token.
    [tokenExpiry = None] stands for [null] (and for NaN). *)
Record t : Type := {
  clientId : option string;
  clientSecret : option string;
  webhookId : option string;
  baseUrl : string;
  accessToken : value;
  tokenExpiry : option Z
}.

Definition new (env : Env) : t :=
  {| clientId := PAYPAL_CLIENT_ID env;
     clientSecret := PAYPAL_CLIENT_SECRET env;
     webhookId := PAYPAL_WEBHOOK_ID env;
     baseUrl := match PAYPAL_SANDBOX env with
                | Some "true" => "https://api-m.sandbox.paypal.com"
                | _ => "https://api-m.paypal.com"
                end;
     accessToken := VNull;
     tokenExpiry := None |}.

Definition getName : string := "paypal".

Definition cache_valid (a : t) (now_ms : Z) : bool :=
  truthy (accessToken a) &&
  match tokenExpiry a with
  | Some e => negb (e =? 0) && (now_ms <? e)
  | None => false
  end.

(** Returns the token and the instance with its cache updated. *)
Definition getAccessToken (a : t) : M (value * t) :=
  env <- ask ;;
  if cache_valid a (now env) then ret (accessToken a, a)
  else
    try_catch
      (response <- fetch Processor
         (request_to (baseUrl a +:+ "/v1/oauth2/token") "POST"
            (Basic (to_string (of_opt (clientId a))) (to_string (of_opt (clientSecret a))))
            (VStr "grant_type=client_credentials")) ;;
       if negb (response_is_ok response)
       then throw ("Failed to get PayPal access token: " +:+ response_statusText response)
       else
         data <- response_json response ;;
         token <- read data "access_token" ;;
         let expiry := match prop data "expires_in" with
                       | VNum n => Some (now env + (n - 300) * 1000)
                       | _ => None
                       end in
         ret (token, {| clientId := clientId a; clientSecret := clientSecret a;
                        webhookId := webhookId a; baseUrl := baseUrl a;
                        accessToken := token; tokenExpiry := expiry |}))
      (fun message =>
         Logger.error "Failed to get PayPal access token" (VObj [("error", VStr message)]) ;;;
         throw message).

(** [(amount / 100).toFixed(2)] for an integer amount of minor units.
    The model does not follow JavaScript's coercion of other values to a
    number and writes NaN for them; the text only travels in the order
    sent to PayPal. *)
Definition to_major_units (amount : value) : string :=
  match amount with
  | VNum n =>
      let q := Z.abs n / 100 in
      let r := Z.abs n mod 100 in
      (if n <? 0 then "-" else "") +:+ Str.of_Z q +:+ "."
        +:+ (if r <? 10 then "0" else "") +:+ Str.of_Z r
  | _ => "NaN"
  end.

(** [links.find((link) => link.rel === 'approve')] *)
Fixpoint find_approve (links : list value) : M value :=
  match links with
  | [] => ret VUndefined
  | link :: rest =>
      rel <- read link "rel" ;;
      match rel with
      | VStr "approve" => ret link
      | _ => find_approve rest
      end
  end.

Definition approval_link (data : value) : M value :=
  links <- read data "links" ;;
  match links with
  | VArr items => find_approve items
  | VUndefined | VNull =>
      throw ("Cannot read properties of " +:+ to_string links +:+ " (reading 'find')")
  | _ => throw "data.links.find is not a function"
  end.

Definition createCheckoutSession (a : t) (p : CheckoutPayload) : M value :=
  let currency := match currency p with VUndefined => VStr "USD" | c => c end in
  let context := [("return_url", successUrl p); ("cancel_url", cancelUrl p)] in
  try_catch
    (ta <- getAccessToken a ;;
     response <- fetch Processor
       (request_to (baseUrl a +:+ "/v2/checkout/orders") "POST"
          (Bearer (to_string (fst ta)))
          (VObj [("intent", VStr "CAPTURE");
                 ("purchase_units", VArr [VObj [
                    ("amount", VObj [("currency_code", currency);
                                     ("value", VStr (to_major_units (amount p)))]);
                    ("description", productName p);
                    ("custom_id", userId p)]]);
                 ("payment_source", VObj [("paypal", VObj [("experience_context", VObj (
                    [("payment_method_preference", VStr "IMMEDIATE_PAYMENT_REQUIRED");
                     ("brand_name", VStr "Payment System");
                     ("locale", VStr "en-US");
                     ("landing_page", VStr "LOGIN");
                     ("user_action", VStr "PAY_NOW")] ++ context))])]);
                 ("application_context", VObj context)])) ;;
     if negb (response_is_ok response)
     then throw ("PayPal API error: " +:+ response_text response)
     else
       data <- response_json response ;;
       approvalLink <- approval_link data ;;
       Logger.info "PayPal order created"
         (VObj [("orderId", prop data "id"); ("userId", userId p)]) ;;;
       ret (VObj [("sessionId", prop data "id");
                  ("checkoutUrl", or_else (opt_prop approvalLink "href") (VStr ""));
                  ("provider", VStr "paypal")]))
    (fun message =>
       Logger.error "Failed to create PayPal order"
         (VObj [("error", VStr message); ("userId", userId p)]) ;;;
       throw message).

Definition verifyWebhook (a : t) (request : Request) : M WebhookEvent :=
  let transmission_id := header_get request "paypal-transmission-id" in
  let transmission_sig := header_get request "paypal-transmission-sig" in
  if negb (truthy transmission_id) || negb (truthy transmission_sig)
  then throw "Missing PayPal webhook headers"
  else
    eventData <- request_json request ;;
    try_catch
      (ta <- getAccessToken a ;;
       response <- fetch Processor
         (request_to (baseUrl a +:+ "/v1/notifications/verify-webhook-signature") "POST"
            (Bearer (to_string (fst ta)))
            (VObj [("transmission_id", transmission_id);
                   ("transmission_time", header_get request "paypal-transmission-time");
                   ("cert_url", header_get request "paypal-cert-url");
                   ("auth_algo", header_get request "paypal-auth-algo");
                   ("transmission_sig", transmission_sig);
                   ("webhook_id", of_opt (webhookId a));
                   ("webhook_event", eventData)])) ;;
       if negb (response_is_ok response)
       then throw ("PayPal webhook verification failed: " +:+ response_statusText response)
       else
         verification <- response_json response ;;
         verification_status <- read verification "verification_status" ;;
         match verification_status with
         | VStr "SUCCESS" =>
             event_type <- read eventData "event_type" ;;
             Logger.info "PayPal webhook verified"
               (VObj [("eventType", event_type); ("eventId", prop eventData "id")]) ;;;
             ret {| eventId := prop eventData "id"; eventType := event_type;
                    data := prop eventData "resource"; rawPayload := eventData |}
         | _ => throw "Invalid PayPal webhook signature"
         end)
      (fun message =>
         Logger.error "PayPal webhook verification error" (VObj [("error", VStr message)]) ;;;
         throw message).

Definition getSession (a : t) (sessionId : value) : M value :=
  try_catch
    (ta <- getAccessToken a ;;
     response <- fetch Processor
       (request_to (baseUrl a +:+ "/v2/checkout/orders/" +:+ to_string sessionId) "GET"
          (Bearer (to_string (fst ta))) VUndefined) ;;
     if negb (response_is_ok response)
     then throw ("Failed to get PayPal order: " +:+ response_statusText response)
     else response_json response)
    (fun message =>
       Logger.error "Failed to get PayPal order"
         (VObj [("error", VStr message); ("sessionId", sessionId)]) ;;;
       throw message).

Definition createSubscription (a : t) (p : CheckoutPayload) : M value :=
  try_catch
    (ta <- getAccessToken a ;;
     response <- fetch Processor
       (request_to (baseUrl a +:+ "/v1/billing/subscriptions") "POST"
          (Bearer (to_string (fst ta)))
          (VObj [("plan_id", planId p);
                 ("subscriber", VObj [("email_address", email p)]);
                 ("custom_id", userId p);
                 ("application_context", VObj [
                    ("brand_name", VStr "Payment System");
                    ("locale", VStr "en-US");
                    ("user_action", VStr "SUBSCRIBE_NOW");
                    ("payment_method", VObj [("payer_selected", VStr "PAYPAL");
                                             ("payee_preferred", VStr "IMMEDIATE_PAYMENT_REQUIRED")]);
                    ("return_url", successUrl p);
                    ("cancel_url", cancelUrl p)])])) ;;
     if negb (response_is_ok response)
     then throw ("PayPal subscription error: " +:+ response_text response)
     else
       data <- response_json response ;;
       approvalLink <- approval_link data ;;
       Logger.info "PayPal subscription created"
         (VObj [("subscriptionId", prop data "id"); ("userId", userId p)]) ;;;
       ret (VObj [("subscriptionId", prop data "id");
                  ("checkoutUrl", or_else (opt_prop approvalLink "href") (VStr ""));
                  ("provider", VStr "paypal")]))
    (fun message =>
       Logger.error "Failed to create PayPal subscription"
         (VObj [("error", VStr message); ("userId", userId p)]) ;;;
       throw message).

Definition cancelSubscription (a : t) (subscriptionId : value) : M value :=
  try_catch
    (ta <- getAccessToken a ;;
     response <- fetch Processor
       (request_to (baseUrl a +:+ "/v1/billing/subscriptions/" +:+ to_string subscriptionId
                    +:+ "/cancel") "POST"
          (Bearer (to_string (fst ta)))
          (VObj [("reason", VStr "Customer requested cancellation")])) ;;
     if negb (response_is_ok response)
     then throw ("Failed to cancel PayPal subscription: " +:+ response_statusText response)
     else
       Logger.info "PayPal subscription cancelled"
         (VObj [("subscriptionId", subscriptionId)]) ;;;
       ret (VObj [("status", VStr "cancelled"); ("subscriptionId", subscriptionId)]))
    (fun message =>
       Logger.error "Failed to cancel PayPal subscription"
         (VObj [("error", VStr message); ("subscriptionId", subscriptionId)]) ;;;
       throw message).

End PayPal.

Module Stripe.

Definition getName : string := "stripe".

Definition createCheckoutSession : M value :=
  throw "Stripe adapter not yet implemented. Coming soon!".
Definition verifyWebhook : M WebhookEvent :=
  throw "Stripe webhook verification not yet implemented. Coming soon!".
Definition getSession : M value :=
  throw "Stripe session retrieval not yet implemented. Coming soon!".
Definition createSubscription : M value :=
  throw "Stripe subscription creation not yet implemented. Coming soon!".
Definition cancelSubscription : M value :=
  throw "Stripe subscription cancellation not yet implemented. Coming soon!".

End Stripe.

(** ** The adapter factory (adapters/providerAdapter.js) *)

Inductive Adapter : Type :=
| PaddleAdapter (a : Paddle.t)
| PayPalAdapter (a : PayPal.t)
| StripeAdapter.

Definition getName (a : Adapter) : string :=
  match a with
  | PaddleAdapter _ => Paddle.getName
  | PayPalAdapter _ => PayPal.getName
  | StripeAdapter => Stripe.getName
  end.

(** [getProviderAdapter(provider, env, logger)]. [provider] is whatever
    the caller holds: a path segment, a body field, a stored field. *)
Definition getProviderAdapter (provider : value) : M Adapter :=
  env <- ask ;;
  match provider with
  | VStr name =>
      let providerName := Str.toLowerCase name in
      if String.eqb providerName "paddle"
      then tell (Imported "./paddle.js") ;;; ret (PaddleAdapter (Paddle.new env))
      else if String.eqb providerName "paypal"
      then tell (Imported "./paypal.js") ;;; ret (PayPalAdapter (PayPal.new env))
      else if String.eqb providerName "stripe"
      then tell (Imported "./stripe.js") ;;; ret StripeAdapter
      else throw ("Unsupported payment provider: " +:+ name)
  | VUndefined | VNull =>
      throw ("Cannot read properties of " +:+ to_string provider
             +:+ " (reading 'toLowerCase')")
  | _ => throw "provider.toLowerCase is not a function"
  end.

Definition createCheckoutSession (a : Adapter) (p : CheckoutPayload) : M value :=
  match a with
  | PaddleAdapter x => Paddle.createCheckoutSession x p
  | PayPalAdapter x => PayPal.createCheckoutSession x p
  | StripeAdapter => Stripe.createCheckoutSession
  end.

Definition verifyWebhook (a : Adapter) (request : Request) : M WebhookEvent :=
  match a with
  | PaddleAdapter x => Paddle.verifyWebhook x request
  | PayPalAdapter x => PayPal.verifyWebhook x request
  | StripeAdapter => Stripe.verifyWebhook
  end.

Definition getSession (a : Adapter) (sessionId : value) : M value :=
  match a with
  | PaddleAdapter x => Paddle.getSession x sessionId
  | PayPalAdapter x => PayPal.getSession x sessionId
  | StripeAdapter => Stripe.getSession
  end.

Definition createSubscription (a : Adapter) (p : CheckoutPayload) : M value :=
  match a with
  | PaddleAdapter x => Paddle.createSubscription x p
  | PayPalAdapter x => PayPal.createSubscription x p
  | StripeAdapter => Stripe.createSubscription
  end.

Definition cancelSubscription (a : Adapter) (subscriptionId : value) : M value :=
  match a with
  | PaddleAdapter x => Paddle.cancelSubscription x subscriptionId
  | PayPalAdapter x => PayPal.cancelSubscription x subscriptionId
  | StripeAdapter => Stripe.cancelSubscription
  end.

(** ** The router's handlers (router.js) *)

Module Router.

(** [${x}] for an environment binding. *)
Definition interp (o : option string) : string := to_string (of_opt o).

(** [const { provider, ... } = body]: destructuring [null] throws. *)
Definition destructure (body : value) (first : string) : M unit :=
  if nullish body
  then throw ("Cannot destructure property '" +:+ first +:+ "' of 'body' as it is "
              +:+ to_string body +:+ ".")
  else ret tt.

Definition received : value := VObj [("received", VBool true)].

(** The argument [handleCheckout] builds for [createCheckoutSession]. *)
Definition checkout_payload (env : Env) (body : value) : CheckoutPayload :=
  {| userId := prop body "userId"; email := prop body "email";
     amount := prop body "amount";
     currency := or_else (prop body "currency") (VStr "USD");
     productName := prop body "productName";
     planId := VUndefined; priceId := VUndefined;
     successUrl := or_else (prop body "successUrl")
       (VStr (interp (INTERNAL_BACKEND_URL env) +:+ "/payment/success"));
     cancelUrl := or_else (prop body "cancelUrl")
       (VStr (interp (INTERNAL_BACKEND_URL env) +:+ "/payment/cancel"));
     metadata := prop body "metadata" |}.

(** The argument [handleSubscriptionCreate] builds for [createSubscription]. *)
Definition subscription_payload (env : Env) (body : value) : CheckoutPayload :=
  {| userId := prop body "userId"; email := prop body "email";
     amount := VUndefined; currency := VUndefined; productName := VUndefined;
     planId := prop body "planId"; priceId := prop body "priceId";
     successUrl := or_else (prop body "successUrl")
       (VStr (interp (INTERNAL_BACKEND_URL env) +:+ "/payment/success"));
     cancelUrl := or_else (prop body "cancelUrl")
       (VStr (interp (INTERNAL_BACKEND_URL env) +:+ "/payment/cancel"));
     metadata := VUndefined |}.

Definition handleCheckout (request : Request) : M Response :=
  try_catch
    (body <- request_json request ;;
     destructure body "provider" ;;;
     let provider := prop body "provider" in
     let userId := prop body "userId" in
     let email := prop body "email" in
     let amount := prop body "amount" in
     let currency := prop body "currency" in
     let productName := prop body "productName" in
     let successUrl := prop body "successUrl" in
     let cancelUrl := prop body "cancelUrl" in
     let metadata := prop body "metadata" in
     if negb (truthy provider) || negb (truthy userId) || negb (truthy email)
        || negb (truthy amount) || negb (truthy productName)
     then ret (errorResponse "Missing required fields" 400)
     else
       env <- ask ;;
       adapter <- getProviderAdapter provider ;;
       session <- createCheckoutSession adapter (checkout_payload env body) ;;
       KV.storeSession (prop session "sessionId")
         (VObj [("userId", userId); ("provider", provider); ("email", email);
                ("amount", amount); ("currency", currency);
                ("productName", productName); ("createdAt", VStr (isoNow env))])
         KV.default_session_ttl ;;;
       KV.incrementCounter
         ("checkout:" +:+ to_string provider +:+ ":" +:+ today env)
         KV.default_counter_ttl ;;;
       Logger.info "Checkout session created"
         (VObj [("sessionId", prop session "sessionId"); ("provider", provider);
                ("userId", userId)]) ;;;
       ret (successResponse session "Checkout session created successfully"))
    (fun message =>
       Logger.error "Checkout error" (VObj [("error", VStr message)]) ;;;
       ret (errorResponse message 500)).

Definition notify_request (env : Env) (provider : string) (event : WebhookEvent) : FetchReq :=
  {| url := interp (INTERNAL_BACKEND_URL env) +:+ "/internal/payment/notify";
     method := "POST";
     authorization := "";
     internal_secret := Some (to_string (or_else (of_opt (INTERNAL_SECRET env)) (VStr "")));
     payload := VObj [("provider", VStr provider); ("event", eventType event);
                      ("eventId", eventId event); ("data", data event);
                      ("rawPayload", rawPayload event);
                      ("timestamp", VStr (isoNow env))] |}.

(** The inner [try { fetch ... } catch (backendError) { ... }]. *)
Definition forward (provider : string) (event : WebhookEvent) : M unit :=
  env <- ask ;;
  try_catch
    (backendResponse <- fetch Backend (notify_request env provider event) ;;
     if negb (response_is_ok backendResponse)
     then Logger.warn "Backend notification failed"
            (VObj [("provider", VStr provider); ("eventId", eventId event)])
     else ret tt)
    (fun message =>
       Logger.error "Failed to notify backend"
         (VObj [("error", VStr message); ("provider", VStr provider);
                ("eventId", eventId event)])).

Definition handleWebhook (request : Request) (provider : string) : M Response :=
  try_catch
    (env <- ask ;;
     adapter <- getProviderAdapter (VStr provider) ;;
     event <- verifyWebhook adapter request ;;
     alreadyProcessed <- KV.isEventProcessed (VStr provider) (eventId event) ;;
     if alreadyProcessed : bool
     then
       Logger.info "Event already processed (idempotent)"
         (VObj [("provider", VStr provider); ("eventId", eventId event)]) ;;;
       ret (successResponse received "Event already processed")
     else
       KV.markEventProcessed (VStr provider) (eventId event)
         [("eventType", eventType event); ("processedAt", VStr (isoNow env))]
         KV.default_event_ttl ;;;
       forward provider event ;;;
       KV.incrementCounter
         ("webhook:" +:+ provider +:+ ":" +:+ to_string (eventType event)
          +:+ ":" +:+ today env)
         KV.default_counter_ttl ;;;
       Logger.info "Webhook processed successfully"
         (VObj [("provider", VStr provider); ("eventId", eventId event);
                ("eventType", eventType event)]) ;;;
       ret (successResponse received "Webhook processed successfully"))
    (fun message =>
       Logger.error "Webhook processing error"
         (VObj [("error", VStr message); ("provider", VStr provider)]) ;;;
       ret (errorResponse message 400)).

Definition handleReceipt (sessionId : string) : M Response :=
  try_catch
    (session <- KV.getSession (VStr sessionId) ;;
     if negb (truthy session)
     then ret (errorResponse "Session not found" 404)
     else
       adapter <- getProviderAdapter (prop session "provider") ;;
       providerSession <- getSession adapter (VStr sessionId) ;;
       Logger.info "Receipt retrieved"
         (VObj [("sessionId", VStr sessionId); ("provider", prop session "provider")]) ;;;
       ret (successResponse
              (VObj [("session", session); ("providerDetails", providerSession)])
              "Receipt retrieved successfully"))
    (fun message =>
       Logger.error "Receipt retrieval error"
         (VObj [("error", VStr message); ("sessionId", VStr sessionId)]) ;;;
       ret (errorResponse message 500)).

Definition handleSubscriptionCreate (request : Request) : M Response :=
  try_catch
    (body <- request_json request ;;
     destructure body "provider" ;;;
     let provider := prop body "provider" in
     let userId := prop body "userId" in
     let email := prop body "email" in
     let planId := prop body "planId" in
     let priceId := prop body "priceId" in
     let successUrl := prop body "successUrl" in
     let cancelUrl := prop body "cancelUrl" in
     if negb (truthy provider) || negb (truthy userId) || negb (truthy email)
        || (negb (truthy planId) && negb (truthy priceId))
     then ret (errorResponse "Missing required fields" 400)
     else
       env <- ask ;;
       adapter <- getProviderAdapter provider ;;
       subscription <- createSubscription adapter (subscription_payload env body) ;;
       KV.storeSession (prop subscription "subscriptionId")
         (VObj [("userId", userId); ("provider", provider); ("email", email);
                ("type", VStr "subscription"); ("planId", or_else planId priceId);
                ("createdAt", VStr (isoNow env))])
         (86400 * 30) ;;;
       Logger.info "Subscription created"
         (VObj [("subscriptionId", prop subscription "subscriptionId");
                ("provider", provider); ("userId", userId)]) ;;;
       ret (successResponse subscription "Subscription created successfully"))
    (fun message =>
       Logger.error "Subscription creation error" (VObj [("error", VStr message)]) ;;;
       ret (errorResponse message 500)).

Definition handleSubscriptionCancel (subscriptionId : string) : M Response :=
  try_catch
    (subscription <- KV.getSession (VStr subscriptionId) ;;
     if negb (truthy subscription)
     then ret (errorResponse "Subscription not found" 404)
     else
       adapter <- getProviderAdapter (prop subscription "provider") ;;
       result <- cancelSubscription adapter (VStr subscriptionId) ;;
       Logger.info "Subscription cancelled"
         (VObj [("subscriptionId", VStr subscriptionId);
                ("provider", prop subscription "provider")]) ;;;
       ret (successResponse result "Subscription cancelled successfully"))
    (fun message =>
       Logger.error "Subscription cancellation error"
         (VObj [("error", VStr message); ("subscriptionId", VStr subscriptionId)]) ;;;
       ret (errorResponse message 500)).

(** [path.split('/')[3]]. The three places that read it have checked
    that [path] starts with a prefix holding three slashes, so the piece
    exists. *)
Definition segment (path : string) : string := nth 3 (Str.split "/" path) "".

(** [route(request, env, logger)], given [new URL(request.url).pathname]
    and [request.method]. *)
Definition route (path method : string) (request : Request) : M Response :=
  if String.eqb method "OPTIONS" then ret corsResponse
  else if String.eqb path "/api/checkout" && String.eqb method "POST"
  then handleCheckout request
  else if Str.startsWith "/api/webhook/" path && String.eqb method "POST"
  then handleWebhook request (segment path)
  else if Str.startsWith "/api/receipt/" path && String.eqb method "GET"
  then handleReceipt (segment path)
  else if String.eqb path "/api/subscription" && String.eqb method "POST"
  then handleSubscriptionCreate request
  else if Str.startsWith "/api/subscription/" path && String.eqb method "DELETE"
  then handleSubscriptionCancel (segment path)
  else if String.eqb path "/health" && String.eqb method "GET"
  then ret (successResponse (VObj [("status", VStr "healthy")]) "Service is running")
  else ret (errorResponse "Endpoint not found" 404).

End Router.

(** ** The worker's entry point (index.js) *)

Module Worker.

(** [fetch(request, env, ctx)]. The data of the log entries is written
    to the console only; the URL logged is stood for by the path. *)
Definition fetch (path method : string) (request : Request) : M Response :=
  try_catch
    (Logger.info "Request received" (VObj [("method", VStr method); ("url", VStr path)]) ;;;
     response <- Router.route path method request ;;
     Logger.info "Request completed" (VObj [("status", VNum (status response))]) ;;;
     ret response)
    (fun message =>
       Logger.error "Unhandled error" (VObj [("error", VStr message)]) ;;;
       ret (errorResponseWith "Internal server error" 500 [("message", VStr message)])).

End Worker.

(** ** Running a handler *)

(** The response, the stores afterwards and the effects in order. An
    error escaping a handler is answered by the [catch] of the worker's
    [fetch] entry point (index.js). *)
Definition run (h : M Response) (env : Env) (st : Stores) : Response * Stores * list effect :=
  match h env st with
  | (Ok r, st', t) => (r, st', t)
  | (Throw msg, st', t) =>
      (errorResponseWith "Internal server error" 500 [("message", VStr msg)], st', t)
  end.

Definition response_of (x : Response * Stores * list effect) : Response := fst (fst x).
Definition stores_of (x : Response * Stores * list effect) : Stores := snd (fst x).
Definition effects_of (x : Response * Stores * list effect) : list effect := snd x.

(** ** Vocabulary of the specifications *)

(** A call to the internal backend's notification endpoint. *)
Definition is_backend_call (e : effect) : bool :=
  match e with Fetched Backend _ _ => true | _ => false end.

(** How many times a run forwarded an event to the backend. *)
Definition forwards (t : list effect) : nat := List.length (List.filter is_backend_call t).

(** A call to a payment processor that did not succeed: the connection
    failed or the status is not 2xx. *)
Definition failed_processor_call (e : effect) : bool :=
  match e with Fetched Processor _ res => fetch_failed res | _ => false end.

Definition processor_failed (t : list effect) : bool := existsb failed_processor_call t.



Definition is_kv_write (e : effect) : bool :=
  match e with KvPut _ _ => true | _ => false end.

(** The keys of the logger's error counters, [error:{route}:{date}]. *)
Definition error_key (k : string) : bool := Str.startsWith "error:" k.

(** What an adapter and the logger may do: log, load a module, call the
    processor, and bump an error counter. *)
Definition adapter_effect (e : effect) : bool :=
  match e with
  | Logged _ _ | Imported _ | Fetched Processor _ _ => true
  | KvGet METRICS k | KvPut METRICS k => error_key k
  | _ => false
  end.

(** What an adapter operation that resolves has done: no KV access at
    all, and every processor call succeeded. *)
Definition silent_effect (e : effect) : bool :=
  match e with
  | Logged _ _ | Imported _ => true
  | Fetched Processor _ res => negb (fetch_failed res)
  | _ => false
  end.

(** The stores agree except on error counters. *)
Definition frame (st st' : Stores) : Prop :=
  events st' = events st /\ sessions st' = sessions st /\
  forall k, error_key k = false -> metrics st' !! k = metrics st !! k.

(** The ledger and the sessions are as they were. *)
Definition same_docs (st st' : Stores) : Prop :=
  events st' = events st /\ sessions st' = sessions st.

(** Effects that are neither a backend call nor a ledger or session
    access: logging, module loading, processor calls, counters. *)
Definition housekeeping (e : effect) : bool :=
  match e with
  | Logged _ _ | Imported _ | Fetched Processor _ _ => true
  | KvGet METRICS _ | KvPut METRICS _ => true
  | _ => false
  end.

(** What the handlers do around the processor and backend calls: log
    and bump counters. *)
Definition bookkeeping (e : effect) : bool :=
  match e with
  | Logged _ _ | KvGet METRICS _ | KvPut METRICS _ => true
  | _ => false
  end.

(** [Keeps P R m]: every effect of [m] satisfies [P] and the stores
    before and after are related by [R]. *)
Definition Keeps {A} (P : effect -> bool) (R : Stores -> Stores -> Prop) (m : M A) : Prop :=
  forall env st r st' t, m env st = (r, st', t) -> R st st' /\ forallb P t = true.

(** [Quiet m]: [m] leaves the ledger, the sessions and every counter but
    the error counters alone, and performs adapter effects only. *)
Abbreviation Quiet := (Keeps adapter_effect frame).

(** [Tidy m]: [m] leaves the ledger and the sessions alone and performs
    bookkeeping only. *)
Abbreviation Tidy := (Keeps bookkeeping same_docs).

(** [Inv m]: [m] is quiet and, when it resolves, has changed nothing and
    seen no failed processor call. *)
Definition Inv {A} (m : M A) : Prop :=
  forall env st r st' t, m env st = (r, st', t) ->
    frame st st' /\ forallb adapter_effect t = true /\
    (forall a, r = Ok a -> st' = st /\ forallb silent_effect t = true).

(** [NeverOk m]: [m] always throws. *)
Definition NeverOk {A} (m : M A) : Prop :=
  forall env st, exists msg st' t, m env st = (Throw msg, st', t).

(** Resolve the adapter for [provider] and verify the request with it:
    the first two steps of [handleWebhook]. *)
Definition authenticate (request : Request) (provider : string) : M WebhookEvent :=
  adapter <- getProviderAdapter (VStr provider) ;;
  verifyWebhook adapter request.

(** The adapter variant a provider name resolves to, if any. *)
Inductive kind : Type := KPaddle | KPayPal | KStripe.

Definition kind_of (a : Adapter) : kind :=
  match a with
  | PaddleAdapter _ => KPaddle
  | PayPalAdapter _ => KPayPal
  | StripeAdapter => KStripe
  end.

Definition resolved_kind (r : result Adapter * Stores * list effect) : option kind :=
  match r with
  | (Ok a, _, _) => Some (kind_of a)
  | (Throw _, _, _) => None
  end.

(** The spec's resolution rule: lowercase the processor name and match
    it against the three names of the registry. *)
Definition provider_kind (name : string) : option kind :=
  let lowered := Str.toLowerCase name in
  if String.eqb lowered "paddle" then Some KPaddle
  else if String.eqb lowered "paypal" then Some KPayPal
  else if String.eqb lowered "stripe" then Some KStripe
  else None.

(** The event a processor's webhook body describes. *)
Definition extract (k : kind) (eventData : value) : WebhookEvent :=
  match k with
  | KPayPal =>
      {| eventId := prop eventData "id"; eventType := prop eventData "event_type";
         data := prop eventData "resource"; rawPayload := eventData |}
  | _ =>
      {| eventId := prop eventData "event_id"; eventType := prop eventData "event_type";
         data := prop eventData "data"; rawPayload := eventData |}
  end.

(** [Post Q m]: whenever [m] resolves, its value satisfies [Q]. *)
Definition Post {A} (Q : A -> Prop) (m : M A) : Prop :=
  forall env st a st' t, m env st = (Ok a, st', t) -> Q a.

(** What [handleWebhook] does with a verified event: steps 3 to 6. *)
Definition deliver (provider : string) (event : WebhookEvent) : M Response :=
  env <- ask ;;
  alreadyProcessed <- KV.isEventProcessed (VStr provider) (eventId event) ;;
  if alreadyProcessed : bool
  then
    Logger.info "Event already processed (idempotent)"
      (VObj [("provider", VStr provider); ("eventId", eventId event)]) ;;;
    ret (successResponse Router.received "Event already processed")
  else
    KV.markEventProcessed (VStr provider) (eventId event)
      [("eventType", eventType event); ("processedAt", VStr (isoNow env))]
      KV.default_event_ttl ;;;
    Router.forward provider event ;;;
    KV.incrementCounter
      ("webhook:" +:+ provider +:+ ":" +:+ to_string (eventType event)
       +:+ ":" +:+ today env)
      KV.default_counter_ttl ;;;
    Logger.info "Webhook processed successfully"
      (VObj [("provider", VStr provider); ("eventId", eventId event);
             ("eventType", eventType event)]) ;;;
    ret (successResponse Router.received "Webhook processed successfully").

(** The [catch] of [handleWebhook]. *)
Definition reject (provider : string) (message : string) : M Response :=
  Logger.error "Webhook processing error"
    (VObj [("error", VStr message); ("provider", VStr provider)]) ;;;
  ret (errorResponse message 400).

(** The ledger key of an event, [evt:{provider}:{eventId}]. *)
Definition marker_key (provider : string) (event : WebhookEvent) : string :=
  KV.event_key (VStr provider) (eventId event).

(** The marker [markEventProcessed] stores for an event. *)
Definition marker_doc (env : Env) (event : WebhookEvent) : value :=
  jsonify (VObj (spread [("processed_at", VStr (isoNow env))]
                   [("eventType", eventType event); ("processedAt", VStr (isoNow env))])).

(** Resolve the adapter for the body's provider and create the checkout
    session with it: the processor-facing steps of [handleCheckout]. *)
Definition open_checkout (body : value) : M value :=
  env <- ask ;;
  adapter <- getProviderAdapter (prop body "provider") ;;
  createCheckoutSession adapter (Router.checkout_payload env body).

(** Resolve the adapter a stored session names and ask the processor
    for the session: the processor-facing steps of [handleReceipt]. *)
Definition lookup_details (session : value) (sessionId : string) : M value :=
  adapter <- getProviderAdapter (prop session "provider") ;;
  getSession adapter (VStr sessionId).

(** The five fields [handleCheckout] requires. *)
Definition required_fields : list string :=
  ["provider"; "userId"; "email"; "amount"; "productName"].

(** All five required fields are truthy. *)
Definition has_required (body : value) : bool :=
  forallb (fun k => truthy (prop body k)) required_fields.

(** The metadata [handleCheckout] stores for a request body. *)
Definition session_record (env : Env) (body : value) : value :=
  VObj [("userId", prop body "userId"); ("provider", prop body "provider");
        ("email", prop body "email"); ("amount", prop body "amount");
        ("currency", prop body "currency"); ("productName", prop body "productName");
        ("createdAt", VStr (isoNow env))].

(** What [handleCheckout] does once the processor has created the
    session: store, count, log, answer. *)
Definition persist_checkout (body session : value) : M Response :=
  env <- ask ;;
  KV.storeSession (prop session "sessionId") (session_record env body)
    KV.default_session_ttl ;;;
  KV.incrementCounter
    ("checkout:" +:+ to_string (prop body "provider") +:+ ":" +:+ today env)
    KV.default_counter_ttl ;;;
  Logger.info "Checkout session created"
    (VObj [("sessionId", prop session "sessionId"); ("provider", prop body "provider");
           ("userId", prop body "userId")]) ;;;
  ret (successResponse session "Checkout session created successfully").

(** The [catch] of [handleCheckout]. *)
Definition checkout_failed (message : string) : M Response :=
  Logger.error "Checkout error" (VObj [("error", VStr message)]) ;;;
  ret (errorResponse message 500).

(** The fields [handleSubscriptionCreate] requires. *)
Definition has_subscription_fields (body : value) : bool :=
  truthy (prop body "provider") && truthy (prop body "userId") && truthy (prop body "email")
  && (truthy (prop body "planId") || truthy (prop body "priceId")).

(** A value [JSON.parse] can produce: no [undefined] anywhere. *)
Fixpoint is_json (v : value) : bool :=
  match v with
  | VUndefined => false
  | VArr items => forallb is_json items
  | VObj props => forallb (fun p => is_json (snd p)) props
  | _ => true
  end.

(** The same environment at another time. *)
Definition with_clock (env : Env) (now_ms : Z) (iso : string) : Env :=
  {| PADDLE_API_KEY := PADDLE_API_KEY env;
     PADDLE_WEBHOOK_SECRET := PADDLE_WEBHOOK_SECRET env;
     PADDLE_SANDBOX := PADDLE_SANDBOX env;
     PAYPAL_CLIENT_ID := PAYPAL_CLIENT_ID env;
     PAYPAL_CLIENT_SECRET := PAYPAL_CLIENT_SECRET env;
     PAYPAL_WEBHOOK_ID := PAYPAL_WEBHOOK_ID env;
     PAYPAL_SANDBOX := PAYPAL_SANDBOX env;
     INTERNAL_BACKEND_URL := INTERNAL_BACKEND_URL env;
     INTERNAL_SECRET := INTERNAL_SECRET env;
     LOG_LEVEL := LOG_LEVEL env;
     now := now_ms;
     isoNow := iso;
     net := net env |}.

(** The entry points [route] dispatches to, with what it extracts from
    the path, and the handler of each. *)
Inductive entry : Type :=
| Checkout (request : Request)
| Webhook (request : Request) (provider : string)
| Receipt (sessionId : string)
| SubscriptionCreate (request : Request)
| SubscriptionCancel (subscriptionId : string).

Definition handle (e : entry) : M Response :=
  match e with
  | Checkout request => Router.handleCheckout request
  | Webhook request provider => Router.handleWebhook request provider
  | Receipt sessionId => Router.handleReceipt sessionId
  | SubscriptionCreate request => Router.handleSubscriptionCreate request
  | SubscriptionCancel subscriptionId => Router.handleSubscriptionCancel subscriptionId
  end.

(** The status each handler's [catch] answers with. *)
Definition catch_status (e : entry) : Z :=
  match e with
  | Webhook _ _ => 400
  | _ => 500
  end.

(** No processor call of the run failed, whatever the outcome. *)
Abbreviation Local :=
  (Keeps (fun e => negb (failed_processor_call e)) (fun _ _ : Stores => True)).

(** [Sound m]: when [m] resolves, no processor call it made had failed. *)
Definition Sound {A} (m : M A) : Prop :=
  forall env st a st' t, m env st = (Ok a, st', t) -> processor_failed t = false.

(** The hexadecimal HMAC-SHA-256 of [payload] under [key]. *)
Definition digest (key payload : string) : string :=
  Crypto.hex (Crypto.hmac_sha256 (Crypto.bytes_of key) (Crypto.bytes_of payload)).

(** A call over the network, to a processor or to the backend. *)
Definition is_fetch (e : effect) : bool :=
  match e with Fetched _ _ _ => true | _ => false end.

(** The request a PayPal adapter obtains its access token with. *)
Definition token_request (a : PayPal.t) : FetchReq :=
  request_to (PayPal.baseUrl a +:+ "/v1/oauth2/token") "POST"
    (Basic (to_string (of_opt (PayPal.clientId a))) (to_string (of_opt (PayPal.clientSecret a))))
    (VStr "grant_type=client_credentials").

(** The response is one of the two envelopes: a success, or an error
    with one of the given status codes. *)
Definition answers (codes : list Z) (r : Response) : Prop :=
  (exists d m, r = successResponse d m)
  \/ (exists msg code, In code codes /\ r = errorResponse msg code).

(** The error statuses each entry point can answer with. *)
Definition statuses (e : entry) : list Z :=
  match e with
  | Checkout _ | SubscriptionCreate _ => [400; 500]
  | Webhook _ _ => [400]
  | Receipt _ | SubscriptionCancel _ => [404; 500]
  end.

(** Resolve the adapter for the body's provider and create the
    subscription with it: the processor-facing steps of
    [handleSubscriptionCreate]. *)
Definition open_subscription (body : value) : M value :=
  env <- ask ;;
  adapter <- getProviderAdapter (prop body "provider") ;;
  createSubscription adapter (Router.subscription_payload env body).

(** The metadata [handleSubscriptionCreate] stores for a request body. *)
Definition subscription_record (env : Env) (body : value) : value :=
  VObj [("userId", prop body "userId"); ("provider", prop body "provider");
        ("email", prop body "email"); ("type", VStr "subscription");
        ("planId", or_else (prop body "planId") (prop body "priceId"));
        ("createdAt", VStr (isoNow env))].

(** The SESSIONS key of a session or subscription, [session:{id}]. *)
Definition session_key (id : value) : string := "session:" +:+ to_string id.

(** The key of the webhook counter, [webhook:{provider}:{eventType}:{date}]. *)
Definition webhook_counter (env : Env) (provider : string) (event : WebhookEvent) : string :=
  "webhook:" +:+ provider +:+ ":" +:+ to_string (eventType event) +:+ ":" +:+ today env.

(** What [handleSubscriptionCreate] does once the processor has created
    the subscription: store, log, answer. *)
Definition persist_subscription (body subscription : value) : M Response :=
  env <- ask ;;
  KV.storeSession (prop subscription "subscriptionId") (subscription_record env body)
    (86400 * 30) ;;;
  Logger.info "Subscription created"
    (VObj [("subscriptionId", prop subscription "subscriptionId");
           ("provider", prop body "provider"); ("userId", prop body "userId")]) ;;;
  ret (successResponse subscription "Subscription created successfully").

(** The [catch] of [handleSubscriptionCreate]. *)
Definition subscription_failed (message : string) : M Response :=
  Logger.error "Subscription creation error" (VObj [("error", VStr message)]) ;;;
  ret (errorResponse message 500).

(** What the worker's entry point logs around [route], when entries of
    level INFO are logged at all. *)
Definition log_line (env : Env) (message : string) : list effect :=
  if Logger.LOG_LEVELS INFO <? Logger.minLevel env then [] else [Logged INFO message].

(** The request a PayPal adapter has a delivery verified with, given the
    access token and the delivery's JSON body. *)
Definition verification_request (a : PayPal.t) (request : Request)
    (token eventData : value) : FetchReq :=
  request_to (PayPal.baseUrl a +:+ "/v1/notifications/verify-webhook-signature") "POST"
    (Bearer (to_string token))
    (VObj [("transmission_id", header_get request "paypal-transmission-id");
           ("transmission_time", header_get request "paypal-transmission-time");
           ("cert_url", header_get request "paypal-cert-url");
           ("auth_algo", header_get request "paypal-auth-algo");
           ("transmission_sig", header_get request "paypal-transmission-sig");
           ("webhook_id", of_opt (PayPal.webhookId a));
           ("webhook_event", eventData)]).

(** The stores with the counter [key] set to [text]. *)
Definition with_counter (st : Stores) (key text : string) (ttl : Z) : Stores :=
  {| events := events st; sessions := sessions st;
     metrics := <[key := (text, ttl)]> (metrics st) |}.

(** The stores with the document [doc] stored under [key] in SESSIONS. *)
Definition with_session (st : Stores) (key : string) (doc : value) (ttl : Z) : Stores :=
  {| events := events st; sessions := <[key := (doc, ttl)]> (sessions st);
     metrics := metrics st |}.

(** A byte. *)
Definition byte (b : Z) : Prop := 0 <= b < 256.

(** A piece of a signature header: no value, or text without [=]. *)
Definition plain_value (v : value) : Prop :=
  v = VUndefined \/ exists s, v = VStr s /\ Str.includes "=" s = false.

(** A run that called nothing over the network and left the ledger and
    the sessions as they were. *)
Definition offline (st : Stores) (out : Response * Stores * list effect) : Prop :=
  existsb is_fetch (effects_of out) = false /\ same_docs st (stores_of out).

(** A run that answered with an error, left the ledger, the sessions and
    the counters other than the error counters as they were, and did no
    more than an adapter may. *)
Definition refused (st : Stores) (out : Response * Stores * list effect) : Prop :=
  status (response_of out) <> 200
  /\ frame st (stores_of out) /\ forallb adapter_effect (effects_of out) = true.

(** A link of a PayPal order that is the approval link. *)
Definition approves (link : value) : Prop := prop link "rel" = VStr "approve".


(** [Number.isSafeInteger(n)]: the integers a JavaScript number holds
    exactly. On them [String] writes the decimal digits, [parseInt]
    reads them back and [+ 1] is exact, as in the model; beyond them a
    JavaScript number rounds, and the model does not. *)
Definition safe_integer (n : Z) : Prop := - 2 ^ 53 < n < 2 ^ 53.

(** ** A concrete deployment, for examples *)

Module Demo.

Definition quoted (s : string) : string :=
  String (ascii_of_nat 34) (s +:+ String (ascii_of_nat 34) "").

(** The body of a Paddle notification, as text and as parsed. *)
Definition paddle_text : string :=
  "{" +:+ quoted "event_id" +:+ ":" +:+ quoted "evt_1" +:+ ","
      +:+ quoted "event_type" +:+ ":" +:+ quoted "transaction.completed" +:+ "}".

Definition paddle_body : value :=
  VObj [("event_id", VStr "evt_1"); ("event_type", VStr "transaction.completed")].

Definition secret : string := "test_paddle_secret".

(** A [Paddle-Signature] header for [paddle_text] signed at [ts]. *)
Definition signature (ts : string) : string :=
  "ts=" +:+ ts +:+ ";h1="
  +:+ Crypto.hex (Crypto.hmac_sha256 (Crypto.bytes_of secret)
                    (Crypto.bytes_of (ts +:+ ":" +:+ paddle_text))).

(** Signed in January 1970. *)
Definition delivery : Request :=
  {| headers := [("Content-Type", "application/json");
                 ("Paddle-Signature", signature "1")];
     text := paddle_text; json := Some paddle_body |}.

Definition unsigned : Request :=
  {| headers := [("Content-Type", "application/json")];
     text := paddle_text; json := Some paddle_body |}.


Definition event : WebhookEvent := extract KPaddle paddle_body.

Definition paypal_body : value :=
  VObj [("id", VStr "WH-1"); ("event_type", VStr "PAYMENT.CAPTURE.COMPLETED")].

Definition paypal_delivery : Request :=
  {| headers := [("PayPal-Transmission-Id", "tx-1"); ("PayPal-Transmission-Sig", "c2ln")];
     text := ""; json := Some paypal_body |}.

(** The processor's answer to a created transaction, and networks. *)
Definition transaction : value :=
  VObj [("data", VObj [("id", VStr "txn_123");
                       ("checkout", VObj [("url", VStr "https://paddle.test/checkout/123")])])].

Definition up : FetchReq -> FetchResult :=
  fun _ => HttpResponse 200 "OK" "" (Some transaction).

Definition unreachable : FetchReq -> FetchResult :=
  fun _ => NetworkError "connect ECONNREFUSED".

Definition unavailable : FetchReq -> FetchResult :=
  fun _ => HttpResponse 503 "Service Unavailable" "upstream down" None.

(** 2024-01-15T10:30:00Z *)
Definition env (network : FetchReq -> FetchResult) : Env :=
  {| PADDLE_API_KEY := Some "test_paddle_key";
     PADDLE_WEBHOOK_SECRET := Some secret;
     PADDLE_SANDBOX := None;
     PAYPAL_CLIENT_ID := Some "test_paypal_id";
     PAYPAL_CLIENT_SECRET := Some "test_paypal_secret";
     PAYPAL_WEBHOOK_ID := Some "test_webhook_id";
     PAYPAL_SANDBOX := None;
     INTERNAL_BACKEND_URL := Some "https://test-backend.com";
     INTERNAL_SECRET := Some "test_internal_secret";
     LOG_LEVEL := None;
     now := 1705314600000;
     isoNow := "2024-01-15T10:30:00.000Z";
     net := network |}.

Definition empty : Stores := {| events := ∅; sessions := ∅; metrics := ∅ |}.

Definition checkout_body : value :=
  VObj [("provider", VStr "paddle"); ("userId", VStr "user_123");
        ("email", VStr "t@example.com"); ("amount", VNum 1000);
        ("productName", VStr "Test")].

Definition checkout : Request :=
  {| headers := [("Content-Type", "application/json")]; text := "";
     json := Some checkout_body |}.

Definition with_body (body : value) : Request :=
  {| headers := [("Content-Type", "application/json")]; text := ""; json := Some body |}.

(** A Paddle notification with the raw body [raw], parsed as [parsed],
    signed at [ts] with the deployment's secret. *)
Definition signed (ts raw : string) (parsed : value) : Request :=
  {| headers := [("Paddle-Signature",
                  "ts=" +:+ ts +:+ ";h1=" +:+ digest secret (ts +:+ ":" +:+ raw))];
     text := raw; json := Some parsed |}.

End Demo.

(** * Properties *)

(** ** Test vectors for the primitives *)

Example sha256_abc :
  Crypto.hex (Crypto.sha256 (Crypto.bytes_of "abc"))
  = "ba7816bf8f01cfea414140de5dae2223b00361a396177a9cb410ff61f20015ad".
Proof. vm_compute. reflexivity. Qed.

Example sha256_empty :
  Crypto.hex (Crypto.sha256 [])
  = "e3b0c44298fc1c149afbf4c8996fb92427ae41e4649b934ca495991b7852b855".
Proof. vm_compute. reflexivity. Qed.

Example hmac_fox :
  Crypto.hex (Crypto.hmac_sha256 (Crypto.bytes_of "key")
                (Crypto.bytes_of "The quick brown fox jumps over the lazy dog"))
  = "f7bc83f430538424b13298e6aa6fb143ef4d59a14946175997479dbc2d1a3cd8".
Proof. vm_compute. reflexivity. Qed.

Example hmac_long_key :
  Crypto.hex (Crypto.hmac_sha256 (repeat 107 70) (repeat 120 120))
  = "cc7303de037b22ab70b4ffc9af4aee2175209d3c6e805f0662a63d0e62e51cc9".
Proof. vm_compute. reflexivity. Qed.

Example parseInt_examples :
  Str.parseInt "41" = Some 41 /\ Str.parseInt " -7x" = Some (-7) /\
  Str.parseInt "NaN" = None /\ Str.of_Z 1205 = "1205" /\ Str.of_Z 0 = "0" /\
  Str.of_Z (-30) = "-30" /\ Str.split ";" "ts=1;h1=ab" = ["ts=1"; "h1=ab"] /\
  Str.split "=" "" = [""] /\ Str.toLowerCase "PayPal" = "paypal".
Proof. vm_compute. repeat split; reflexivity. Qed.


(** ** The computation monad *)

Arguments to_string : simpl never.
Arguments jsonify : simpl never.
Arguments Str.parseInt : simpl never.
Arguments Str.of_number : simpl never.
Arguments Str.toLowerCase : simpl never.
Arguments Webhook.verifyHmacSignature : simpl never.
Arguments today : simpl never.

Ltac pair_inv :=
  repeat match goal with
         | H : (_, _) = (_, _) |- _ => inversion H; clear H; subst
         end.

Lemma frame_refl st : frame st st.
Proof. repeat split; reflexivity. Qed.

Lemma frame_trans st1 st2 st3 : frame st1 st2 -> frame st2 st3 -> frame st1 st3.
Proof.
  intros (He1 & Hs1 & Hm1) (He2 & Hs2 & Hm2). repeat split.
  - congruence.
  - congruence.
  - intros k Hk. rewrite Hm2, Hm1; auto.
Qed.

Lemma bind_run {A B} (m : M A) (k : A -> M B) env st :
  bind m k env st =
  match m env st with
  | (Ok a, st1, t1) => let '(r, st2, t2) := k a env st1 in (r, st2, t1 ++ t2)
  | (Throw msg, st1, t1) => (Throw msg, st1, t1)
  end.
Proof. reflexivity. Qed.

Lemma try_catch_run {A} (m : M A) (h : string -> M A) env st :
  try_catch m h env st =
  match m env st with
  | (Ok a, st1, t1) => (Ok a, st1, t1)
  | (Throw msg, st1, t1) => let '(r, st2, t2) := h msg env st1 in (r, st2, t1 ++ t2)
  end.
Proof. reflexivity. Qed.

(** [try { a = m; k(a) } catch { h }] runs [m], then the rest under the
    same handler. *)
Lemma try_catch_bind {A B} (m : M A) (k : A -> M B) (h : string -> M B) env st :
  try_catch (bind m k) h env st =
  match m env st with
  | (Ok a, st1, t1) => let '(r, st2, t2) := try_catch (k a) h env st1 in (r, st2, t1 ++ t2)
  | (Throw msg, st1, t1) => let '(r, st2, t2) := h msg env st1 in (r, st2, t1 ++ t2)
  end.
Proof.
  unfold try_catch, bind.
  destruct (m env st) as [[[a|msg] st1] t1]; [|reflexivity].
  destruct (k a env st1) as [[[b|msg] st2] t2]; [reflexivity|].
  destruct (h msg env st2) as [[r st3] t3]. rewrite app_assoc. reflexivity.
Qed.

(** ** Computations that keep to a set of effects *)

Section Keeps.
Context (P : effect -> bool) (R : Stores -> Stores -> Prop) `{!PreOrder R}.

Lemma Keeps_ret {A} (a : A) : Keeps P R (ret a).
Proof. intros env st r st' t E. inversion E; subst. split; reflexivity. Qed.

Lemma Keeps_throw {A} msg : Keeps P R (@throw A msg).
Proof. intros env st r st' t E. inversion E; subst. split; reflexivity. Qed.

Lemma Keeps_ask : Keeps P R ask.
Proof. intros env st r st' t E. inversion E; subst. split; reflexivity. Qed.

Lemma Keeps_get_stores : Keeps P R get_stores.
Proof. intros env st r st' t E. inversion E; subst. split; reflexivity. Qed.

Lemma Keeps_tell e : P e = true -> Keeps P R (tell e).
Proof.
  intros He env st r st' t E. inversion E; subst. split; [reflexivity|].
  simpl. rewrite He. reflexivity.
Qed.

Lemma Keeps_bind {A B} (m : M A) (k : A -> M B) :
  Keeps P R m -> (forall a, Keeps P R (k a)) -> Keeps P R (bind m k).
Proof.
  intros Hm Hk env st r st' t E. rewrite bind_run in E.
  destruct (m env st) as [[[a|msg] st1] t1] eqn:E1.
  - destruct (k a env st1) as [[r2 st2] t2] eqn:E2. pair_inv.
    destruct (Hm _ _ _ _ _ E1), (Hk _ _ _ _ _ _ E2).
    split; [etransitivity; eauto|]. rewrite forallb_app. auto with bool.
  - pair_inv. eauto.
Qed.

Lemma Keeps_try_catch {A} (m : M A) (h : string -> M A) :
  Keeps P R m -> (forall msg, Keeps P R (h msg)) -> Keeps P R (try_catch m h).
Proof.
  intros Hm Hh env st r st' t E. rewrite try_catch_run in E.
  destruct (m env st) as [[[a|msg] st1] t1] eqn:E1.
  - pair_inv. eauto.
  - destruct (h msg env st1) as [[r2 st2] t2] eqn:E2. pair_inv.
    destruct (Hm _ _ _ _ _ E1), (Hh _ _ _ _ _ _ E2).
    split; [etransitivity; eauto|]. rewrite forallb_app. auto with bool.
Qed.

End Keeps.

Lemma Keeps_weaken {A} (P P' : effect -> bool) (R R' : Stores -> Stores -> Prop) (m : M A) :
  (forall e, P e = true -> P' e = true) -> (forall st st', R st st' -> R' st st') ->
  Keeps P R m -> Keeps P' R' m.
Proof.
  intros HP HR Hm env st r st' t E. destruct (Hm _ _ _ _ _ E) as [H1 H2].
  split; [auto|]. rewrite forallb_forall in *. auto.
Qed.

#[local] Instance frame_preorder : PreOrder frame.
Proof. split; [exact frame_refl|exact frame_trans]. Qed.

#[local] Instance same_docs_preorder : PreOrder same_docs.
Proof.
  split.
  - intros st. split; reflexivity.
  - intros st1 st2 st3 [? ?] [? ?]. split; congruence.
Qed.

Lemma error_key_counter env data : error_key (Logger.error_counter env data) = true.
Proof. reflexivity. Qed.

(** The logger's counter update: one read and one write of one
    [error:] key. *)
Lemma incrementErrorMetric_run data env st :
  exists v,
    Logger._incrementErrorMetric data env st =
    (Ok tt, {| events := events st; sessions := sessions st;
               metrics := <[Logger.error_counter env data := (v, 86400 * 30)]> (metrics st) |},
     [KvGet METRICS (Logger.error_counter env data);
      KvPut METRICS (Logger.error_counter env data)]).
Proof.
  unfold Logger._incrementErrorMetric. cbv [try_catch bind ask get_stores tell set_stores ret].
  simpl. eauto.
Qed.

Lemma Quiet_incrementErrorMetric data : Quiet (Logger._incrementErrorMetric data).
Proof.
  intros env st r st' t E. destruct (incrementErrorMetric_run data env st) as (v & E').
  rewrite E' in E. pair_inv. split.
  - repeat split; simpl; auto. intros k Hk.
    apply lookup_insert_ne. intros <-. rewrite error_key_counter in Hk. discriminate.
  - cbn [forallb adapter_effect]. rewrite !error_key_counter. reflexivity.
Qed.

Lemma Quiet_log l message data : Quiet (Logger._log l message data).
Proof.
  unfold Logger._log. apply Keeps_bind; [apply _|apply Keeps_ask; apply _|].
  intros env. destruct (_ <? _); [apply Keeps_ret; apply _|].
  apply Keeps_bind; [apply _|apply Keeps_tell; [apply _|reflexivity]|].
  intros _. destruct l; try (apply Keeps_ret; apply _).
  apply Quiet_incrementErrorMetric.
Qed.

(** ** Adapter operations change nothing when they resolve *)

Lemma Inv_of_Quiet_NeverOk {A} (m : M A) : Quiet m -> NeverOk m -> Inv m.
Proof.
  intros HQ HN env st r st' t E. destruct (HQ _ _ _ _ _ E) as [Hf Ha].
  split; [exact Hf|]. split; [exact Ha|].
  intros a ->. destruct (HN env st) as (msg & st2 & t2 & E2).
  rewrite E2 in E. discriminate.
Qed.

Lemma Inv_ret {A} (a : A) : Inv (ret a).
Proof.
  intros env st r st' t E. inversion E; subst.
  repeat split; auto.
Qed.

Lemma Inv_throw {A} msg : Inv (@throw A msg).
Proof.
  intros env st r st' t E. inversion E; subst.
  repeat split; auto; discriminate.
Qed.

Lemma Inv_ask : Inv ask.
Proof. intros env st r st' t E. inversion E; subst. repeat split; auto. Qed.

Lemma Inv_imported m : Inv (tell (Imported m)).
Proof. intros env st r st' t E. inversion E; subst. repeat split; auto. Qed.

Lemma Inv_bind {A B} (m : M A) (k : A -> M B) :
  Inv m -> (forall a, Inv (k a)) -> Inv (bind m k).
Proof.
  intros Hm Hk env st r st' t E. rewrite bind_run in E.
  destruct (m env st) as [[[a|msg] st1] t1] eqn:E1.
  - destruct (k a env st1) as [[r2 st2] t2] eqn:E2. pair_inv.
    destruct (Hm _ _ _ _ _ E1) as (F1 & A1 & O1).
    destruct (Hk _ _ _ _ _ _ E2) as (F2 & A2 & O2).
    split; [eapply frame_trans; eauto|]. rewrite !forallb_app. split; [auto with bool|].
    intros b ->. destruct (O1 a eq_refl) as [-> S1]. destruct (O2 b eq_refl) as [-> S2].
    auto with bool.
  - pair_inv. destruct (Hm _ _ _ _ _ E1) as (F1 & A1 & O1).
    repeat split; auto; try apply F1; discriminate.
Qed.

Lemma Inv_try_catch {A} (m : M A) (h : string -> M A) :
  Inv m -> (forall msg, Quiet (h msg)) -> (forall msg, NeverOk (h msg)) ->
  Inv (try_catch m h).
Proof.
  intros Hm Hq Hn env st r st' t E. rewrite try_catch_run in E.
  destruct (m env st) as [[[a|msg] st1] t1] eqn:E1.
  - pair_inv. eauto.
  - destruct (Hn msg env st1) as (msg2 & st2 & t2 & E2). rewrite E2 in E. pair_inv.
    destruct (Hm _ _ _ _ _ E1) as (F1 & A1 & O1).
    destruct (Hq _ _ _ _ _ _ E2) as (F2 & A2).
    split; [eapply frame_trans; eauto|]. rewrite forallb_app. split; [auto with bool|].
    discriminate.
Qed.

(** The logger never throws. *)
Lemma log_total l message data env st :
  exists st' t, Logger._log l message data env st = (Ok tt, st', t).
Proof.
  unfold Logger._log. cbv [bind ask tell ret].
  destruct (_ <? _); [eauto|].
  destruct (incrementErrorMetric_run data env st) as (v & E).
  destruct l; try rewrite E; simpl; eauto.
Qed.

(** A level below ERROR logs without touching any store. *)
Lemma Inv_log l message data : l <> ERROR -> Inv (Logger._log l message data).
Proof.
  intros Hl env st r st' t E. unfold Logger._log in E.
  cbv [bind ask tell ret] in E.
  destruct (_ <? _); [pair_inv; repeat split; auto|].
  destruct l; try congruence; simpl in E; pair_inv; repeat split; auto.
Qed.

Lemma Inv_info message data : Inv (Logger.info message data).
Proof. apply Inv_log. discriminate. Qed.

(** [catch (error) { logger.error(...); throw error }] *)
Lemma NeverOk_rethrow {A} s d message :
  NeverOk (Logger.error s d ;;; @throw A message).
Proof.
  intros env st. destruct (log_total ERROR s d env st) as (st' & t & E).
  rewrite bind_run. unfold Logger.error. rewrite E. simpl. eauto.
Qed.

Lemma Quiet_rethrow {A} s d message : Quiet (Logger.error s d ;;; @throw A message).
Proof.
  apply Keeps_bind; [apply _|apply Quiet_log|intros; apply Keeps_throw; apply _].
Qed.

Lemma Inv_rethrowing {A} (m : M A) s (d : string -> value) :
  Inv m -> Inv (try_catch m (fun message => Logger.error s (d message) ;;; throw message)).
Proof.
  intros Hm. apply Inv_try_catch; auto; intros.
  - apply Quiet_rethrow.
  - apply NeverOk_rethrow.
Qed.

Lemma Inv_read v k : Inv (read v k).
Proof. unfold read. destruct (nullish v); [apply Inv_throw|apply Inv_ret]. Qed.

Lemma Inv_response_json r : Inv (response_json r).
Proof. unfold response_json. destruct r as [|? ? ? [|]]; try apply Inv_throw; apply Inv_ret. Qed.

Lemma Inv_request_json rq : Inv (request_json rq).
Proof. unfold request_json. destruct (json rq); [apply Inv_ret|apply Inv_throw]. Qed.

(** [response = await fetch(...); if (!response.ok) throw ...]: past the
    check, the call succeeded. *)
Lemma Inv_fetch_checked {A} rq (f : FetchResult -> string) (k : FetchResult -> M A) :
  (forall response, Inv (k response)) ->
  Inv (response <- fetch Processor rq ;;
       if negb (response_is_ok response) then throw (f response) else k response).
Proof.
  intros Hk env st r st' t E. rewrite bind_run in E.
  unfold fetch in E. cbv [bind ask tell ret throw] in E.
  destruct (net env rq) as [msg|code stt txt js] eqn:En; simpl in E.
  - pair_inv. repeat split; auto; discriminate.
  - unfold response_is_ok in E. simpl in E.
    destruct (response_ok code) eqn:Hok; simpl in E.
    + destruct (k (HttpResponse code stt txt js) env st) as [[r2 st2] t2] eqn:E2.
      pair_inv. destruct (Hk _ _ _ _ _ _ E2) as (F2 & A2 & O2).
      repeat split; try apply F2; simpl; auto.
      * destruct (O2 _ H) as [-> _]. reflexivity.
      * destruct (O2 _ H) as [_ S2]. rewrite Hok. simpl. exact S2.
    + pair_inv. repeat split; auto; discriminate.
Qed.

Ltac inv_step :=
  lazymatch goal with
  | |- Inv (bind (fetch Processor _) _) => apply Inv_fetch_checked; intros
  | |- Inv (bind _ _) => apply Inv_bind; [|intros]
  | |- Inv (try_catch _ _) => apply Inv_rethrowing
  | |- Inv (ret _) => apply Inv_ret
  | |- Inv (throw _) => apply Inv_throw
  | |- Inv ask => apply Inv_ask
  | |- Inv (read _ _) => apply Inv_read
  | |- Inv (response_json _) => apply Inv_response_json
  | |- Inv (request_json _) => apply Inv_request_json
  | |- Inv (Logger.info _ _) => apply Inv_info
  | |- Inv (tell (Imported _)) => apply Inv_imported
  | |- Inv (if ?b then _ else _) => destruct b
  | |- Inv (match ?v with _ => _ end) => destruct v
  end.

Lemma Inv_find_approve links : Inv (PayPal.find_approve links).
Proof.
  induction links as [|link rest IH]; simpl; [apply Inv_ret|].
  apply Inv_bind; [apply Inv_read|]. intros rel.
  destruct rel; auto. destruct (String.eqb_spec s "approve") as [->|Hne].
  - apply Inv_ret.
  - repeat (inv_step; auto).
Qed.

Lemma Inv_approval_link data : Inv (PayPal.approval_link data).
Proof.
  unfold PayPal.approval_link. apply Inv_bind; [apply Inv_read|].
  intros links. destruct links; try apply Inv_throw. apply Inv_find_approve.
Qed.

Lemma Inv_getAccessToken a : Inv (PayPal.getAccessToken a).
Proof. unfold PayPal.getAccessToken. repeat inv_step. Qed.

Ltac inv_adapter :=
  repeat first [ apply Inv_getAccessToken | apply Inv_approval_link | inv_step ].

Lemma Inv_paddle_createCheckoutSession a p : Inv (Paddle.createCheckoutSession a p).
Proof. unfold Paddle.createCheckoutSession. inv_adapter. Qed.

Lemma Inv_paddle_verifyWebhook a rq : Inv (Paddle.verifyWebhook a rq).
Proof. unfold Paddle.verifyWebhook. inv_adapter. Qed.

Lemma Inv_paddle_getSession a sid : Inv (Paddle.getSession a sid).
Proof. unfold Paddle.getSession. inv_adapter. Qed.

Lemma Inv_paddle_createSubscription a p : Inv (Paddle.createSubscription a p).
Proof. unfold Paddle.createSubscription. inv_adapter. Qed.

Lemma Inv_paddle_cancelSubscription a sid : Inv (Paddle.cancelSubscription a sid).
Proof. unfold Paddle.cancelSubscription. inv_adapter. Qed.

Lemma Inv_paypal_createCheckoutSession a p : Inv (PayPal.createCheckoutSession a p).
Proof. unfold PayPal.createCheckoutSession. inv_adapter. Qed.

Lemma Inv_paypal_verifyWebhook a rq : Inv (PayPal.verifyWebhook a rq).
Proof. unfold PayPal.verifyWebhook. inv_adapter. Qed.

Lemma Inv_paypal_getSession a sid : Inv (PayPal.getSession a sid).
Proof. unfold PayPal.getSession. inv_adapter. Qed.

Lemma Inv_paypal_createSubscription a p : Inv (PayPal.createSubscription a p).
Proof. unfold PayPal.createSubscription. inv_adapter. Qed.

Lemma Inv_paypal_cancelSubscription a sid : Inv (PayPal.cancelSubscription a sid).
Proof. unfold PayPal.cancelSubscription. inv_adapter. Qed.

(** ** The factory and the adapter interface *)

Lemma Inv_getProviderAdapter v : Inv (getProviderAdapter v).
Proof.
  unfold getProviderAdapter. apply Inv_bind; [apply Inv_ask|]. intros env.
  destruct v; try apply Inv_throw.
  repeat (inv_step; auto).
Qed.

Lemma Inv_verifyWebhook a rq : Inv (verifyWebhook a rq).
Proof.
  destruct a; simpl;
    [apply Inv_paddle_verifyWebhook|apply Inv_paypal_verifyWebhook|apply Inv_throw].
Qed.

Lemma Inv_createCheckoutSession a p : Inv (createCheckoutSession a p).
Proof.
  destruct a; simpl;
    [apply Inv_paddle_createCheckoutSession|apply Inv_paypal_createCheckoutSession
    |apply Inv_throw].
Qed.

Lemma Inv_getSession a sid : Inv (getSession a sid).
Proof.
  destruct a; simpl;
    [apply Inv_paddle_getSession|apply Inv_paypal_getSession|apply Inv_throw].
Qed.

Lemma Inv_createSubscription a p : Inv (createSubscription a p).
Proof.
  destruct a; simpl;
    [apply Inv_paddle_createSubscription|apply Inv_paypal_createSubscription
    |apply Inv_throw].
Qed.

Lemma Inv_cancelSubscription a sid : Inv (cancelSubscription a sid).
Proof.
  destruct a; simpl;
    [apply Inv_paddle_cancelSubscription|apply Inv_paypal_cancelSubscription
    |apply Inv_throw].
Qed.

Lemma Inv_authenticate rq p : Inv (authenticate rq p).
Proof.
  unfold authenticate. apply Inv_bind; [apply Inv_getProviderAdapter|].
  intros a. apply Inv_verifyWebhook.
Qed.

Lemma Inv_open_checkout body : Inv (open_checkout body).
Proof.
  unfold open_checkout. apply Inv_bind; [apply Inv_ask|]. intros env.
  apply Inv_bind; [apply Inv_getProviderAdapter|]. intros a.
  apply Inv_createCheckoutSession.
Qed.

Lemma Inv_lookup_details session sid : Inv (lookup_details session sid).
Proof.
  unfold lookup_details. apply Inv_bind; [apply Inv_getProviderAdapter|].
  intros a. apply Inv_getSession.
Qed.

(** ** Housekeeping steps of the handlers *)


Lemma incrementCounter_run key ttl env st :
  exists n v,
    KV.incrementCounter key ttl env st =
    (Ok n, {| events := events st; sessions := sessions st;
              metrics := <[key := (v, ttl)]> (metrics st) |},
     [KvGet METRICS key; KvPut METRICS key]).
Proof. unfold KV.incrementCounter. cbv [bind get_stores tell set_stores ret]. simpl. eauto. Qed.

Lemma Tidy_incrementCounter key ttl : Tidy (KV.incrementCounter key ttl).
Proof.
  intros env st r st' t E. destruct (incrementCounter_run key ttl env st) as (n & v & E').
  rewrite E' in E. pair_inv. split; [split; reflexivity|reflexivity].
Qed.

Lemma Tidy_log l message data : Tidy (Logger._log l message data).
Proof.
  unfold Logger._log. apply Keeps_bind; [apply _|apply Keeps_ask; apply _|].
  intros env. destruct (_ <? _); [apply Keeps_ret; apply _|].
  apply Keeps_bind; [apply _|apply Keeps_tell; [apply _|reflexivity]|].
  intros _. destruct l; try (apply Keeps_ret; apply _).
  intros e st r st' t E. destruct (incrementErrorMetric_run data e st) as (v & E').
  rewrite E' in E. pair_inv. split; [split; reflexivity|reflexivity].
Qed.

(** A logging call resolves; what it leaves behind is tidy. *)
Lemma log_run l message data env st :
  exists st' t, Logger._log l message data env st = (Ok tt, st', t) /\
                same_docs st st' /\ forallb bookkeeping t = true /\
                (l <> ERROR -> st' = st /\ forallb silent_effect t = true).
Proof.
  destruct (log_total l message data env st) as (st' & t & E).
  exists st', t. split; [exact E|].
  destruct (Tidy_log _ _ _ _ _ _ _ _ E) as [H1 H2].
  split; [exact H1|]. split; [exact H2|].
  intros Hl. destruct (Inv_log l message data Hl _ _ _ _ _ E) as (_ & _ & O).
  exact (O tt eq_refl).
Qed.

Lemma bookkeeping_housekeeping t :
  forallb bookkeeping t = true -> forallb housekeeping t = true.
Proof.
  rewrite !forallb_forall. intros H e He. specialize (H e He).
  destruct e as [[]|[]|[]| |]; simpl in *; auto.
Qed.

Lemma bookkeeping_no_failure t : forallb bookkeeping t = true -> processor_failed t = false.
Proof.
  unfold processor_failed. induction t as [|e t IH]; simpl; [reflexivity|].
  intros H. apply andb_prop in H as [He Ht]. rewrite (IH Ht).
  destruct e as [[]|[]|[]| |]; simpl in *; try discriminate; auto.
Qed.

Lemma housekeeping_not_backend t : forallb housekeeping t = true -> forwards t = 0%nat.
Proof.
  unfold forwards. induction t as [|e t IH]; simpl; [reflexivity|].
  intros H. apply andb_prop in H as [He Ht].
  destruct e as [| |[] | |]; simpl in *; try discriminate; auto.
Qed.


Lemma adapter_effect_housekeeping t :
  forallb adapter_effect t = true -> forallb housekeeping t = true.
Proof.
  rewrite !forallb_forall. intros H e He. specialize (H e He).
  destruct e as [[]|[]|[]| |]; simpl in *; auto.
Qed.

Lemma silent_effect_adapter t :
  forallb silent_effect t = true -> forallb adapter_effect t = true.
Proof.
  rewrite !forallb_forall. intros H e He. specialize (H e He).
  destruct e as [[]|[]|[]| |]; simpl in *; auto; discriminate.
Qed.

Lemma silent_no_write t : forallb silent_effect t = true -> existsb is_kv_write t = false.
Proof.
  induction t as [|e t IH]; simpl; [reflexivity|].
  intros H. apply andb_prop in H as [He Ht]. rewrite (IH Ht).
  destruct e as [[]|[]|[]| |]; simpl in *; try discriminate; auto.
Qed.

Lemma silent_no_failure t : forallb silent_effect t = true -> processor_failed t = false.
Proof.
  unfold processor_failed. induction t as [|e t IH]; simpl; [reflexivity|].
  intros H. apply andb_prop in H as [He Ht]. rewrite (IH Ht).
  destruct e as [[]|[]|[]| |]; simpl in *; try discriminate; auto.
  rewrite negb_true_iff in He. rewrite He. reflexivity.
Qed.

(** ** The webhook handler, step by step *)

Lemma forward_run p ev env st :
  exists st' tl,
    Router.forward p ev env st =
    (Ok tt, st',
     Fetched Backend (Router.notify_request env p ev)
       (net env (Router.notify_request env p ev)) :: tl)
    /\ same_docs st st' /\ forallb bookkeeping tl = true.
Proof.
  unfold Router.forward, fetch, Logger.warn, Logger.error.
  cbv [bind ask tell ret throw try_catch].
  destruct (net env (Router.notify_request env p ev)) as [msg|code stt txt js]; simpl.
  - match goal with |- context [Logger._log ?l ?m ?d env st] =>
      destruct (log_run l m d env st) as (st' & t & E & Hd & Hh & _) end.
    rewrite E. eauto.
  - unfold response_is_ok. simpl. destruct (response_ok code); simpl.
    + exists st, []. repeat split; reflexivity.
    + match goal with |- context [Logger._log ?l ?m ?d env st] =>
        destruct (log_run l m d env st) as (st' & t & E & Hd & Hh & _) end.
      rewrite E. eauto.
Qed.

(** Step 3 on a marked event: acknowledge, and nothing else. *)
Lemma deliver_duplicate p ev env st :
  is_Some (events st !! marker_key p ev) ->
  exists tl,
    deliver p ev env st =
    (Ok (successResponse Router.received "Event already processed"), st,
     KvGet EVENTS (marker_key p ev) :: tl)
    /\ forallb silent_effect tl = true.
Proof.
  intros Hm. unfold deliver, KV.isEventProcessed, Logger.info.
  fold (marker_key p ev).
  cbv [bind ask get_stores tell ret]. rewrite (bool_decide_eq_true_2 _ Hm).
  match goal with |- context [Logger._log ?l ?m ?d env st] =>
    destruct (log_run l m d env st) as (st' & t & E & _ & _ & Hs) end.
  destruct Hs as [-> Hs]; [discriminate|]. rewrite E. simpl.
  exists t. rewrite app_nil_r. auto.
Qed.

(** Steps 3 to 6 on an event without a marker: mark, forward once,
    count, acknowledge. *)
Lemma deliver_fresh p ev env st :
  events st !! marker_key p ev = None ->
  exists st' tl,
    deliver p ev env st =
    (Ok (successResponse Router.received "Webhook processed successfully"), st',
     KvGet EVENTS (marker_key p ev) :: KvPut EVENTS (marker_key p ev)
       :: Fetched Backend (Router.notify_request env p ev)
            (net env (Router.notify_request env p ev)) :: tl)
    /\ forallb bookkeeping tl = true
    /\ events st' = <[marker_key p ev := (marker_doc env ev, KV.default_event_ttl)]> (events st)
    /\ sessions st' = sessions st.
Proof.
  intros Hm. unfold deliver, KV.isEventProcessed, KV.markEventProcessed, KV.put_doc,
    Logger.info.
  fold (marker_key p ev). fold (marker_doc env ev).
  rewrite bind_run. cbv [ask]. rewrite bind_run. cbv [bind get_stores tell ret].
  rewrite bool_decide_eq_false_2 by (rewrite Hm; intros [? ?]; discriminate).
  cbv [set_stores]. cbn [fst snd].
  set (st1 := {| events := _; sessions := _; metrics := _ |}).
  destruct (forward_run p ev env st1) as (st2 & tf & Ef & [He2 Hs2] & Hf).
  rewrite Ef.
  match goal with |- context [KV.incrementCounter ?k ?ttl env st2] =>
    destruct (incrementCounter_run k ttl env st2) as (n & v & Eb) end.
  rewrite Eb.
  match goal with |- context [Logger._log ?l ?m ?d env ?s] =>
    destruct (log_run l m d env s) as (st3 & tl & El & [He3 Hs3] & Hh & _) end.
  rewrite El. simpl.
  eexists _, _. split; [reflexivity|]. split; [|split].
  - rewrite forallb_app, Hf. simpl. rewrite app_nil_r. exact Hh.
  - rewrite He3. simpl. rewrite He2. reflexivity.
  - rewrite Hs3. simpl. rewrite Hs2. reflexivity.
Qed.

Lemma reject_run p msg env st :
  exists st' t,
    reject p msg env st = (Ok (errorResponse msg 400), st', t)
    /\ frame st st' /\ forallb adapter_effect t = true.
Proof.
  unfold reject, Logger.error. rewrite bind_run.
  match goal with |- context [Logger._log ?l ?m ?d env st] =>
    destruct (log_total l m d env st) as (st' & t & E) end.
  rewrite E. simpl. exists st', (t ++ []). split; [reflexivity|].
  destruct (Quiet_log _ _ _ _ _ _ _ _ E). rewrite app_nil_r. auto.
Qed.

Lemma deliver_total p ev env st : exists r st' t, deliver p ev env st = (Ok r, st', t).
Proof.
  destruct (events st !! marker_key p ev) as [x|] eqn:Hm.
  - destruct (deliver_duplicate p ev env st) as (tl & E & _); [eauto|]. eauto.
  - destruct (deliver_fresh p ev env st Hm) as (st' & tl & E & _). eauto.
Qed.

(** [handleWebhook] is: authenticate, then deliver or reject. *)
Lemma handleWebhook_run rq p env st :
  Router.handleWebhook rq p env st =
  match authenticate rq p env st with
  | (Ok ev, st1, t1) => let '(r, st2, t2) := deliver p ev env st1 in (r, st2, t1 ++ t2)
  | (Throw msg, st1, t1) => let '(r, st2, t2) := reject p msg env st1 in (r, st2, t1 ++ t2)
  end.
Proof.
  unfold Router.handleWebhook, authenticate.
  rewrite try_catch_bind. cbv [ask]. rewrite try_catch_bind. rewrite bind_run.
  destruct (getProviderAdapter (VStr p) env st) as [[[a|msg] st0] t0]; simpl.
  - rewrite try_catch_bind.
    destruct (verifyWebhook a rq env st0) as [[[ev|msg] st1] t1].
    + match goal with |- context [try_catch ?body _ env st1] =>
        assert (Hd : deliver p ev env st1 = body env st1)
          by (unfold deliver; rewrite bind_run; cbv [ask];
              destruct (body env st1) as [[? ?] ?]; reflexivity)
      end.
      rewrite try_catch_run, <- Hd.
      destruct (deliver_total p ev env st1) as (r & st2 & t2 & E).
      rewrite E, app_assoc. reflexivity.
    + fold (reject p msg). destruct (reject p msg env st1) as [[r st2] t2].
      rewrite app_assoc. reflexivity.
  - fold (reject p msg). destruct (reject p msg env st0) as [[r st2] t2]. reflexivity.
Qed.

(** ** What a verified delivery carries *)

Lemma Post_ret {A} (Q : A -> Prop) a : Q a -> Post Q (ret a).
Proof. intros H env st b st' t E. inversion E; subst. exact H. Qed.

Lemma Post_throw {A} (Q : A -> Prop) msg : Post Q (throw msg).
Proof. intros env st b st' t E. discriminate. Qed.

Lemma Post_bind {A B} (P : A -> Prop) (Q : B -> Prop) (m : M A) (k : A -> M B) :
  Post P m -> (forall a, P a -> Post Q (k a)) -> Post Q (bind m k).
Proof.
  intros Hm Hk env st b st' t E. rewrite bind_run in E.
  destruct (m env st) as [[[a|msg] st1] t1] eqn:E1; [|discriminate].
  destruct (k a env st1) as [[r2 st2] t2] eqn:E2. pair_inv.
  eapply Hk; eauto.
Qed.

Lemma Post_any {A} (m : M A) : Post (fun _ => True) m.
Proof. intros env st a st' t _. exact I. Qed.

Lemma Post_try_catch {A} (Q : A -> Prop) (m : M A) (h : string -> M A) :
  Post Q m -> (forall msg, Post Q (h msg)) -> Post Q (try_catch m h).
Proof.
  intros Hm Hh env st a st' t E. rewrite try_catch_run in E.
  destruct (m env st) as [[[a1|msg] st1] t1] eqn:E1.
  - pair_inv. eauto.
  - destruct (h msg env st1) as [[r2 st2] t2] eqn:E2. pair_inv. eapply Hh; eauto.
Qed.

Lemma Post_rethrow {A} (Q : A -> Prop) s d message :
  Post Q (Logger.error s d ;;; throw message).
Proof. eapply Post_bind; [apply Post_any|]. intros _ _. apply Post_throw. Qed.

Lemma Post_request_json rq : Post (fun v => json rq = Some v) (request_json rq).
Proof.
  unfold request_json. destruct (json rq); [apply Post_ret; reflexivity|apply Post_throw].
Qed.

Lemma Post_read v k : Post (fun x => x = prop v k) (read v k).
Proof. unfold read. destruct (nullish v); [apply Post_throw|apply Post_ret; reflexivity]. Qed.

Lemma Post_paddle_verifyWebhook a rq :
  Post (fun ev => exists body, json rq = Some body /\ ev = extract KPaddle body)
       (Paddle.verifyWebhook a rq).
Proof.
  unfold Paddle.verifyWebhook.
  destruct (negb _); [apply Post_throw|].
  eapply Post_bind; [apply Post_request_json|]. intros body Hb. simpl in Hb.
  destruct (_ || _); [apply Post_throw|].
  destruct (negb _); [apply Post_throw|].
  eapply Post_bind; [apply Post_read|]. intros et ->.
  eapply Post_bind; [apply Post_read|]. intros ei ->.
  eapply Post_bind; [apply Post_any|]. intros _ _.
  apply Post_ret. exists body. split; [assumption|reflexivity].
Qed.

Lemma Post_paypal_verifyWebhook a rq :
  Post (fun ev => exists body, json rq = Some body /\ ev = extract KPayPal body)
       (PayPal.verifyWebhook a rq).
Proof.
  unfold PayPal.verifyWebhook.
  destruct (_ || _); [apply Post_throw|].
  eapply Post_bind; [apply Post_request_json|]. intros body Hb. simpl in Hb.
  apply Post_try_catch; [|intros; apply Post_rethrow].
  eapply Post_bind; [apply Post_any|]. intros ta _.
  eapply Post_bind; [apply Post_any|]. intros response _.
  destruct (negb _); [apply Post_throw|].
  eapply Post_bind; [apply Post_any|]. intros verification _.
  eapply Post_bind; [apply Post_any|]. intros vs _.
  destruct vs; try apply Post_throw.
  destruct (String.eqb_spec s "SUCCESS") as [->|Hne].
  - eapply Post_bind; [apply Post_read|]. intros et ->.
    eapply Post_bind; [apply Post_any|]. intros _ _.
    apply Post_ret. exists body. split; [assumption|reflexivity].
  - repeat match goal with
           | |- Post _ (match ?x with _ => _ end) => destruct x; try apply Post_throw
           end; congruence.
Qed.

(** The factory resolves exactly as the spec's rule says. *)
Lemma getProviderAdapter_kind name env st :
  resolved_kind (getProviderAdapter (VStr name) env st) = provider_kind name.
Proof.
  unfold getProviderAdapter, provider_kind. cbv [bind ask tell ret throw].
  destruct (String.eqb _ "paddle"); [reflexivity|].
  destruct (String.eqb _ "paypal"); [reflexivity|].
  destruct (String.eqb _ "stripe"); reflexivity.
Qed.

Lemma Post_verifyWebhook a rq :
  Post (fun ev => exists body, json rq = Some body /\ ev = extract (kind_of a) body)
       (verifyWebhook a rq).
Proof.
  destruct a; simpl;
    [apply Post_paddle_verifyWebhook|apply Post_paypal_verifyWebhook|apply Post_throw].
Qed.

(** A verified delivery carries the event its body describes, read the
    way the resolved processor lays it out. *)
Lemma authenticate_event rq p env st ev st' t :
  authenticate rq p env st = (Ok ev, st', t) ->
  exists k body, provider_kind p = Some k /\ json rq = Some body /\ ev = extract k body.
Proof.
  unfold authenticate. rewrite bind_run.
  pose proof (getProviderAdapter_kind p env st) as Hk.
  destruct (getProviderAdapter (VStr p) env st) as [[[a|msg] st0] t0]; [|discriminate].
  simpl in Hk.
  destruct (verifyWebhook a rq env st0) as [[[e|msg] st1] t1] eqn:E; [|discriminate].
  intros H. pair_inv.
  destruct (Post_verifyWebhook a rq _ _ _ _ _ E) as (body & Hb & ->).
  exists (kind_of a), body. auto.
Qed.

Lemma authenticate_same_event rq p env1 st1 ev1 sa ta env2 st2 ev2 sb tb :
  authenticate rq p env1 st1 = (Ok ev1, sa, ta) ->
  authenticate rq p env2 st2 = (Ok ev2, sb, tb) ->
  ev2 = ev1.
Proof.
  intros H1 H2.
  destruct (authenticate_event _ _ _ _ _ _ _ H1) as (k1 & b1 & Hk1 & Hb1 & ->).
  destruct (authenticate_event _ _ _ _ _ _ _ H2) as (k2 & b2 & Hk2 & Hb2 & ->).
  congruence.
Qed.

(** A verified delivery left the stores as they were and made no failed
    call. *)
Lemma authenticate_ok rq p env st ev st' t :
  authenticate rq p env st = (Ok ev, st', t) -> st' = st /\ forallb silent_effect t = true.
Proof.
  intros H. destruct (Inv_authenticate rq p _ _ _ _ _ H) as (_ & _ & O).
  exact (O ev eq_refl).
Qed.

Lemma forwards_app a b : forwards (a ++ b) = (forwards a + forwards b)%nat.
Proof. unfold forwards. rewrite List.filter_app, List.length_app. reflexivity. Qed.

Lemma forwards_cons e t :
  forwards (e :: t) = ((if is_backend_call e then 1 else 0) + forwards t)%nat.
Proof. unfold forwards. simpl. destruct (is_backend_call e); reflexivity. Qed.

Lemma silent_not_backend t : forallb silent_effect t = true -> forwards t = 0%nat.
Proof.
  intros H. apply housekeeping_not_backend, adapter_effect_housekeeping,
    silent_effect_adapter, H.
Qed.

(** ** Idempotent intake of webhooks *)

Lemma handleWebhook_verified rq p env st ev sa ta :
  authenticate rq p env st = (Ok ev, sa, ta) ->
  Router.handleWebhook rq p env st =
  (let '(r, st2, t2) := deliver p ev env st in (r, st2, ta ++ t2))
  /\ forallb silent_effect ta = true.
Proof.
  intros H. destruct (authenticate_ok _ _ _ _ _ _ _ H) as [-> Hs].
  rewrite handleWebhook_run, H. auto.
Qed.

(** A delivery whose event is already in the ledger. *)
Lemma duplicate_delivery rq p env st ev sa ta :
  authenticate rq p env st = (Ok ev, sa, ta) ->
  is_Some (events st !! marker_key p ev) ->
  let out := run (Router.handleWebhook rq p) env st in
  response_of out = successResponse Router.received "Event already processed"
  /\ stores_of out = st
  /\ forwards (effects_of out) = 0%nat
  /\ existsb is_kv_write (effects_of out) = false.
Proof.
  intros H Hm. destruct (handleWebhook_verified _ _ _ _ _ _ _ H) as [E Hs].
  destruct (deliver_duplicate p ev env st Hm) as (tl & Ed & Hl).
  unfold run. rewrite E, Ed. cbn [response_of stores_of effects_of fst snd].
  split; [reflexivity|]. split; [reflexivity|].
  assert (Hall : forallb silent_effect (ta ++ tl) = true)
    by (rewrite forallb_app, Hs, Hl; reflexivity).
  split.
  - rewrite forwards_app, forwards_cons, (silent_not_backend _ Hs),
      (silent_not_backend _ Hl). reflexivity.
  - rewrite existsb_app, (silent_no_write _ Hs). simpl. apply silent_no_write, Hl.
Qed.

(** A delivery whose event is not in the ledger yet. *)
Lemma fresh_delivery rq p env st ev sa ta :
  authenticate rq p env st = (Ok ev, sa, ta) ->
  events st !! marker_key p ev = None ->
  let out := run (Router.handleWebhook rq p) env st in
  exists tl,
    response_of out = successResponse Router.received "Webhook processed successfully"
    /\ effects_of out =
       (ta ++ [KvGet EVENTS (marker_key p ev); KvPut EVENTS (marker_key p ev)])
       ++ Fetched Backend (Router.notify_request env p ev)
            (net env (Router.notify_request env p ev)) :: tl
    /\ forwards ta = 0%nat /\ forwards tl = 0%nat
    /\ events (stores_of out)
       = <[marker_key p ev := (marker_doc env ev, KV.default_event_ttl)]> (events st).
Proof.
  intros H Hm. destruct (handleWebhook_verified _ _ _ _ _ _ _ H) as [E Hs].
  destruct (deliver_fresh p ev env st Hm) as (st' & tl & Ed & Hl & He & _).
  unfold run. rewrite E, Ed. cbn [response_of stores_of effects_of fst snd].
  exists tl. split; [reflexivity|]. split; [rewrite <- app_assoc; reflexivity|].
  split; [apply silent_not_backend, Hs|].
  split; [apply housekeeping_not_backend, bookkeeping_housekeeping, Hl|].
  exact He.
Qed.

(** C1. Delivering the same verified webhook twice in sequence: both
    deliveries are answered 200; the second finds the marker and is
    answered "Event already processed" without forwarding, without any
    KV write (so no counter moves) and with the stores unchanged; the two
    deliveries forward at most once, and exactly once when the event had
    no marker before the first. *)
Theorem webhook_twice_forwards_once env1 env2 st rq p ev1 ev2 sa ta sb tb :
  authenticate rq p env1 st = (Ok ev1, sa, ta) ->
  let first := run (Router.handleWebhook rq p) env1 st in
  authenticate rq p env2 (stores_of first) = (Ok ev2, sb, tb) ->
  let second := run (Router.handleWebhook rq p) env2 (stores_of first) in
  status (response_of first) = 200
  /\ status (response_of second) = 200
  /\ response_of second = successResponse Router.received "Event already processed"
  /\ forwards (effects_of second) = 0%nat
  /\ existsb is_kv_write (effects_of second) = false
  /\ stores_of second = stores_of first
  /\ (forwards (effects_of first) + forwards (effects_of second) <= 1)%nat
  /\ (events st !! marker_key p ev1 = None ->
      (forwards (effects_of first) + forwards (effects_of second) = 1)%nat).
Proof.
  intros H1 first H2 second.
  pose proof (authenticate_same_event _ _ _ _ _ _ _ _ _ _ _ _ H1 H2) as ->.
  assert (Hfirst : status (response_of first) = 200
                   /\ is_Some (events (stores_of first) !! marker_key p ev1)
                   /\ (forwards (effects_of first) <= 1)%nat
                   /\ (events st !! marker_key p ev1 = None ->
                       forwards (effects_of first) = 1%nat)).
  { destruct (events st !! marker_key p ev1) as [x|] eqn:Hm.
    - destruct (duplicate_delivery _ _ _ _ _ _ _ H1) as (Hr & Hst & Hf & _); [eauto|].
      fold first in Hr, Hst, Hf. rewrite Hr, Hst, Hf, Hm.
      repeat split; eauto; try lia. discriminate.
    - destruct (fresh_delivery _ _ _ _ _ _ _ H1 Hm) as (tl & Hr & Ht & Hfa & Hfl & He).
      fold first in Hr, Ht, He. rewrite Hr, He, Ht, lookup_insert_eq.
      rewrite !forwards_app, !forwards_cons, Hfa, Hfl. simpl.
      repeat split; eauto. }
  destruct Hfirst as (Hr1 & Hmark & Hle & Hone).
  destruct (duplicate_delivery _ _ _ _ _ _ _ H2 Hmark) as (Hr2 & Hst2 & Hf2 & Hw2).
  fold second in Hr2, Hst2, Hf2, Hw2.
  rewrite Hr2, Hf2. repeat split; auto; try lia.
  intros Hm. rewrite (Hone Hm). reflexivity.
Qed.

Lemma webhook_twice_forwards_once_witness :
  let first := run (Router.handleWebhook Demo.delivery "paddle") (Demo.env Demo.up) Demo.empty in
  let second := run (Router.handleWebhook Demo.delivery "paddle")
                  (Demo.env Demo.unreachable) (stores_of first) in
  status (response_of first) = 200
  /\ status (response_of second) = 200
  /\ response_of second = successResponse Router.received "Event already processed"
  /\ forwards (effects_of second) = 0%nat
  /\ existsb is_kv_write (effects_of second) = false
  /\ stores_of second = stores_of first
  /\ (forwards (effects_of first) + forwards (effects_of second) <= 1)%nat
  /\ (events Demo.empty !! marker_key "paddle" Demo.event = None ->
      (forwards (effects_of first) + forwards (effects_of second) = 1)%nat).
Proof.
  apply (webhook_twice_forwards_once (Demo.env Demo.up) (Demo.env Demo.unreachable)
           Demo.empty Demo.delivery "paddle" Demo.event Demo.event
           Demo.empty [Imported "./paddle.js"; Logged INFO "Paddle webhook verified"]
           (stores_of (run (Router.handleWebhook Demo.delivery "paddle")
                         (Demo.env Demo.up) Demo.empty))
           [Imported "./paddle.js"; Logged INFO "Paddle webhook verified"]).
  - vm_compute. reflexivity.
  - vm_compute. reflexivity.
Defined.

Example two_deliveries_one_forward :
  let first := run (Router.handleWebhook Demo.delivery "paddle") (Demo.env Demo.up) Demo.empty in
  let second := run (Router.handleWebhook Demo.delivery "paddle")
                  (Demo.env Demo.up) (stores_of first) in
  forwards (effects_of first) = 1%nat /\ forwards (effects_of second) = 0%nat
  /\ effects_of second = [Imported "./paddle.js"; Logged INFO "Paddle webhook verified";
                          KvGet EVENTS "evt:paddle:evt_1";
                          Logged INFO "Event already processed (idempotent)"].
Proof. vm_compute. repeat split; reflexivity. Qed.

(** ** Rejected webhooks *)

(** The three ways a Paddle signature fails, each a thrown error. *)
Lemma paddle_signature_failures a rq env st :
  (truthy (header_get rq "paddle-signature") = false ->
   Paddle.verifyWebhook a rq env st = (Throw "Missing Paddle signature header", st, []))
  /\ (forall sig body,
        header_get rq "paddle-signature" = VStr sig -> sig <> "" -> json rq = Some body ->
        (truthy (lookup_prop "ts" (Paddle.sigParts sig)) = false
         \/ truthy (lookup_prop "h1" (Paddle.sigParts sig)) = false) ->
        Paddle.verifyWebhook a rq env st = (Throw "Invalid Paddle signature format", st, []))
  /\ (forall sig body,
        header_get rq "paddle-signature" = VStr sig -> sig <> "" -> json rq = Some body ->
        truthy (lookup_prop "ts" (Paddle.sigParts sig)) = true ->
        truthy (lookup_prop "h1" (Paddle.sigParts sig)) = true ->
        Webhook.verifyHmacSignature
          (to_string (lookup_prop "ts" (Paddle.sigParts sig)) +:+ ":" +:+ text rq)
          (to_string (lookup_prop "h1" (Paddle.sigParts sig)))
          (Paddle.webhookSecret a) = false ->
        Paddle.verifyWebhook a rq env st = (Throw "Invalid Paddle webhook signature", st, [])).
Proof.
  unfold Paddle.verifyWebhook. split; [|split].
  - intros ->. reflexivity.
  - intros sig body -> Hne Hb Hbad.
    assert (Ht : truthy (VStr sig) = true)
      by (simpl; destruct (String.eqb_spec sig ""); [contradiction|reflexivity]).
    rewrite Ht. unfold request_json. rewrite Hb. cbn [negb].
    rewrite bind_run. cbv [ret]. change (to_string (VStr sig)) with sig.
    destruct Hbad as [-> | ->]; simpl; [reflexivity|].
    rewrite orb_true_r. reflexivity.
  - intros sig body -> Hne Hb Hts Hh1 Hmac.
    assert (Ht : truthy (VStr sig) = true)
      by (simpl; destruct (String.eqb_spec sig ""); [contradiction|reflexivity]).
    rewrite Ht. unfold request_json. rewrite Hb. cbn [negb].
    rewrite bind_run. cbv [ret]. change (to_string (VStr sig)) with sig.
    rewrite Hts, Hh1, Hmac. reflexivity.
Qed.




Lemma rejected_webhook_effects_aux env st rq p msg sa ta :
  authenticate rq p env st = (Throw msg, sa, ta) ->
  forwards (effects_of (run (Router.handleWebhook rq p) env st)) = 0%nat.
Proof.
  intros H. unfold run. rewrite handleWebhook_run, H.
  destruct (reject_run p msg env sa) as (st' & t & E & Hf & Ha). rewrite E.
  cbn [effects_of snd].
  destruct (Inv_authenticate rq p _ _ _ _ _ H) as (Hf0 & Ha0 & _).
  apply housekeeping_not_backend, adapter_effect_housekeeping.
  rewrite forallb_app, Ha0, Ha. reflexivity.
Qed.




(** ** Marker before forward *)

Lemma split_at_forward l1 l2 pre post e e' :
  forwards l1 = 0%nat -> forwards l2 = 0%nat ->
  is_backend_call e = true -> is_backend_call e' = true ->
  l1 ++ e :: l2 = pre ++ e' :: post ->
  pre = l1 /\ e' = e /\ post = l2.
Proof.
  revert pre. induction l1 as [|a l1 IH]; intros pre H1 H2 He He' Heq.
  - destruct pre as [|x pre]; simpl in Heq; inversion Heq; subst; auto.
    rewrite forwards_app, forwards_cons, He' in H2. lia.
  - rewrite forwards_cons in H1.
    destruct pre as [|x pre]; simpl in Heq; inversion Heq; subst.
    + rewrite He' in H1. lia.
    + destruct (IH pre) as (-> & -> & ->); auto.
      destruct (is_backend_call x); simpl in H1; [discriminate|exact H1].
Qed.

Lemma no_forward_no_split t pre post call res :
  forwards t = 0%nat -> t <> pre ++ Fetched Backend call res :: post.
Proof.
  intros H ->. rewrite forwards_app, forwards_cons in H. simpl in H. lia.
Qed.

(** C3. Whenever a run of [handleWebhook] calls the backend, the put of
    the event's marker comes earlier in the run and no other backend
    call does; the marker is in the ledger afterwards, so a later
    delivery of the same webhook that verifies is answered "Event already
    processed" and not forwarded, whatever the backend answered. *)
Theorem marker_written_before_forward env st rq p pre call res post :
  let out := run (Router.handleWebhook rq p) env st in
  effects_of out = pre ++ Fetched Backend call res :: post ->
  exists ev,
    In (KvPut EVENTS (marker_key p ev)) pre
    /\ forwards pre = 0%nat /\ forwards post = 0%nat
    /\ call = Router.notify_request env p ev
    /\ is_Some (events (stores_of out) !! marker_key p ev)
    /\ (forall env2 ev2 sb tb,
          authenticate rq p env2 (stores_of out) = (Ok ev2, sb, tb) ->
          let retry := run (Router.handleWebhook rq p) env2 (stores_of out) in
          response_of retry = successResponse Router.received "Event already processed"
          /\ forwards (effects_of retry) = 0%nat).
Proof.
  intros out Hsplit.
  destruct (authenticate rq p env st) as [[[ev|msg] sa] ta] eqn:Ha.
  - destruct (events st !! marker_key p ev) as [x|] eqn:Hm.
    + destruct (duplicate_delivery _ _ _ _ _ _ _ Ha) as (_ & _ & Hf & _); [eauto|].
      fold out in Hf. exfalso. eapply no_forward_no_split; eauto.
    + destruct (fresh_delivery _ _ _ _ _ _ _ Ha Hm) as (tl & _ & Ht & Hfa & Hfl & He).
      fold out in Ht, He. rewrite Ht in Hsplit.
      apply split_at_forward in Hsplit as (-> & Hcall & ->); auto.
      2:{ rewrite forwards_app, !forwards_cons, Hfa. reflexivity. }
      inversion Hcall; subst. exists ev.
      split; [apply in_or_app; right; simpl; auto|].
      split; [rewrite forwards_app, !forwards_cons, Hfa; reflexivity|].
      split; [exact Hfl|]. split; [reflexivity|].
      assert (Hmark : is_Some (events (stores_of out) !! marker_key p ev))
        by (rewrite He, lookup_insert_eq; eauto).
      split; [exact Hmark|].
      intros env2 ev2 sb tb H2 retry.
      assert (ev2 = ev) as -> by (eapply authenticate_same_event; eauto).
      destruct (duplicate_delivery _ _ _ _ _ _ _ H2 Hmark) as (Hr & _ & Hf & _).
      auto.
  - exfalso. pose proof (rejected_webhook_effects_aux env st rq p msg sa ta Ha) as Hf.
    fold out in Hf. eapply no_forward_no_split; eauto.
Qed.

Lemma marker_written_before_forward_witness :
  let env := Demo.env Demo.unreachable in
  let out := run (Router.handleWebhook Demo.delivery "paddle") env Demo.empty in
  exists ev,
    In (KvPut EVENTS (marker_key "paddle" ev)) (firstn 4 (effects_of out))
    /\ forwards (firstn 4 (effects_of out)) = 0%nat
    /\ forwards (skipn 5 (effects_of out)) = 0%nat
    /\ Router.notify_request env "paddle" Demo.event = Router.notify_request env "paddle" ev
    /\ is_Some (events (stores_of out) !! marker_key "paddle" ev)
    /\ (forall env2 ev2 sb tb,
          authenticate Demo.delivery "paddle" env2 (stores_of out) = (Ok ev2, sb, tb) ->
          let retry := run (Router.handleWebhook Demo.delivery "paddle") env2 (stores_of out) in
          response_of retry = successResponse Router.received "Event already processed"
          /\ forwards (effects_of retry) = 0%nat).
Proof.
  intros env out.
  apply (marker_written_before_forward env Demo.empty Demo.delivery "paddle"
           (firstn 4 (effects_of out))
           (Router.notify_request env "paddle" Demo.event)
           (NetworkError "connect ECONNREFUSED")
           (skipn 5 (effects_of out))).
  vm_compute. reflexivity.
Defined.

(** ** Backend failures are absorbed *)

(** C4. When a verified event without a marker is forwarded and the
    backend call fails (the connection fails or the status is not 2xx),
    the handler still answers 200 with [{received: true}], the very
    response it gives whenever forwarding succeeds. *)
Theorem backend_failure_absorbed env st rq p ev sa ta :
  authenticate rq p env st = (Ok ev, sa, ta) ->
  events st !! marker_key p ev = None ->
  fetch_failed (net env (Router.notify_request env p ev)) = true ->
  let out := run (Router.handleWebhook rq p) env st in
  response_of out = successResponse Router.received "Webhook processed successfully"
  /\ status (response_of out) = 200
  /\ prop (body (response_of out)) "data" = VObj [("received", VBool true)]
  /\ In (Fetched Backend (Router.notify_request env p ev)
           (net env (Router.notify_request env p ev))) (effects_of out)
  /\ (forall env' st' rq' p' ev' sa' ta',
        authenticate rq' p' env' st' = (Ok ev', sa', ta') ->
        events st' !! marker_key p' ev' = None ->
        fetch_failed (net env' (Router.notify_request env' p' ev')) = false ->
        response_of (run (Router.handleWebhook rq' p') env' st') = response_of out).
Proof.
  intros Ha Hm Hfail out.
  destruct (fresh_delivery _ _ _ _ _ _ _ Ha Hm) as (tl & Hr & Ht & _).
  fold out in Hr, Ht. rewrite Hr, Ht.
  split; [reflexivity|]. split; [reflexivity|]. split; [reflexivity|].
  split; [apply in_or_app; right; left; reflexivity|].
  intros env' st' rq' p' ev' sa' ta' Ha' Hm' _.
  destruct (fresh_delivery _ _ _ _ _ _ _ Ha' Hm') as (tl' & Hr' & _).
  exact Hr'.
Qed.

Lemma backend_failure_absorbed_witness :
  let env := Demo.env Demo.unavailable in
  let out := run (Router.handleWebhook Demo.delivery "paddle") env Demo.empty in
  response_of out = successResponse Router.received "Webhook processed successfully"
  /\ status (response_of out) = 200
  /\ prop (body (response_of out)) "data" = VObj [("received", VBool true)]
  /\ In (Fetched Backend (Router.notify_request env "paddle" Demo.event)
           (net env (Router.notify_request env "paddle" Demo.event))) (effects_of out)
  /\ (forall env' st' rq' p' ev' sa' ta',
        authenticate rq' p' env' st' = (Ok ev', sa', ta') ->
        events st' !! marker_key p' ev' = None ->
        fetch_failed (net env' (Router.notify_request env' p' ev')) = false ->
        response_of (run (Router.handleWebhook rq' p') env' st') = response_of out).
Proof.
  intros env out.
  apply (backend_failure_absorbed env Demo.empty Demo.delivery "paddle" Demo.event
           Demo.empty [Imported "./paddle.js"; Logged INFO "Paddle webhook verified"]).
  - vm_compute. reflexivity.
  - vm_compute. reflexivity.
  - vm_compute. reflexivity.
Defined.

(** ** The replay window *)

Lemma isTimestampValid_spec now_ms ts tol :
  Webhook.isTimestampValid now_ms ts tol = true <-> Z.abs (now_ms / 1000 - ts) <= tol.
Proof. unfold Webhook.isTimestampValid. apply Z.leb_le. Qed.

(** [Paddle.verifyWebhook] never looks at the clock. *)
Lemma paddle_verifyWebhook_clock a rq env st n iso :
  Paddle.verifyWebhook a rq (with_clock env n iso) st = Paddle.verifyWebhook a rq env st.
Proof.
  unfold Paddle.verifyWebhook, request_json, read, Logger.info, Logger._log.
  destruct (negb (truthy _)); [reflexivity|].
  destruct (json rq) as [eventData|]; [|reflexivity].
  cbv [bind ret throw ask tell].
  destruct (_ || _); [reflexivity|].
  destruct (negb (Webhook.verifyHmacSignature _ _ _)); [reflexivity|].
  destruct (nullish eventData); [reflexivity|].
  unfold Logger.minLevel. simpl LOG_LEVEL.
  destruct (_ <? _); reflexivity.
Qed.

(** C5, as the code has it. The helper [isTimestampValid] rejects every
    timestamp further than the tolerance (300 seconds by default) from
    the current time, whatever else holds; but the Paddle adapter does
    not consult it: the outcome of [verifyWebhook] is the same at every
    time of day. *)
Theorem replay_window_is_helper_only now_ms ts tol a rq env st n iso :
  tol < Z.abs (now_ms / 1000 - ts) ->
  Webhook.isTimestampValid now_ms ts tol = false
  /\ Webhook.default_tolerance = 300
  /\ Paddle.verifyWebhook a rq (with_clock env n iso) st = Paddle.verifyWebhook a rq env st.
Proof.
  intros H. split; [|split].
  - destruct (Webhook.isTimestampValid now_ms ts tol) eqn:E; [|reflexivity].
    apply isTimestampValid_spec in E. lia.
  - reflexivity.
  - apply paddle_verifyWebhook_clock.
Qed.

Lemma replay_window_is_helper_only_witness :
  Webhook.isTimestampValid 1705314600000 1 300 = false
  /\ Webhook.default_tolerance = 300
  /\ Paddle.verifyWebhook (Paddle.new (Demo.env Demo.up)) Demo.delivery
       (with_clock (Demo.env Demo.up) 1000 "1970-01-01T00:00:01.000Z") Demo.empty
     = Paddle.verifyWebhook (Paddle.new (Demo.env Demo.up)) Demo.delivery
         (Demo.env Demo.up) Demo.empty.
Proof.
  apply (replay_window_is_helper_only 1705314600000 1 300). vm_compute. reflexivity.
Defined.

(** C5 as stated fails: a Paddle delivery whose [ts] is 1 (January 1970),
    received in January 2024, lies outside the 300-second window, yet it
    verifies because its HMAC matches, and the handler processes it. *)
Lemma stale_paddle_signature_verifies :
  let env := Demo.env Demo.up in
  header_get Demo.delivery "paddle-signature"
  = VStr "ts=1;h1=1cef565c9fb60460c9fbf126ca5b4bb75d0903f6937e4b9301fcc577d977b9f7"
  /\ 300 < Z.abs (now env / 1000 - 1)
  /\ Webhook.isTimestampValid (now env) 1 Webhook.default_tolerance = false
  /\ Paddle.verifyWebhook (Paddle.new env) Demo.delivery env Demo.empty
     = (Ok Demo.event, Demo.empty, [Logged INFO "Paddle webhook verified"])
  /\ status (response_of (run (Router.handleWebhook Demo.delivery "paddle") env Demo.empty))
     = 200.
Proof. vm_compute. repeat split; reflexivity. Qed.

(** ** Failed processor calls *)

#[local] Instance any_stores_preorder : PreOrder (fun _ _ : Stores => True).
Proof. split; constructor. Qed.

Lemma Local_processor_failed {A} (m : M A) env st r st' t :
  Local m -> m env st = (r, st', t) -> processor_failed t = false.
Proof.
  intros H E. destruct (H _ _ _ _ _ E) as [_ Hall]. unfold processor_failed.
  clear E. induction t as [|e t IH]; simpl in *; [reflexivity|].
  apply andb_prop in Hall as [He Ht]. rewrite (IH Ht).
  rewrite negb_true_iff in He. rewrite He. reflexivity.
Qed.

Lemma Tidy_Local {A} (m : M A) : Tidy m -> Local m.
Proof.
  apply Keeps_weaken; [|auto].
  intros [[]|[]|[]| |]; simpl; auto; discriminate.
Qed.

Lemma Sound_of_Local {A} (m : M A) : Local m -> Sound m.
Proof. intros H env st a st' t E. eapply Local_processor_failed; eauto. Qed.

Lemma Sound_of_Inv {A} (m : M A) : Inv m -> Sound m.
Proof.
  intros H env st a st' t E. destruct (H _ _ _ _ _ E) as (_ & _ & O).
  destruct (O a eq_refl) as [_ Hs]. apply silent_no_failure, Hs.
Qed.

Lemma Sound_bind {A B} (m : M A) (k : A -> M B) :
  Sound m -> (forall a, Sound (k a)) -> Sound (bind m k).
Proof.
  intros Hm Hk env st b st' t E. rewrite bind_run in E.
  destruct (m env st) as [[[a|msg] st1] t1] eqn:E1; [|discriminate].
  destruct (k a env st1) as [[r2 st2] t2] eqn:E2. pair_inv.
  unfold processor_failed. rewrite existsb_app.
  fold (processor_failed t1). fold (processor_failed t2).
  rewrite (Hm _ _ _ _ _ E1), (Hk _ _ _ _ _ _ E2). reflexivity.
Qed.

Lemma Local_log l message data : Local (Logger._log l message data).
Proof. apply Tidy_Local, Tidy_log. Qed.

Lemma Local_kv_effect (e : effect) :
  failed_processor_call e = false -> Local (tell e).
Proof. intros H. apply Keeps_tell; [apply _|]. rewrite H. reflexivity. Qed.

Lemma Local_set_stores st' : Local (set_stores st').
Proof. intros env st r s t E. inversion E; subst. split; auto. Qed.

Lemma Local_put_doc ns key doc ttl : Local (KV.put_doc ns key doc ttl).
Proof.
  unfold KV.put_doc. apply Keeps_bind; [apply _|apply Keeps_get_stores; apply _|].
  intros st. apply Keeps_bind; [apply _|apply Local_kv_effect; reflexivity|].
  intros _. destruct ns; apply Local_set_stores.
Qed.

Lemma Local_get_doc ns key : Local (KV.get_doc ns key).
Proof.
  unfold KV.get_doc. apply Keeps_bind; [apply _|apply Keeps_get_stores; apply _|].
  intros st. apply Keeps_bind; [apply _|apply Local_kv_effect; reflexivity|].
  intros _. apply Keeps_ret. apply _.
Qed.

Lemma Local_isEventProcessed p e : Local (KV.isEventProcessed p e).
Proof.
  unfold KV.isEventProcessed. apply Keeps_bind; [apply _|apply Keeps_get_stores; apply _|].
  intros st. apply Keeps_bind; [apply _|apply Local_kv_effect; reflexivity|].
  intros _. apply Keeps_ret. apply _.
Qed.

Lemma Local_markEventProcessed p e d ttl : Local (KV.markEventProcessed p e d ttl).
Proof.
  unfold KV.markEventProcessed. apply Keeps_bind; [apply _|apply Keeps_ask; apply _|].
  intros env. apply Local_put_doc.
Qed.

Lemma Local_incrementCounter key ttl : Local (KV.incrementCounter key ttl).
Proof. apply Tidy_Local, Tidy_incrementCounter. Qed.

Lemma Local_forward p ev : Local (Router.forward p ev).
Proof.
  intros env st r st' t E.
  destruct (forward_run p ev env st) as (st2 & tl & E2 & _ & Hb). rewrite E2 in E.
  pair_inv. split; [exact I|]. simpl.
  pose proof (bookkeeping_no_failure _ Hb) as Hn. unfold processor_failed in Hn.
  clear - Hn. induction tl as [|e tl IH]; simpl in *; [reflexivity|].
  apply orb_false_elim in Hn as [-> Hn]. simpl. auto.
Qed.

Lemma Sound_destructure body first : Sound (Router.destructure body first).
Proof.
  apply Sound_of_Local. unfold Router.destructure.
  destruct (nullish body); [apply Keeps_throw|apply Keeps_ret]; apply _.
Qed.

Ltac sound_step :=
  lazymatch goal with
  | |- Sound (let _ := _ in _) => cbv zeta
  | |- Sound (bind _ _) => apply Sound_bind; [|intros]
  | |- Sound (if ?b then _ else _) => destruct b
  | |- Sound (ret _) => apply Sound_of_Local, Keeps_ret; apply _
  | |- Sound ask => apply Sound_of_Local, Keeps_ask; apply _
  | |- Sound (request_json _) => apply Sound_of_Inv, Inv_request_json
  | |- Sound (Router.destructure _ _) => apply Sound_destructure
  | |- Sound (getProviderAdapter _) => apply Sound_of_Inv, Inv_getProviderAdapter
  | |- Sound (createCheckoutSession _ _) => apply Sound_of_Inv, Inv_createCheckoutSession
  | |- Sound (verifyWebhook _ _) => apply Sound_of_Inv, Inv_verifyWebhook
  | |- Sound (getSession _ _) => apply Sound_of_Inv, Inv_getSession
  | |- Sound (createSubscription _ _) => apply Sound_of_Inv, Inv_createSubscription
  | |- Sound (cancelSubscription _ _) => apply Sound_of_Inv, Inv_cancelSubscription
  | |- Sound (KV.storeSession _ _ _) => apply Sound_of_Local, Local_put_doc
  | |- Sound (KV.getSession _) => apply Sound_of_Local, Local_get_doc
  | |- Sound (KV.isEventProcessed _ _) => apply Sound_of_Local, Local_isEventProcessed
  | |- Sound (KV.markEventProcessed _ _ _ _) => apply Sound_of_Local, Local_markEventProcessed
  | |- Sound (KV.incrementCounter _ _) => apply Sound_of_Local, Local_incrementCounter
  | |- Sound (Router.forward _ _) => apply Sound_of_Local, Local_forward
  | |- Sound (Logger.info _ _) => apply Sound_of_Local, Local_log
  end.

(** A handler is [try { body } catch (error) { log; answer(code) }]: if a
    processor call failed and the body is sound, the [catch] answered. *)
Lemma caught_failure (body : M Response) s (d : string -> value) code env st :
  Sound body ->
  let out := run (try_catch body (fun message =>
                    Logger.error s (d message) ;;; ret (errorResponse message code))) env st in
  processor_failed (effects_of out) = true ->
  exists msg, response_of out = errorResponse msg code.
Proof.
  intros Hs out. subst out. unfold run. rewrite try_catch_run.
  destruct (body env st) as [[[r|msg] st1] t1] eqn:E.
  - cbn [effects_of snd]. rewrite (Hs _ _ _ _ _ E). discriminate.
  - intros _. rewrite bind_run. unfold Logger.error.
    destruct (log_total ERROR s (d msg) env st1) as (st2 & t2 & El). rewrite El.
    simpl. eauto.
Qed.

(** C6, as the code has it. Whenever a call to a payment processor
    fails during a request (the connection fails or the status is not
    2xx), the response is the error envelope, with status 500 on the
    checkout, receipt and subscription entry points and with status 400
    on the webhook entry point. *)
Theorem processor_failure_status env st e :
  let out := run (handle e) env st in
  processor_failed (effects_of out) = true ->
  exists msg,
    response_of out = errorResponse msg (catch_status e)
    /\ status (response_of out) = catch_status e
    /\ body (response_of out) = VObj [("success", VBool false); ("error", VStr msg)].
Proof.
  intros out H. subst out.
  assert (exists msg, response_of (run (handle e) env st) = errorResponse msg (catch_status e))
    as (msg & Hr).
  { destruct e; simpl handle in *; simpl catch_status;
      (eapply caught_failure; [|exact H]); repeat sound_step. }
  exists msg. rewrite Hr. auto.
Qed.

Lemma processor_failure_status_witness :
  let out := run (handle (Checkout Demo.checkout)) (Demo.env Demo.unavailable) Demo.empty in
  exists msg,
    response_of out = errorResponse msg 500
    /\ status (response_of out) = 500
    /\ body (response_of out) = VObj [("success", VBool false); ("error", VStr msg)].
Proof.
  apply (processor_failure_status (Demo.env Demo.unavailable) Demo.empty
           (Checkout Demo.checkout)).
  vm_compute. reflexivity.
Defined.

(** C6 as stated fails on the webhook path: when PayPal's token endpoint
    answers 503 during the remote verification of a webhook, the caller
    gets 400, not 500. *)
Lemma paypal_verification_failure_is_400 :
  let out := run (Router.handleWebhook Demo.paypal_delivery "paypal")
               (Demo.env Demo.unavailable) Demo.empty in
  processor_failed (effects_of out) = true
  /\ status (response_of out) = 400
  /\ response_of out
     = errorResponse "Failed to get PayPal access token: Service Unavailable" 400.
Proof. vm_compute. repeat split; reflexivity. Qed.

(** ** Checkout validation *)

Lemma has_required_cond body :
  negb (truthy (prop body "provider")) || negb (truthy (prop body "userId"))
  || negb (truthy (prop body "email")) || negb (truthy (prop body "amount"))
  || negb (truthy (prop body "productName")) = negb (has_required body).
Proof.
  unfold has_required, required_fields. simpl.
  destruct (truthy (prop body "provider")), (truthy (prop body "userId")),
    (truthy (prop body "email")), (truthy (prop body "amount")),
    (truthy (prop body "productName")); reflexivity.
Qed.

Lemma has_required_field body k :
  has_required body = true -> In k required_fields -> truthy (prop body k) = true.
Proof.
  unfold has_required. rewrite forallb_forall. auto.
Qed.

Lemma has_required_not_null body : has_required body = true -> nullish body = false.
Proof.
  intros H. pose proof (has_required_field body "provider" H) as Hp.
  destruct body; try reflexivity; simpl in Hp;
    (discriminate (Hp (or_introl eq_refl))).
Qed.

Lemma falsy_not_required body k :
  In k required_fields -> truthy (prop body k) = false -> has_required body = false.
Proof.
  intros Hin Hf. destruct (has_required body) eqn:E; [|reflexivity].
  rewrite (has_required_field _ _ E Hin) in Hf. discriminate.
Qed.

(** The validation of [handleCheckout] returns at once. *)
Lemma handleCheckout_missing rq body env st :
  json rq = Some body -> nullish body = false -> has_required body = false ->
  Router.handleCheckout rq env st
  = (Ok (errorResponse "Missing required fields" 400), st, []).
Proof.
  intros Hj Hn Hr. unfold Router.handleCheckout, request_json.
  rewrite Hj. rewrite try_catch_bind. cbv [ret]. rewrite try_catch_bind.
  unfold Router.destructure. rewrite Hn. cbv [ret].
  cbv zeta. rewrite has_required_cond, Hr. reflexivity.
Qed.






(** C10. The validation tests truthiness: a required field that is
    present but falsy (an amount of 0, an empty string, [null], [false])
    gives the same outcome as an absent one: 400 "Missing required
    fields", no effect, stores unchanged. *)
Theorem checkout_falsy_field_rejected env st rq body k :
  json rq = Some body -> nullish body = false ->
  In k required_fields -> truthy (prop body k) = false ->
  let out := run (Router.handleCheckout rq) env st in
  out = (errorResponse "Missing required fields" 400, st, [])
  /\ truthy (VNum 0) = false /\ truthy (VStr "") = false
  /\ (forall rq' body' k',
        json rq' = Some body' -> nullish body' = false ->
        In k' required_fields -> prop body' k' = VUndefined ->
        run (Router.handleCheckout rq') env st = out).
Proof.
  intros Hj Hn Hin Hk out. subst out. unfold run.
  rewrite (handleCheckout_missing rq body env st Hj Hn (falsy_not_required body k Hin Hk)).
  repeat split.
  intros rq' body' k' Hj' Hn' Hin' Hk'.
  rewrite (handleCheckout_missing rq' body' env st Hj' Hn'); [reflexivity|].
  apply (falsy_not_required body' k' Hin'). rewrite Hk'. reflexivity.
Qed.

Lemma checkout_falsy_field_rejected_witness :
  let zero := VObj [("provider", VStr "paddle"); ("userId", VStr "user_123");
                    ("email", VStr "t@example.com"); ("amount", VNum 0);
                    ("productName", VStr "Test")] in
  let out := run (Router.handleCheckout (Demo.with_body zero)) (Demo.env Demo.up) Demo.empty in
  out = (errorResponse "Missing required fields" 400, Demo.empty, [])
  /\ truthy (VNum 0) = false /\ truthy (VStr "") = false
  /\ (forall rq' body' k',
        json rq' = Some body' -> nullish body' = false ->
        In k' required_fields -> prop body' k' = VUndefined ->
        run (Router.handleCheckout rq') (Demo.env Demo.up) Demo.empty = out).
Proof.
  intros zero.
  apply (checkout_falsy_field_rejected (Demo.env Demo.up) Demo.empty
           (Demo.with_body zero) zero "amount").
  - reflexivity.
  - reflexivity.
  - right; right; right; left; reflexivity.
  - reflexivity.
Defined.

(** ** JSON documents *)

Lemma value_rect' (P : value -> Prop) :
  P VUndefined -> P VNull -> (forall b, P (VBool b)) -> (forall n, P (VNum n)) ->
  (forall s, P (VStr s)) ->
  (forall items, Forall P items -> P (VArr items)) ->
  (forall props, Forall (fun p => P (snd p)) props -> P (VObj props)) ->
  forall v, P v.
Proof.
  intros Hu Hn Hb Hz Hs Ha Ho.
  fix IH 1. intros v. destruct v as [| |b|n|s|items|props].
  - exact Hu.
  - exact Hn.
  - apply Hb.
  - apply Hz.
  - apply Hs.
  - apply Ha. induction items as [|x xs IHl]; constructor; [apply IH|exact IHl].
  - apply Ho. induction props as [|[k x] ps IHl]; constructor; [apply IH|exact IHl].
Qed.

Lemma jsonify_arr items : jsonify (VArr items) = VArr (jsonify_items jsonify items).
Proof. reflexivity. Qed.

Lemma jsonify_obj props : jsonify (VObj props) = VObj (jsonify_props jsonify props).
Proof. reflexivity. Qed.

(** Parsing what was stringified gives back a JSON document. *)
Lemma jsonify_json v : is_json v = true -> jsonify v = v.
Proof.
  induction v as [| | | | |items IH|props IH] using value_rect'; try reflexivity.
  - intros H. cbn [is_json] in H. rewrite jsonify_arr. f_equal.
    induction items as [|x xs IHl]; [reflexivity|].
    cbn [forallb] in H. apply andb_prop in H as [Hx Hxs].
    inversion IH; subst. cbn [jsonify_items map]. fold (jsonify_items jsonify xs).
    rewrite (IHl H2 Hxs). f_equal.
    destruct x; try reflexivity; try (apply H1; exact Hx). discriminate.
  - intros H. cbn [is_json] in H. rewrite jsonify_obj. f_equal.
    induction props as [|[k x] ps IHl]; [reflexivity|].
    cbn [forallb snd] in H. apply andb_prop in H as [Hx Hxs].
    inversion IH; subst. cbn [snd] in H1.
    destruct x; cbn [jsonify_props]; rewrite (IHl H2 Hxs);
      try reflexivity; try (rewrite (H1 Hx); reflexivity). discriminate.
Qed.

Lemma prop_json body k :
  is_json body = true -> prop body k = VUndefined \/ is_json (prop body k) = true.
Proof.
  destruct body; simpl; auto. intros H.
  induction props as [|[k' x] ps IH]; simpl in *; [auto|].
  apply andb_prop in H as [Hx Hps]. destruct (String.eqb k' k); auto.
Qed.

Lemma prop_jsonify_skip k k' x rest :
  k' <> k -> prop (jsonify (VObj ((k', x) :: rest))) k = prop (jsonify (VObj rest)) k.
Proof.
  intros Hne. rewrite !jsonify_obj.
  destruct x; cbn [jsonify_props prop lookup_prop]; try reflexivity;
    (destruct (String.eqb_spec k' k); [contradiction|reflexivity]).
Qed.

Lemma prop_jsonify_here k x rest :
  x <> VUndefined -> prop (jsonify (VObj ((k, x) :: rest))) k = jsonify x.
Proof.
  intros Hx. rewrite jsonify_obj.
  destruct x; try contradiction; cbn [jsonify_props prop lookup_prop];
    rewrite String.eqb_refl; reflexivity.
Qed.

(** A field that came with the request is stored as it came; a field
    that did not come is not stored. *)
Lemma stored_field body k v :
  is_json body = true -> prop body k = v ->
  (v = VUndefined \/ jsonify v = v).
Proof.
  intros Hj <-. destruct (prop_json body k Hj) as [->|H]; auto.
  right. apply jsonify_json, H.
Qed.

Ltac skip_field :=
  rewrite prop_jsonify_skip by (intros Heq; discriminate Heq).

Lemma session_record_fields env body :
  is_json body = true ->
  let record := jsonify (session_record env body) in
  prop record "amount" = prop body "amount"
  /\ prop record "currency" = prop body "currency"
  /\ prop record "productName" = prop body "productName"
  /\ (truthy (prop body "provider") = true -> prop record "provider" = prop body "provider").
Proof.
  intros Hj record. subst record. unfold session_record.
  assert (Hfield : forall k rest,
             prop (jsonify (VObj ((k, prop body k) :: rest))) k = prop body k
             \/ (prop body k = VUndefined
                 /\ prop (jsonify (VObj ((k, prop body k) :: rest))) k
                    = prop (jsonify (VObj rest)) k)).
  { intros k rest. destruct (stored_field body k _ Hj eq_refl) as [Hu|Hs].
    - right. split; [exact Hu|]. rewrite Hu. reflexivity.
    - destruct (prop body k) eqn:E; try (left; rewrite prop_jsonify_here;
        [exact Hs|discriminate]).
      right. split; reflexivity. }
  assert (Hhere : forall k rest tail,
             prop (jsonify (VObj tail)) k = VUndefined ->
             (forall x, prop (jsonify (VObj ((k, x) :: rest))) k = prop (jsonify (VObj rest)) k
                        -> prop (jsonify (VObj rest)) k = prop (jsonify (VObj tail)) k) ->
             prop (jsonify (VObj ((k, prop body k) :: rest))) k = prop body k).
  { intros k rest tail Ht Hrest. destruct (Hfield k rest) as [->|[Hu He]]; [reflexivity|].
    rewrite He, (Hrest _ He), Ht, Hu. reflexivity. }
  repeat split.
  - do 3 skip_field. apply (Hhere _ _ []); [reflexivity|].
    intros x _. do 3 skip_field. reflexivity.
  - do 4 skip_field. apply (Hhere _ _ []); [reflexivity|].
    intros x _. do 2 skip_field. reflexivity.
  - do 5 skip_field. apply (Hhere _ _ []); [reflexivity|].
    intros x _. do 1 skip_field. reflexivity.
  - intros Ht. do 1 skip_field.
    destruct (Hfield "provider"
                [("email", prop body "email"); ("amount", prop body "amount");
                 ("currency", prop body "currency");
                 ("productName", prop body "productName");
                 ("createdAt", VStr (isoNow env))]) as [->|[Hu _]]; [reflexivity|].
    rewrite Hu in Ht. discriminate.
Qed.

(** ** The checkout handler, step by step *)

Lemma persist_checkout_run body session env st :
  exists st' tl,
    persist_checkout body session env st =
    (Ok (successResponse session "Checkout session created successfully"), st',
     KvPut SESSIONS ("session:" +:+ to_string (prop session "sessionId")) :: tl)
    /\ sessions st'
       = <["session:" +:+ to_string (prop session "sessionId")
           := (jsonify (session_record env body), KV.default_session_ttl)]> (sessions st)
    /\ events st' = events st
    /\ forallb bookkeeping tl = true.
Proof.
  unfold persist_checkout, KV.storeSession, KV.put_doc, Logger.info.
  rewrite bind_run. cbv [ask]. rewrite bind_run. cbv [bind get_stores tell set_stores ret].
  cbn [fst snd].
  set (st1 := {| events := _; sessions := _; metrics := _ |}).
  match goal with |- context [KV.incrementCounter ?k ?ttl env st1] =>
    destruct (incrementCounter_run k ttl env st1) as (n & v & Eb) end.
  rewrite Eb.
  match goal with |- context [Logger._log ?l ?m ?d env ?s] =>
    destruct (log_run l m d env s) as (st3 & tl & El & [He3 Hs3] & Hh & _) end.
  rewrite El. simpl.
  eexists _, _. split; [reflexivity|]. split; [|split].
  - rewrite Hs3. reflexivity.
  - rewrite He3. reflexivity.
  - simpl. rewrite app_nil_r. exact Hh.
Qed.

Lemma checkout_failed_run msg env st :
  exists st' t, checkout_failed msg env st = (Ok (errorResponse msg 500), st', t).
Proof.
  unfold checkout_failed, Logger.error. rewrite bind_run.
  match goal with |- context [Logger._log ?l ?m ?d env st] =>
    destruct (log_total l m d env st) as (st' & t & E) end.
  rewrite E. simpl. eauto.
Qed.

(** [handleCheckout] on a request with its five fields: open the
    checkout at the processor, then persist or fail. *)
Lemma handleCheckout_run rq body env st :
  json rq = Some body -> has_required body = true ->
  Router.handleCheckout rq env st =
  match open_checkout body env st with
  | (Ok session, st1, t1) =>
      let '(r, st2, t2) := persist_checkout body session env st1 in (r, st2, t1 ++ t2)
  | (Throw msg, st1, t1) =>
      let '(r, st2, t2) := checkout_failed msg env st1 in (r, st2, t1 ++ t2)
  end.
Proof.
  intros Hj Hr. pose proof (has_required_not_null body Hr) as Hn.
  unfold Router.handleCheckout, request_json, open_checkout.
  rewrite Hj. rewrite try_catch_bind. cbv [ret]. rewrite try_catch_bind.
  unfold Router.destructure. rewrite Hn. cbv [ret].
  cbv zeta. rewrite has_required_cond, Hr. cbn [negb].
  rewrite try_catch_bind. rewrite bind_run. cbv [ask].
  rewrite try_catch_bind. rewrite bind_run.
  destruct (getProviderAdapter (prop body "provider") env st) as [[[a|msg] st0] t0]; simpl.
  - rewrite try_catch_bind.
    destruct (createCheckoutSession a (Router.checkout_payload env body) env st0)
      as [[[session|msg] st1] t1].
    + match goal with |- context [try_catch ?rest _ env st1] =>
        assert (Hd : persist_checkout body session env st1 = rest env st1)
          by (transitivity (let '(r, st2, t2) := rest env st1 in (r, st2, [] ++ t2));
              [reflexivity|destruct (rest env st1) as [[? ?] ?]; reflexivity])
      end.
      rewrite try_catch_run, <- Hd.
      destruct (persist_checkout_run body session env st1) as (st2 & tl & E & _).
      rewrite E. cbv beta iota. f_equal. apply List.app_assoc.
    + unfold checkout_failed. cbv [ret].
      match goal with |- context [bind ?m ?k env st1] =>
        destruct (bind m k env st1) as [[r st2] t2] end.
      cbv beta iota. f_equal. apply List.app_assoc.
  - unfold checkout_failed. cbv [ret].
    match goal with |- context [bind ?m ?k env st0] =>
      destruct (bind m k env st0) as [[r st2] t2] end.
    reflexivity.
Qed.

Lemma to_string_str s : to_string (VStr s) = s.
Proof. reflexivity. Qed.

(** [handleReceipt] on a stored session whose processor lookup resolves. *)
Lemma handleReceipt_found sid record ttl env st details st1 t1 :
  sessions st !! ("session:" +:+ sid) = Some (record, ttl) ->
  truthy record = true ->
  lookup_details record sid env st = (Ok details, st1, t1) ->
  response_of (run (Router.handleReceipt sid) env st)
  = successResponse (VObj [("session", record); ("providerDetails", details)])
      "Receipt retrieved successfully".
Proof.
  intros Hs Ht Hl. unfold run, Router.handleReceipt, KV.getSession, KV.get_doc.
  unfold lookup_details in Hl. rewrite to_string_str.
  cbv [try_catch bind get_stores tell ret] in Hl |- *.
  rewrite Hs. cbn [from_option fst]. rewrite Ht. cbn [negb].
  destruct (getProviderAdapter (prop record "provider") env st) as [[[a|msg] st0] t0];
    [|discriminate].
  destruct (getSession a (VStr sid) env st0) as [[[d|msg] st2] t2]; [|discriminate].
  pair_inv. unfold Logger.info.
  match goal with |- context [Logger._log ?l ?m ?d env ?s] =>
    destruct (log_total l m d env s) as (st3 & tl & El) end.
  rewrite El. reflexivity.
Qed.

Lemma getProviderAdapter_unsupported name env st :
  provider_kind name = None ->
  getProviderAdapter (VStr name) env st
  = (Throw ("Unsupported payment provider: " +:+ name), st, []).
Proof.
  unfold provider_kind, getProviderAdapter. cbv [bind ask tell ret throw].
  destruct (String.eqb _ "paddle"); [discriminate|].
  destruct (String.eqb _ "paypal"); [discriminate|].
  destruct (String.eqb _ "stripe"); [discriminate|reflexivity].
Qed.

Lemma handleSubscriptionCreate_unsupported rq body name env st :
  json rq = Some body -> has_subscription_fields body = true ->
  prop body "provider" = VStr name -> provider_kind name = None ->
  response_of (run (Router.handleSubscriptionCreate rq) env st)
  = errorResponse ("Unsupported payment provider: " +:+ name) 500.
Proof.
  intros Hj Hf Hp Hk. unfold run, Router.handleSubscriptionCreate, request_json.
  rewrite Hj. rewrite try_catch_bind. cbv [ret]. rewrite try_catch_bind.
  assert (Hn : nullish body = false) by (destruct body; try reflexivity; discriminate).
  unfold Router.destructure. rewrite Hn. cbv [ret]. cbv zeta.
  unfold has_subscription_fields in Hf.
  destruct (truthy (prop body "provider")); [|discriminate].
  destruct (truthy (prop body "userId")); [|discriminate].
  destruct (truthy (prop body "email")); [|discriminate].
  simpl in Hf. cbn [negb orb].
  destruct (truthy (prop body "planId")), (truthy (prop body "priceId"));
    try discriminate; cbn [negb andb];
    rewrite try_catch_bind; cbv [ask]; rewrite try_catch_bind;
    rewrite Hp, (getProviderAdapter_unsupported name env st Hk);
    unfold Logger.error; rewrite bind_run;
    match goal with |- context [Logger._log ?l ?m ?d env ?s] =>
      destruct (log_total l m d env s) as (st3 & tl & El) end;
    rewrite El; reflexivity.
Qed.

(** Whatever is stringified and parsed is a JSON document. *)
Lemma is_json_jsonify v : v <> VUndefined -> is_json (jsonify v) = true.
Proof.
  induction v as [| | | | |items IH|props IH] using value_rect'; intros Hne;
    try reflexivity; try contradiction.
  - rewrite jsonify_arr. cbn [is_json]. clear Hne.
    induction items as [|x xs IHl]; [reflexivity|].
    inversion IH; subst. cbn [jsonify_items map forallb].
    fold (jsonify_items jsonify xs). rewrite (IHl H2), andb_true_r.
    destruct x; try reflexivity; apply H1; discriminate.
  - rewrite jsonify_obj. cbn [is_json]. clear Hne.
    induction props as [|[k x] ps IHl]; [reflexivity|].
    inversion IH; subst. cbn [snd] in H1.
    destruct x; cbn [jsonify_props forallb snd]; try exact (IHl H2);
      rewrite (IHl H2), andb_true_r; try reflexivity; apply H1; discriminate.
Qed.

Lemma jsonify_idem v : jsonify (jsonify v) = jsonify v.
Proof.
  destruct v; try reflexivity; apply jsonify_json, is_json_jsonify; discriminate.
Qed.

(** What a receipt shows of the stored session. *)
Lemma receipt_shows record details :
  record <> VUndefined ->
  prop (prop (body (successResponse
                      (VObj [("session", record); ("providerDetails", details)])
                      "Receipt retrieved successfully")) "data") "session"
  = jsonify record.
Proof.
  intros Hr. unfold successResponse, jsonResponse. cbn [body].
  do 2 skip_field. rewrite prop_jsonify_here by discriminate.
  rewrite prop_jsonify_here by exact Hr. reflexivity.
Qed.

(** ** Sessions *)

(** C8. A checkout request with its five fields whose processor call
    resolves is answered with the session, and its metadata is stored
    under [session:{sessionId}] with a TTL of 3600 seconds; the stored
    amount, currency and productName are those of the request, so a later
    receipt lookup for that id, when the processor's lookup resolves,
    shows a session with exactly those fields. *)
Theorem checkout_session_retrievable env st rq order session st1 t1 :
  json rq = Some order -> is_json order = true -> has_required order = true ->
  open_checkout order env st = (Ok session, st1, t1) ->
  let out := run (Router.handleCheckout rq) env st in
  let sid := to_string (prop session "sessionId") in
  let record := jsonify (session_record env order) in
  response_of out = successResponse session "Checkout session created successfully"
  /\ sessions (stores_of out) !! ("session:" +:+ sid) = Some (record, 3600)
  /\ prop record "amount" = prop order "amount"
  /\ prop record "currency" = prop order "currency"
  /\ prop record "productName" = prop order "productName"
  /\ (forall env2 details st2 t2,
        lookup_details record sid env2 (stores_of out) = (Ok details, st2, t2) ->
        let receipt := response_of (run (Router.handleReceipt sid) env2 (stores_of out)) in
        let shown := prop (prop (body receipt) "data") "session" in
        status receipt = 200
        /\ prop shown "amount" = prop order "amount"
        /\ prop shown "currency" = prop order "currency"
        /\ prop shown "productName" = prop order "productName").
Proof.
  intros Hj Hjs Hr Ho out sid record.
  destruct (persist_checkout_run order session env st1) as (st2 & tl & Ep & Hs & _).
  assert (Hout : out = (successResponse session "Checkout session created successfully",
                        st2, t1 ++ KvPut SESSIONS ("session:" +:+ sid) :: tl)).
  { subst out. unfold run. rewrite (handleCheckout_run rq order env st Hj Hr), Ho, Ep.
    reflexivity. }
  destruct (session_record_fields env order Hjs) as (Ha & Hc & Hp & _).
  fold record in Ha, Hc, Hp.
  assert (Hstored : sessions (stores_of out) !! ("session:" +:+ sid) = Some (record, 3600)).
  { rewrite Hout. cbn [stores_of fst snd]. rewrite Hs. apply lookup_insert_eq. }
  split; [rewrite Hout; reflexivity|]. split; [exact Hstored|].
  split; [exact Ha|]. split; [exact Hc|]. split; [exact Hp|].
  intros env2 details st3 t3 Hl receipt shown.
  assert (Hrec : receipt = successResponse
                   (VObj [("session", record); ("providerDetails", details)])
                   "Receipt retrieved successfully").
  { subst receipt. eapply handleReceipt_found; eauto. }
  assert (Hshown : shown = record).
  { subst shown. rewrite Hrec, receipt_shows by discriminate.
    subst record. apply jsonify_idem. }
  rewrite Hshown, Hrec. auto.
Qed.

Lemma checkout_session_retrievable_witness :
  let env := Demo.env Demo.up in
  let session := VObj [("sessionId", VStr "txn_123");
                       ("checkoutUrl", VStr "https://paddle.test/checkout/123");
                       ("provider", VStr "paddle")] in
  let out := run (Router.handleCheckout Demo.checkout) env Demo.empty in
  let sid := to_string (prop session "sessionId") in
  let record := jsonify (session_record env Demo.checkout_body) in
  response_of out = successResponse session "Checkout session created successfully"
  /\ sessions (stores_of out) !! ("session:" +:+ sid) = Some (record, 3600)
  /\ prop record "amount" = prop Demo.checkout_body "amount"
  /\ prop record "currency" = prop Demo.checkout_body "currency"
  /\ prop record "productName" = prop Demo.checkout_body "productName"
  /\ (forall env2 details st2 t2,
        lookup_details record sid env2 (stores_of out) = (Ok details, st2, t2) ->
        let receipt := response_of (run (Router.handleReceipt sid) env2 (stores_of out)) in
        let shown := prop (prop (body receipt) "data") "session" in
        status receipt = 200
        /\ prop shown "amount" = prop Demo.checkout_body "amount"
        /\ prop shown "currency" = prop Demo.checkout_body "currency"
        /\ prop shown "productName" = prop Demo.checkout_body "productName").
Proof.
  intros env session.
  apply (checkout_session_retrievable env Demo.empty Demo.checkout Demo.checkout_body
           session Demo.empty
           (snd (open_checkout Demo.checkout_body env Demo.empty))).
  - reflexivity.
  - reflexivity.
  - reflexivity.
  - vm_compute. reflexivity.
Defined.

Example receipt_after_checkout :
  let env := Demo.env Demo.up in
  let out := run (Router.handleCheckout Demo.checkout) env Demo.empty in
  let receipt := response_of (run (Router.handleReceipt "txn_123") env (stores_of out)) in
  let shown := prop (prop (body receipt) "data") "session" in
  status receipt = 200
  /\ prop shown "amount" = VNum 1000
  /\ prop shown "currency" = VUndefined
  /\ prop shown "productName" = VStr "Test".
Proof. vm_compute. repeat split; reflexivity. Qed.

(** ** Adapter resolution *)

Lemma provider_kind_none name :
  Str.toLowerCase name <> "paddle" -> Str.toLowerCase name <> "paypal" ->
  Str.toLowerCase name <> "stripe" -> provider_kind name = None.
Proof.
  intros H1 H2 H3. unfold provider_kind.
  destruct (String.eqb_spec (Str.toLowerCase name) "paddle"); [contradiction|].
  destruct (String.eqb_spec (Str.toLowerCase name) "paypal"); [contradiction|].
  destruct (String.eqb_spec (Str.toLowerCase name) "stripe"); [contradiction|].
  reflexivity.
Qed.

Lemma handleWebhook_unsupported rq name env st :
  provider_kind name = None ->
  response_of (run (Router.handleWebhook rq name) env st)
  = errorResponse ("Unsupported payment provider: " +:+ name) 400.
Proof.
  intros Hk. unfold run. rewrite handleWebhook_run. unfold authenticate.
  rewrite bind_run, (getProviderAdapter_unsupported name env st Hk).
  destruct (reject_run name ("Unsupported payment provider: " +:+ name) env st)
    as (st' & t & E & _).
  rewrite E. reflexivity.
Qed.

Lemma handleCheckout_unsupported rq order name env st :
  json rq = Some order -> has_required order = true ->
  prop order "provider" = VStr name -> provider_kind name = None ->
  response_of (run (Router.handleCheckout rq) env st)
  = errorResponse ("Unsupported payment provider: " +:+ name) 500.
Proof.
  intros Hj Hr Hp Hk. unfold run. rewrite (handleCheckout_run rq order env st Hj Hr).
  unfold open_checkout. rewrite bind_run. cbv [ask]. rewrite bind_run, Hp.
  rewrite (getProviderAdapter_unsupported name env st Hk).
  destruct (checkout_failed_run ("Unsupported payment provider: " +:+ name) env st)
    as (st' & t & E).
  rewrite E. reflexivity.
Qed.

(** C9. Resolution depends on the lowercased name only: a name that
    lowercases to paddle, paypal or stripe gets the adapter of that
    processor, in any letter case; any other name makes the factory throw
    "Unsupported payment provider: {name}", which the webhook entry
    point answers with status 400 and the checkout and subscription entry
    points with status 500, each carrying that message. *)
Theorem adapter_resolution env st name :
  resolved_kind (getProviderAdapter (VStr name) env st) = provider_kind name
  /\ (forall other, Str.toLowerCase other = Str.toLowerCase name ->
        resolved_kind (getProviderAdapter (VStr other) env st)
        = resolved_kind (getProviderAdapter (VStr name) env st))
  /\ (Str.toLowerCase name = "paddle" ->
      getProviderAdapter (VStr name) env st
      = (Ok (PaddleAdapter (Paddle.new env)), st, [Imported "./paddle.js"]))
  /\ (Str.toLowerCase name = "paypal" ->
      getProviderAdapter (VStr name) env st
      = (Ok (PayPalAdapter (PayPal.new env)), st, [Imported "./paypal.js"]))
  /\ (Str.toLowerCase name = "stripe" ->
      getProviderAdapter (VStr name) env st
      = (Ok StripeAdapter, st, [Imported "./stripe.js"]))
  /\ (Str.toLowerCase name <> "paddle" -> Str.toLowerCase name <> "paypal" ->
      Str.toLowerCase name <> "stripe" ->
      let unsupported := "Unsupported payment provider: " +:+ name in
      getProviderAdapter (VStr name) env st = (Throw unsupported, st, [])
      /\ (forall rq,
            response_of (run (Router.handleWebhook rq name) env st)
            = errorResponse unsupported 400)
      /\ (forall rq order,
            json rq = Some order -> has_required order = true ->
            prop order "provider" = VStr name ->
            response_of (run (Router.handleCheckout rq) env st)
            = errorResponse unsupported 500)
      /\ (forall rq order,
            json rq = Some order -> has_subscription_fields order = true ->
            prop order "provider" = VStr name ->
            response_of (run (Router.handleSubscriptionCreate rq) env st)
            = errorResponse unsupported 500)).
Proof.
  split; [apply getProviderAdapter_kind|].
  split.
  { intros other H. rewrite !getProviderAdapter_kind. unfold provider_kind.
    rewrite H. reflexivity. }
  split; [|split; [|split]].
  - intros H. unfold getProviderAdapter. cbv [bind ask tell ret]. rewrite H. reflexivity.
  - intros H. unfold getProviderAdapter. cbv [bind ask tell ret]. rewrite H. reflexivity.
  - intros H. unfold getProviderAdapter. cbv [bind ask tell ret]. rewrite H. reflexivity.
  - intros H1 H2 H3 unsupported.
    pose proof (provider_kind_none name H1 H2 H3) as Hk.
    split; [apply getProviderAdapter_unsupported, Hk|].
    split; [intros rq; apply handleWebhook_unsupported, Hk|].
    split.
    + intros rq order Hj Hr Hp. eapply handleCheckout_unsupported; eauto.
    + intros rq order Hj Hf Hp. eapply handleSubscriptionCreate_unsupported; eauto.
Qed.

Example adapter_resolution_examples :
  provider_kind "PADDLE" = Some KPaddle /\ provider_kind "PayPal" = Some KPayPal
  /\ provider_kind "stripe" = Some KStripe /\ provider_kind "unknown" = None
  /\ provider_kind "" = None
  /\ response_of (run (Router.handleWebhook Demo.unsigned "unknown")
                    (Demo.env Demo.up) Demo.empty)
     = errorResponse "Unsupported payment provider: unknown" 400.
Proof. vm_compute. repeat split; reflexivity. Qed.

(** * Further properties of the worker *)

(** ** Strings *)

Lemma includes_app c a b : Str.includes c (a +:+ b) = Str.includes c a || Str.includes c b.
Proof.
  induction a as [|d a IH]; [reflexivity|].
  change (String d a +:+ b) with (String d (a +:+ b)).
  cbn [Str.includes]. rewrite IH. apply orb_assoc.
Qed.

(** The first piece of a split holds no separator and is followed
    either by nothing or by a separator and the rest. *)
Lemma split_head sep s p ps :
  Str.split sep s = p :: ps ->
  Str.includes sep p = false /\
  ((ps = [] /\ s = p) \/ exists r, s = p +:+ String sep r /\ ps = Str.split sep r).
Proof.
  revert p ps. induction s as [|c s IH]; intros p ps H.
  - cbn in H. injection H as <- <-. split; [reflexivity|]. left. split; reflexivity.
  - cbn [Str.split] in H. destruct (Ascii.eqb c sep) eqn:E.
    + apply Ascii.eqb_eq in E. subst c. injection H as <- <-.
      split; [reflexivity|]. right. exists s. split; reflexivity.
    + destruct (Str.split sep s) as [|q qs] eqn:Es.
      * injection H as <- <-. destruct s; cbn in Es; [discriminate|].
        destruct (Ascii.eqb _ _); [discriminate|]. destruct (Str.split sep s); discriminate.
      * injection H as <- <-. destruct (IH q qs eq_refl) as [Hq Hr].
        split; [cbn [Str.includes]; rewrite E, Hq; reflexivity|].
        destruct Hr as [[-> ->]|[r [-> ->]]].
        -- left. split; reflexivity.
        -- right. exists r. split; reflexivity.
Qed.

Lemma split_nonempty sep s : exists p ps, Str.split sep s = p :: ps.
Proof.
  destruct s as [|c s]; cbn; [eauto|].
  destruct (Ascii.eqb c sep); [eauto|]. destruct (Str.split sep s); eauto.
Qed.

Lemma split_none sep s : Str.includes sep s = false -> Str.split sep s = [s].
Proof.
  induction s as [|c s IH]; [reflexivity|]. cbn [Str.includes Str.split].
  intros H. apply orb_false_iff in H as [-> H]. rewrite (IH H). reflexivity.
Qed.

Lemma split_app sep a b :
  Str.includes sep a = false ->
  Str.split sep (a +:+ String sep b) = a :: Str.split sep b.
Proof.
  induction a as [|c a IH]; intros H.
  - change ("" +:+ String sep b) with (String sep b). cbn [Str.split].
    rewrite Ascii.eqb_refl. reflexivity.
  - cbn [Str.includes] in H. apply orb_false_iff in H as [Hc H].
    change (String c a +:+ String sep b) with (String c (a +:+ String sep b)).
    cbn [Str.split]. rewrite Hc, (IH H). reflexivity.
Qed.

Lemma split_pieces sep s : Forall (fun p => Str.includes sep p = false) (Str.split sep s).
Proof.
  induction s as [|c s IH]; cbn [Str.split].
  - constructor; [reflexivity|constructor].
  - destruct (Ascii.eqb c sep) eqn:E.
    + constructor; [reflexivity|exact IH].
    + destruct (Str.split sep s) as [|q qs].
      * constructor; [cbn; rewrite E; reflexivity|constructor].
      * inversion IH; subst. constructor; [cbn; rewrite E; assumption|assumption].
Qed.

Lemma startsWith_char sep rest :
  Str.startsWith (String sep "") rest = true -> exists r, rest = String sep r.
Proof.
  destruct rest as [|c r]; [discriminate|]. cbn [Str.startsWith].
  rewrite andb_true_r. intros H. apply Ascii.eqb_eq in H. subst c. eauto.
Qed.

(** ** compareSignatures *)

Lemma charCode_inj x y : Webhook.charCode x = Webhook.charCode y -> x = y.
Proof.
  unfold Webhook.charCode. intros H. apply Nat2Z.inj in H.
  rewrite <- (ascii_nat_embedding x), <- (ascii_nat_embedding y), H. reflexivity.
Qed.

Lemma accumulate_zero received : forall expected acc,
  String.length received = String.length expected ->
  Webhook.accumulate acc received expected = 0 <-> acc = 0 /\ received = expected.
Proof.
  induction received as [|x r IH]; intros [|y e] acc Hl; try discriminate.
  - cbn. intuition.
  - cbn [Webhook.accumulate]. injection Hl as Hl. rewrite (IH e _ Hl).
    rewrite Z.lor_eq_0_iff, Z.lxor_eq_0_iff. split.
    + intros [[-> Hc] ->]. apply charCode_inj in Hc. subst. split; reflexivity.
    + intros [-> [= -> ->]]. repeat split; reflexivity.
Qed.

(** X1. [compareSignatures(received, expected)] is true exactly when the two
    strings are equal and not empty: two empty strings compare false. *)
Theorem compareSignatures_spec received expected :
  Webhook.compareSignatures received expected = true
  <-> received = expected /\ received <> "".
Proof.
  unfold Webhook.compareSignatures.
  destruct (String.eqb received "") eqn:Er.
  { apply String.eqb_eq in Er. cbn. split; [discriminate|]. intros [_ H]. contradiction. }
  destruct (String.eqb expected "") eqn:Ee.
  { apply String.eqb_eq in Ee. apply String.eqb_neq in Er. cbn.
    split; [discriminate|]. intros [H _]. congruence. }
  apply String.eqb_neq in Er.
  destruct (Nat.eqb (String.length received) (String.length expected)) eqn:El; cbn.
  - apply Nat.eqb_eq in El. rewrite Z.eqb_eq, (accumulate_zero _ _ _ El). intuition.
  - apply Nat.eqb_neq in El. split; [discriminate|]. intros [-> _]. contradiction.
Qed.

(** ** Hexadecimal digests and [verifyHmacSignature] *)

Lemma append_nil_r s : s +:+ "" = s.
Proof.
  induction s as [|c s IH]; [reflexivity|].
  change (String c (s +:+ "") = String c s). f_equal. exact IH.
Qed.

Lemma append_assoc a b c : (a +:+ b) +:+ c = a +:+ (b +:+ c).
Proof.
  induction a as [|x a IH]; [reflexivity|].
  change (String x ((a +:+ b) +:+ c) = String x (a +:+ (b +:+ c))). f_equal. exact IH.
Qed.

Lemma be_bytes_byte k n : Forall byte (Crypto.be_bytes k n).
Proof.
  induction k as [|k IH]; cbn [Crypto.be_bytes]; constructor; [|exact IH].
  change 255 with (Z.ones 8). rewrite Z.land_ones by lia.
  unfold byte. apply Z.mod_pos_bound. reflexivity.
Qed.

Lemma sha256_byte msg : Forall byte (Crypto.sha256 msg).
Proof.
  unfold Crypto.sha256. cbv zeta.
  generalize (fold_left Crypto.compress
    (Crypto.blocks (List.length (Crypto.words (List.length (Crypto.pad msg)) (Crypto.pad msg)))
       (Crypto.words (List.length (Crypto.pad msg)) (Crypto.pad msg))) Crypto.H256).
  intros h. induction h as [|x h IH]; cbn [map concat]; [constructor|].
  apply Forall_app. split; [apply be_bytes_byte|exact IH].
Qed.

Lemma hex_digit_plain d c :
  0 <= d < 16 -> (c = "="%char \/ c = ";"%char) -> Ascii.eqb (Crypto.hex_digit d) c = false.
Proof.
  intros Hd Hc.
  assert (d = 0 \/ d = 1 \/ d = 2 \/ d = 3 \/ d = 4 \/ d = 5 \/ d = 6 \/ d = 7 \/ d = 8
          \/ d = 9 \/ d = 10 \/ d = 11 \/ d = 12 \/ d = 13 \/ d = 14 \/ d = 15) as H by lia.
  destruct Hc as [-> | ->];
    repeat (destruct H as [-> | H]; [reflexivity|]); subst d; reflexivity.
Qed.

Lemma hex_plain bs c :
  Forall byte bs -> (c = "="%char \/ c = ";"%char) -> Str.includes c (Crypto.hex bs) = false.
Proof.
  intros Hb Hc. induction Hb as [|b bs Hb _ IH]; [reflexivity|].
  cbn [Crypto.hex Str.includes]. unfold byte in Hb.
  rewrite !hex_digit_plain, IH; [reflexivity| |assumption| |assumption].
  - apply Z.mod_pos_bound. reflexivity.
  - split; [apply Z.div_pos; lia|apply Z.div_lt_upper_bound; lia].
Qed.

Lemma digest_plain key payload c :
  (c = "="%char \/ c = ";"%char) -> Str.includes c (digest key payload) = false.
Proof. intros Hc. apply hex_plain; [apply sha256_byte|exact Hc]. Qed.

Lemma verifyHmacSignature_key payload signature c key :
  Webhook.verifyHmacSignature payload signature (Some (String c key))
  = if Str.includes "=" signature
    then match nth_error (Str.split "=" signature) 1 with
         | Some cleanSignature => String.eqb (digest (String c key) payload) cleanSignature
         | None => false
         end
    else String.eqb (digest (String c key) payload) signature.
Proof. reflexivity. Qed.

Lemma includes_true sep s :
  Str.includes sep s = true ->
  exists a b, s = a +:+ String sep b /\ Str.includes sep a = false.
Proof.
  induction s as [|c s IH]; [discriminate|]. cbn [Str.includes].
  destruct (Ascii.eqb c sep) eqn:E.
  - apply Ascii.eqb_eq in E. subst c. intros _. exists "", s. split; reflexivity.
  - cbn. intros H. destruct (IH H) as [a [b [-> Ha]]].
    exists (String c a), b. split; [reflexivity|]. cbn. rewrite E, Ha. reflexivity.
Qed.

(** The second piece of [tag=body]: the text of [body] up to its first
    separator. *)
Lemma split_second sep tag p rest :
  Str.includes sep tag = false -> Str.includes sep p = false ->
  (rest = "" \/ Str.startsWith (String sep "") rest = true) ->
  nth_error (Str.split sep (tag +:+ String sep (p +:+ rest))) 1 = Some p.
Proof.
  intros Ht Hp Hr. rewrite (split_app _ _ _ Ht). cbn [nth_error].
  destruct Hr as [-> | Hr].
  - rewrite append_nil_r, (split_none _ _ Hp). reflexivity.
  - destruct (startsWith_char _ _ Hr) as (r & ->).
    rewrite (split_app _ _ _ Hp). reflexivity.
Qed.

(** A signature without a [=] is accepted exactly when it is the digest. *)
Lemma verifyHmacSignature_plain payload signature secret :
  Str.includes "=" signature = false ->
  Webhook.verifyHmacSignature payload signature secret = true
  <-> exists key, secret = Some key /\ key <> "" /\ signature = digest key payload.
Proof.
  intros Hp. destruct secret as [[|c key]|].
  - split; [discriminate|]. intros (k & [= <-] & H & _). contradiction.
  - rewrite verifyHmacSignature_key, Hp. rewrite String.eqb_eq. split.
    + intros <-. exists (String c key). repeat split. discriminate.
    + intros (k & [= <-] & _ & ->). reflexivity.
  - split; [discriminate|]. intros (k & [=] & _).
Qed.

(** X2. [verifyHmacSignature] accepts a signature exactly when the secret
    is set and not empty and the signature is the hexadecimal
    HMAC-SHA-256 of the payload, either bare or as the text between the
    first [=] and the second: a [tag=] in front, and whatever follows a
    second [=], are ignored. *)
Theorem verifyHmacSignature_spec payload signature secret :
  Webhook.verifyHmacSignature payload signature secret = true
  <-> exists key, secret = Some key /\ key <> "" /\
        (signature = digest key payload
         \/ exists tag rest,
              Str.includes "=" tag = false /\
              (rest = "" \/ Str.startsWith "=" rest = true) /\
              signature = tag +:+ "=" +:+ digest key payload +:+ rest).
Proof.
  destruct secret as [[|c key]|].
  2:{ rewrite verifyHmacSignature_key. split.
      - intros H. exists (String c key). split; [reflexivity|]. split; [discriminate|].
        destruct (Str.includes "=" signature) eqn:Ei.
        + right. destruct (includes_true _ _ Ei) as [tag [b [-> Htag]]].
          rewrite (split_app _ _ _ Htag) in H. cbn [nth_error] in H.
          destruct (split_nonempty "=" b) as [p [ps Hb]]. rewrite Hb in H. cbn in H.
          apply String.eqb_eq in H. subst p.
          destruct (split_head _ _ _ _ Hb) as [_ [[_ ->]|[r [-> _]]]].
          * exists tag, "". split; [assumption|]. split; [left; reflexivity|].
            rewrite append_nil_r. reflexivity.
          * exists tag, (String "=" r). split; [assumption|].
            split; [right; reflexivity|reflexivity].
        + left. apply String.eqb_eq in H. symmetry. exact H.
      - intros [k [[= <-] [_ [-> | [tag [rest [Htag [Hrest ->]]]]]]]].
        + rewrite (digest_plain _ _ "=") by (left; reflexivity). apply String.eqb_refl.
        + rewrite includes_app. change ("=" +:+ ?x) with (String "=" x).
          cbn [Str.includes]. rewrite Ascii.eqb_refl, orb_true_r.
          change (tag +:+ "=" +:+ digest (String c key) payload +:+ rest)
            with (tag +:+ String "=" (digest (String c key) payload +:+ rest)).
          rewrite split_second; [apply String.eqb_refl|assumption| |assumption].
          apply digest_plain. left; reflexivity. }
  - split; [discriminate|]. intros [k [[= <-] [H _]]]. contradiction.
  - split; [discriminate|]. intros [k [[=] _]].
Qed.

(** ** The Paddle signature header *)

Lemma lookup_prop_Forall (P : value -> Prop) k ps :
  P VUndefined -> Forall (fun kv => P (snd kv)) ps -> P (lookup_prop k ps).
Proof.
  intros Hu H. induction H as [|[k' v] ps Hv _ IH]; [exact Hu|].
  cbn [lookup_prop]. destruct (String.eqb k' k); [exact Hv|exact IH].
Qed.

Lemma sigParts_plain sig k : plain_value (lookup_prop k (Paddle.sigParts sig)).
Proof.
  apply lookup_prop_Forall; [left; reflexivity|].
  unfold Paddle.sigParts.
  assert (G : forall parts acc,
            Forall (fun kv => plain_value (snd kv)) acc ->
            Forall (fun kv => plain_value (snd kv))
              (fold_left
                 (fun acc part =>
                    let kv := Str.split "=" part in
                    let key := hd "" kv in
                    let value := match nth_error kv 1 with
                                 | Some v => VStr v
                                 | None => VUndefined
                                 end in
                    (key, value) :: acc) parts acc)).
  { induction parts as [|part parts IH]; intros acc Hacc; [exact Hacc|].
    cbn [fold_left]. apply IH. constructor; [|exact Hacc]. cbn [snd].
    destruct (nth_error (Str.split "=" part) 1) as [v|] eqn:E; [|left; reflexivity].
    right. exists v. split; [reflexivity|].
    pose proof (split_pieces "=" part) as Hp.
    apply nth_error_In in E. rewrite List.Forall_forall in Hp. exact (Hp v E). }
  apply G. constructor.
Qed.

Lemma header_get_cases rq name :
  header_get rq name = VNull \/ exists s, header_get rq name = VStr s.
Proof. unfold header_get. destruct (header_lookup _ _); eauto. Qed.

(** What a resolved [verifyWebhook] of the Paddle adapter has checked. *)
Lemma paddle_verifyWebhook_sound a rq env st ev st' t :
  Paddle.verifyWebhook a rq env st = (Ok ev, st', t) ->
  exists header ts h1 key body,
    header_get rq "paddle-signature" = VStr header
    /\ lookup_prop "ts" (Paddle.sigParts header) = VStr ts
    /\ lookup_prop "h1" (Paddle.sigParts header) = VStr h1
    /\ Paddle.webhookSecret a = Some key /\ key <> ""
    /\ h1 = digest key (ts +:+ ":" +:+ text rq)
    /\ json rq = Some body /\ ev = extract KPaddle body /\ st' = st.
Proof.
  intros E.
  destruct (Post_paddle_verifyWebhook a rq _ _ _ _ _ E) as (body & Hb & Hev).
  destruct (Inv_paddle_verifyWebhook a rq _ _ _ _ _ E) as (_ & _ & O).
  destruct (O ev eq_refl) as [Hst _].
  revert E. unfold Paddle.verifyWebhook.
  destruct (header_get_cases rq "paddle-signature") as [Hh | (header & Hh)];
    rewrite Hh; [cbn; discriminate|].
  destruct (negb (truthy (VStr header))); [discriminate|].
  unfold request_json. rewrite Hb, bind_run. cbv [ret].
  change (to_string (VStr header)) with header.
  destruct (sigParts_plain header "ts") as [Ets | (ts & Ets & _)];
    rewrite Ets; [cbn; discriminate|].
  destruct (sigParts_plain header "h1") as [Eh1 | (h1 & Eh1 & Hplain)];
    rewrite Eh1; [cbn; rewrite orb_true_r; discriminate|].
  destruct (_ || _); [discriminate|].
  change (to_string (VStr ts)) with ts. change (to_string (VStr h1)) with h1.
  destruct (Webhook.verifyHmacSignature _ h1 _) eqn:Hv; [|discriminate].
  intros _. apply (verifyHmacSignature_plain _ _ _ Hplain) in Hv as (key & Hk & Hne & Hsig).
  exists header, ts, h1, key, body.
  repeat (split; [first [reflexivity | assumption]|]). exact Hst.
Qed.

(** ** Signed Paddle deliveries *)

Lemma round_length st kw : List.length st = 8%nat -> List.length (Crypto.round st kw) = 8%nat.
Proof.
  intros H. do 9 (destruct st as [|? st]; try discriminate). reflexivity.
Qed.

Lemma fold_round_length l : forall st,
  List.length st = 8%nat -> List.length (fold_left Crypto.round l st) = 8%nat.
Proof.
  induction l as [|kw l IH]; intros st H; [exact H|].
  cbn [fold_left]. apply IH, round_length, H.
Qed.

Lemma compress_length h block :
  List.length h = 8%nat -> List.length (Crypto.compress h block) = 8%nat.
Proof.
  intros H. unfold Crypto.compress. cbv zeta.
  rewrite List.length_map, List.length_combine, fold_round_length by exact H.
  rewrite H. reflexivity.
Qed.

Lemma fold_compress_length bl : forall h,
  List.length h = 8%nat -> List.length (fold_left Crypto.compress bl h) = 8%nat.
Proof.
  induction bl as [|b bl IH]; intros h H; [exact H|].
  cbn [fold_left]. apply IH, compress_length, H.
Qed.

(** A SHA-256 hash is 32 bytes, its hexadecimal form 64 characters. *)
Lemma sha256_length msg : List.length (Crypto.sha256 msg) = 32%nat.
Proof.
  unfold Crypto.sha256. cbv zeta.
  match goal with |- context [fold_left Crypto.compress ?bl ?h] =>
    pose proof (fold_compress_length bl h eq_refl) as H;
    generalize dependent (fold_left Crypto.compress bl h) end.
  intros h H. do 9 (destruct h as [|? h]; try discriminate). reflexivity.
Qed.

Lemma hex_length bs : String.length (Crypto.hex bs) = (2 * List.length bs)%nat.
Proof. induction bs as [|b bs IH]; [reflexivity|]. cbn [Crypto.hex String.length List.length]. lia. Qed.

Lemma digest_length key payload : String.length (digest key payload) = 64%nat.
Proof. unfold digest, Crypto.hmac_sha256. cbv zeta. rewrite hex_length, sha256_length. reflexivity. Qed.

Lemma digest_truthy key payload : truthy (VStr (digest key payload)) = true.
Proof.
  pose proof (digest_length key payload) as H. cbn [truthy].
  destruct (digest key payload); [discriminate|reflexivity].
Qed.

Lemma sigParts_signed ts d :
  Str.includes ";" ts = false -> Str.includes "=" ts = false ->
  Str.includes ";" d = false -> Str.includes "=" d = false ->
  Paddle.sigParts ("ts=" +:+ ts +:+ ";h1=" +:+ d) = [("h1", VStr d); ("ts", VStr ts)].
Proof.
  intros Hts1 Hts2 Hd1 Hd2. unfold Paddle.sigParts.
  change ("ts=" +:+ ts +:+ ";h1=" +:+ d) with ("ts=" +:+ (ts +:+ String ";" ("h1=" +:+ d))).
  rewrite <- append_assoc.
  rewrite split_app by (rewrite includes_app; rewrite Hts1; reflexivity).
  rewrite split_none by (rewrite includes_app; rewrite Hd1; reflexivity).
  cbn [fold_left].
  change ("ts=" +:+ ts) with ("ts" +:+ String "=" ts).
  change ("h1=" +:+ d) with ("h1" +:+ String "=" d).
  rewrite !split_app by reflexivity.
  rewrite (split_none _ _ Hts2), (split_none _ _ Hd2). reflexivity.
Qed.

(** A delivery signed as Paddle signs verifies. *)
Lemma paddle_verifyWebhook_complete a rq env st ts key body :
  Paddle.webhookSecret a = Some key -> key <> "" ->
  ts <> "" -> Str.includes ";" ts = false -> Str.includes "=" ts = false ->
  header_get rq "paddle-signature"
  = VStr ("ts=" +:+ ts +:+ ";h1=" +:+ digest key (ts +:+ ":" +:+ text rq)) ->
  json rq = Some body -> nullish body = false ->
  exists t,
    Paddle.verifyWebhook a rq env st = (Ok (extract KPaddle body), st, t)
    /\ forallb silent_effect t = true.
Proof.
  intros Hk Hne Hts Hts1 Hts2 Hh Hb Hnull.
  unfold Paddle.verifyWebhook. rewrite Hh.
  change (negb (truthy (VStr ?s))) with false. cbv iota.
  unfold request_json. rewrite Hb, bind_run. cbv [ret].
  change (to_string (VStr ?s)) with s.
  rewrite sigParts_signed; try assumption;
    [|apply digest_plain; right; reflexivity|apply digest_plain; left; reflexivity].
  cbn [lookup_prop String.eqb Ascii.eqb Bool.eqb andb]. cbv iota.
  change (to_string (VStr ?s)) with s.
  assert (Hv : Webhook.verifyHmacSignature (ts +:+ ":" +:+ text rq)
                 (digest key (ts +:+ ":" +:+ text rq)) (Paddle.webhookSecret a) = true).
  { apply verifyHmacSignature_plain; [apply digest_plain; left; reflexivity|].
    exists key. split; [assumption|]. split; [assumption|reflexivity]. }
  assert (Htt : truthy (VStr ts) = true).
  { cbn. destruct (String.eqb_spec ts ""); [contradiction|reflexivity]. }
  rewrite Htt, Hv.
  rewrite digest_truthy. cbn [negb orb]. cbv iota.
  unfold read. rewrite Hnull. do 3 (rewrite bind_run; cbv [ret]).
  destruct (log_run INFO "Paddle webhook verified"
              (VObj [("eventType", prop body "event_type"); ("eventId", prop body "event_id")])
              env st) as (s1 & t1 & El & _ & _ & Hl).
  destruct (Hl ltac:(discriminate)) as [-> Hs].
  unfold Logger.info. rewrite El.
  exists t1. split; [|exact Hs].
  cbn [List.app]. rewrite List.app_nil_r. reflexivity.
Qed.

(** ** Decimal text *)

Lemma digit_char_spec d :
  0 <= d < 10 ->
  Str.is_digit (Str.digit_char d) = true /\ Str.digit_val (Str.digit_char d) = d
  /\ Str.is_space (Str.digit_char d) = false
  /\ Ascii.eqb (Str.digit_char d) "-" = false /\ Ascii.eqb (Str.digit_char d) "+" = false.
Proof.
  intros H.
  assert (d = 0 \/ d = 1 \/ d = 2 \/ d = 3 \/ d = 4 \/ d = 5 \/ d = 6 \/ d = 7 \/ d = 8
          \/ d = 9) as C by lia.
  repeat (destruct C as [-> | C]; [repeat split; reflexivity|]). subst d. repeat split; reflexivity.
Qed.

Lemma digits_prefix_digit acc d rest :
  0 <= d < 10 ->
  Str.digits_prefix acc (String (Str.digit_char d) rest)
  = Str.digits_prefix (Some (10 * default 0 acc + d)) rest.
Proof.
  intros H. destruct (digit_char_spec d H) as (H1 & H2 & _).
  cbn [Str.digits_prefix]. rewrite H1, H2. reflexivity.
Qed.

(** Reading back what [of_pos_fuel] wrote in front of [s]. *)
Lemma digits_prefix_of_pos fuel : forall n s acc,
  0 <= n < 10 ^ Z.of_nat (S fuel) ->
  exists k,
    Str.digits_prefix acc (Str.of_pos_fuel (S fuel) n s)
    = Str.digits_prefix (Some (10 ^ k * default 0 acc + n)) s /\ 0 < k.
Proof.
  induction fuel as [|fuel IH]; intros n s acc Hn.
  - exists 1. cbn [Str.of_pos_fuel]. change (10 ^ Z.of_nat 1) with 10 in Hn.
    assert ((n <? 10) = true) as -> by (apply Z.ltb_lt; lia).
    rewrite Z.mod_small by lia. rewrite digits_prefix_digit by lia.
    split; [reflexivity|lia].
  - remember (S fuel) as f. cbn [Str.of_pos_fuel].
    destruct (n <? 10) eqn:E.
    + apply Z.ltb_lt in E. exists 1. rewrite Z.mod_small by lia.
      rewrite digits_prefix_digit by lia. split; [reflexivity|lia].
    + apply Z.ltb_ge in E. subst f.
      assert (Hq : 0 <= n / 10 < 10 ^ Z.of_nat (S fuel)).
      { split; [apply Z.div_pos; lia|].
        apply Z.div_lt_upper_bound; [lia|].
        assert (10 ^ Z.of_nat (S (S fuel)) = 10 * 10 ^ Z.of_nat (S fuel)) as Hp
          by (rewrite (Nat2Z.inj_succ (S fuel)); apply Z.pow_succ_r; lia).
        lia. }
      destruct (IH (n / 10) (String (Str.digit_char (n mod 10)) s) acc Hq) as (k & -> & Hk).
      exists (k + 1). split; [|lia].
      rewrite digits_prefix_digit by (apply Z.mod_pos_bound; lia).
      cbn [default]. f_equal. f_equal.
      rewrite Z.pow_add_r by lia. change (10 ^ 1) with 10.
      pose proof (Z_div_mod_eq_full n 10) as H. cbv [id].
      generalize dependent (n / 10). generalize (n mod 10), (default 0 acc), (10 ^ k).
      intros. lia.
Qed.

Lemma of_pos_fuel_head fuel : forall n s,
  0 <= n ->
  exists d rest, 0 <= d < 10 /\ Str.of_pos_fuel (S fuel) n s = String (Str.digit_char d) rest.
Proof.
  induction fuel as [|fuel IH]; intros n s Hn.
  - cbn [Str.of_pos_fuel]. exists (n mod 10), s.
    split; [apply Z.mod_pos_bound; lia|]. destruct (n <? 10); reflexivity.
  - remember (S fuel) as f. cbn [Str.of_pos_fuel]. destruct (n <? 10).
    + exists (n mod 10), s. split; [apply Z.mod_pos_bound; lia|reflexivity].
    + subst f. apply IH. apply Z.div_pos; lia.
Qed.

Lemma enough_fuel n : 0 <= n -> n < 10 ^ Z.of_nat (S (Z.to_nat (Z.log2 n))).
Proof.
  intros Hn. rewrite Nat2Z.inj_succ, Z2Nat.id by apply Z.log2_nonneg.
  destruct (Z.eq_dec n 0) as [-> | Hz]; [reflexivity|].
  pose proof (Z.log2_spec n ltac:(lia)) as [_ H].
  eapply Z.lt_le_trans; [exact H|].
  apply Z.pow_le_mono_l. pose proof (Z.log2_nonneg n). lia.
Qed.

Lemma parseInt_digits s :
  (exists d rest, 0 <= d < 10 /\ s = String (Str.digit_char d) rest) ->
  Str.parseInt s = Str.digits_prefix None s.
Proof.
  intros (d & rest & Hd & ->). destruct (digit_char_spec d Hd) as (_ & _ & Hs & Hm & Hp).
  unfold Str.parseInt. cbn [Str.skip_spaces]. rewrite Hs.
  assert (d = 0 \/ d = 1 \/ d = 2 \/ d = 3 \/ d = 4 \/ d = 5 \/ d = 6 \/ d = 7 \/ d = 8
          \/ d = 9) as C by lia.
  repeat (destruct C as [-> | C]; [reflexivity|]). subst d. reflexivity.
Qed.

Lemma parseInt_of_pos n :
  0 <= n ->
  Str.parseInt (Str.of_pos_fuel (S (Z.to_nat (Z.log2 n))) n "") = Some n.
Proof.
  intros Hn. rewrite parseInt_digits by (apply of_pos_fuel_head; exact Hn).
  destruct (digits_prefix_of_pos (Z.to_nat (Z.log2 n)) n "" None
              (conj Hn (enough_fuel n Hn))) as (k & -> & _).
  cbn [Str.digits_prefix default]. f_equal. lia.
Qed.

Lemma parseInt_of_Z n : Str.parseInt (Str.of_Z n) = Some n.
Proof.
  unfold Str.of_Z. destruct (n <? 0) eqn:E.
  - apply Z.ltb_lt in E.
    destruct (of_pos_fuel_head (Z.to_nat (Z.log2 (- n))) (- n) "" ltac:(lia))
      as (d & rest & Hd & Eh).
    pose proof (parseInt_of_pos (- n) ltac:(lia)) as P.
    rewrite parseInt_digits in P by eauto.
    unfold Str.parseInt. cbn [Str.skip_spaces]. change (Str.is_space "-") with false.
    cbv iota. rewrite P. cbn. f_equal. lia.
  - apply Z.ltb_ge in E. apply parseInt_of_pos. exact E.
Qed.

Lemma of_Z_nonempty n : String.eqb (Str.of_Z n) "" = false.
Proof.
  unfold Str.of_Z. destruct (n <? 0) eqn:E; [reflexivity|].
  apply Z.ltb_ge in E.
  destruct (of_pos_fuel_head (Z.to_nat (Z.log2 n)) n "" E) as (d & rest & _ & ->). reflexivity.
Qed.

(** ** Counters *)

Lemma incrementCounter_eq key ttl env st :
  KV.incrementCounter key ttl env st =
  let stored := from_option fst "" (metrics st !! key) in
  let current := if String.eqb stored "" then "0" else stored in
  let newValue := Str.of_number ((fun n => n + 1) <$> Str.parseInt current) in
  (Ok (Str.parseInt newValue), with_counter st key newValue ttl,
   [KvGet METRICS key; KvPut METRICS key]).
Proof. reflexivity. Qed.

(** X4. [incrementCounter] on a missing key stores [1] and returns 1; on a
    key that holds the decimal text of a safe integer [n] (a count
    below 2^53) it stores the text of [n + 1] with the given TTL and
    returns [n + 1]. Either way it reads and writes METRICS once each
    and touches nothing else. *)
Theorem incrementCounter_counts key ttl env st :
  (metrics st !! key = None ->
   KV.incrementCounter key ttl env st
   = (Ok (Some 1), with_counter st key "1" ttl, [KvGet METRICS key; KvPut METRICS key]))
  /\ (forall n old,
        safe_integer n ->
        metrics st !! key = Some (Str.of_Z n, old) ->
        KV.incrementCounter key ttl env st
        = (Ok (Some (n + 1)), with_counter st key (Str.of_Z (n + 1)) ttl,
           [KvGet METRICS key; KvPut METRICS key])).
Proof.
  split.
  - intros H. rewrite incrementCounter_eq, H. reflexivity.
  - intros n old _ H. rewrite incrementCounter_eq, H. cbn [from_option fst]. cbv zeta.
    rewrite of_Z_nonempty, parseInt_of_Z. cbn [fmap option_fmap option_map].
    unfold Str.of_number. rewrite parseInt_of_Z. reflexivity.
Qed.

Lemma incrementCounter_counts_witness :
  let st := with_counter Demo.empty "hits" (Str.of_Z 41) 5 in
  KV.incrementCounter "hits" 60 (Demo.env Demo.up) Demo.empty
  = (Ok (Some 1), with_counter Demo.empty "hits" "1" 60,
     [KvGet METRICS "hits"; KvPut METRICS "hits"])
  /\ KV.incrementCounter "hits" 60 (Demo.env Demo.up) st
     = (Ok (Some (41 + 1)), with_counter st "hits" (Str.of_Z (41 + 1)) 60,
        [KvGet METRICS "hits"; KvPut METRICS "hits"]).
Proof.
  intros st. split.
  - apply (proj1 (incrementCounter_counts "hits" 60 (Demo.env Demo.up) Demo.empty)).
    reflexivity.
  - apply (proj2 (incrementCounter_counts "hits" 60 (Demo.env Demo.up) st) 41 5).
    + unfold safe_integer. lia.
    + vm_compute. reflexivity.
Defined.

(** X5. A counter whose text [parseInt] cannot read is overwritten with
    [NaN], NaN is returned, and every later increment leaves it [NaN]. *)
Theorem incrementCounter_nan key ttl env st text old :
  metrics st !! key = Some (text, old) -> text <> "" -> Str.parseInt text = None ->
  KV.incrementCounter key ttl env st
  = (Ok None, with_counter st key "NaN" ttl, [KvGet METRICS key; KvPut METRICS key])
  /\ forall env' ttl',
       KV.incrementCounter key ttl' env' (with_counter st key "NaN" ttl)
       = (Ok None, with_counter (with_counter st key "NaN" ttl) key "NaN" ttl',
          [KvGet METRICS key; KvPut METRICS key]).
Proof.
  intros H Hne Hp. split.
  - rewrite incrementCounter_eq, H. cbn [from_option fst]. cbv zeta.
    destruct (String.eqb_spec text ""); [contradiction|]. rewrite Hp. reflexivity.
  - intros env' ttl'. rewrite incrementCounter_eq. unfold with_counter at 1 2.
    cbn [metrics]. rewrite lookup_insert_eq. reflexivity.
Qed.

Lemma incrementCounter_nan_witness :
  let st := with_counter Demo.empty "hits" "abc" 5 in
  KV.incrementCounter "hits" 60 (Demo.env Demo.up) st
  = (Ok None, with_counter st "hits" "NaN" 60, [KvGet METRICS "hits"; KvPut METRICS "hits"])
  /\ forall env' ttl',
       KV.incrementCounter "hits" ttl' env' (with_counter st "hits" "NaN" 60)
       = (Ok None, with_counter (with_counter st "hits" "NaN" 60) "hits" "NaN" ttl',
          [KvGet METRICS "hits"; KvPut METRICS "hits"]).
Proof.
  intros st. apply (incrementCounter_nan "hits" 60 (Demo.env Demo.up) st "abc" 5).
  - vm_compute. reflexivity.
  - discriminate.
  - vm_compute. reflexivity.
Defined.

(** ** The counters of the webhook pipeline *)

Lemma frame_fetch who rq env st r st' t : fetch who rq env st = (r, st', t) -> st' = st.
Proof.
  unfold fetch. cbv [bind ask tell]. destruct (net env rq); cbv [throw ret]; intros E; pair_inv;
    reflexivity.
Qed.

Lemma frame_log l message data env st r st' t :
  Logger._log l message data env st = (r, st', t) -> frame st st'.
Proof. intros E. exact (proj1 (Quiet_log l message data _ _ _ _ _ E)). Qed.

Lemma frame_forward p ev env st r st' t :
  Router.forward p ev env st = (r, st', t) -> frame st st'.
Proof.
  unfold Router.forward. rewrite bind_run. cbv [ask].
  rewrite try_catch_bind.
  destruct (fetch Backend (Router.notify_request env p ev) env st) as [[[res|msg] s1] t1] eqn:Ef;
    apply frame_fetch in Ef; subst s1.
  - rewrite try_catch_run.
    destruct (negb (response_is_ok res)).
    + destruct (Logger.warn _ _ env st) as [[[[]|m] s2] t2] eqn:El;
        apply frame_log in El.
      * intros E. pair_inv. exact El.
      * destruct (Logger.error _ _ env s2) as [[r3 s3] t3] eqn:El2. apply frame_log in El2.
        intros E. pair_inv. eapply frame_trans; eassumption.
    + cbv [ret]. intros E. pair_inv. apply frame_refl.
  - destruct (Logger.error _ _ env st) as [[r3 s3] t3] eqn:El2. apply frame_log in El2.
    intros E. pair_inv. exact El2.
Qed.

Lemma webhook_counter_key env p ev : error_key (webhook_counter env p ev) = false.
Proof. reflexivity. Qed.

Lemma deliver_counter p ev env st r st' t :
  events st !! marker_key p ev = None ->
  deliver p ev env st = (r, st', t) ->
  metrics st' !! webhook_counter env p ev
  = Some (Str.of_number
            ((fun n => n + 1) <$>
             Str.parseInt (let stored := from_option fst "" (metrics st !! webhook_counter env p ev) in
                           if String.eqb stored "" then "0" else stored)),
          KV.default_counter_ttl).
Proof.
  intros Hm. unfold deliver, KV.isEventProcessed, KV.markEventProcessed, KV.put_doc,
    Logger.info.
  fold (marker_key p ev). fold (marker_doc env ev). fold (webhook_counter env p ev).
  rewrite bind_run. cbv [ask]. rewrite bind_run. cbv [bind get_stores tell ret].
  rewrite bool_decide_eq_false_2 by (rewrite Hm; intros [? ?]; discriminate).
  cbv [set_stores]. cbn [fst snd].
  set (st1 := {| events := _; sessions := _; metrics := _ |}).
  destruct (Router.forward p ev env st1) as [[[[]|msg] st2] tf] eqn:Ef.
  2:{ destruct (forward_run p ev env st1) as (? & ? & Ef' & _). congruence. }
  apply frame_forward in Ef. destruct Ef as (_ & _ & Hk).
  rewrite incrementCounter_eq. cbv beta iota zeta.
  match goal with |- context [Logger._log ?l ?m ?d env ?s] =>
    destruct (log_run l m d env s) as (st3 & tl & El & _ & _ & Hl) end.
  rewrite El. destruct (Hl ltac:(discriminate)) as [-> _].
  intros E. pair_inv. unfold with_counter. cbn [metrics].
  pose proof (Hk _ (webhook_counter_key env p ev)) as Hw. unfold webhook_counter in *.
  rewrite lookup_insert_eq, Hw. reflexivity.
Qed.

(** X6. Processing a verified event that has no marker leaves the counter
    [webhook:{provider}:{eventType}:{date}] at [1] when it was missing
    and at [n + 1] when it held a safe integer [n] (a count below 2^53),
    with a TTL of one day, whatever the backend answered; a duplicate
    leaves METRICS as it was. *)
Theorem webhook_counted rq p env st ev sa ta :
  authenticate rq p env st = (Ok ev, sa, ta) ->
  let out := run (Router.handleWebhook rq p) env st in
  let key := webhook_counter env p ev in
  (events st !! marker_key p ev = None ->
   (metrics st !! key = None ->
    metrics (stores_of out) !! key = Some ("1", KV.default_counter_ttl))
   /\ (forall n old,
         safe_integer n ->
         metrics st !! key = Some (Str.of_Z n, old) ->
         metrics (stores_of out) !! key = Some (Str.of_Z (n + 1), KV.default_counter_ttl)))
  /\ (is_Some (events st !! marker_key p ev) -> metrics (stores_of out) = metrics st).
Proof.
  intros H out key. split.
  - intros Hm. destruct (handleWebhook_verified _ _ _ _ _ _ _ H) as [E _].
    subst out. unfold run. rewrite E.
    destruct (deliver p ev env st) as [[r st'] t] eqn:Ed.
    pose proof (deliver_counter p ev env st r st' t Hm Ed) as Hc. fold key in Hc.
    assert (Es : stores_of (match r with
                            | Ok r0 => (r0, st', ta ++ t)
                            | Throw msg0 =>
                                (errorResponseWith "Internal server error" 500
                                   [("message", VStr msg0)], st', ta ++ t)
                            end) = st') by (destruct r; reflexivity).
    cbv zeta. rewrite Es. split.
    + intros Hn. rewrite Hc, Hn. reflexivity.
    + intros n old _ Hn. rewrite Hc, Hn. cbn [from_option fst]. cbv zeta.
      rewrite of_Z_nonempty, parseInt_of_Z. reflexivity.
  - intros Hs. subst out. destruct (duplicate_delivery _ _ _ _ _ _ _ H Hs) as (_ & Hst & _).
    cbv zeta in Hst. rewrite Hst. reflexivity.
Qed.

Lemma webhook_counted_witness :
  let env := Demo.env Demo.unreachable in
  let out := run (Router.handleWebhook Demo.delivery "paddle") env Demo.empty in
  metrics (stores_of out) !! webhook_counter env "paddle" Demo.event
  = Some ("1", KV.default_counter_ttl).
Proof.
  intros env out.
  refine (proj1 (proj1 (webhook_counted Demo.delivery "paddle" env Demo.empty Demo.event
                          Demo.empty [Imported "./paddle.js"; Logged INFO "Paddle webhook verified"] _) _) _);
    vm_compute; reflexivity.
Defined.

(** X7. The ledger key is built from the text of the event identifier.
    After a verified delivery, a verified delivery to the same path
    whose identifier reads the same as text (the number 123 and the
    string [123]; two events that carry no identifier) is answered
    "Event already processed", changes nothing and is not forwarded. *)
Theorem same_id_text_is_duplicate rq1 rq2 p env1 env2 st ev1 ev2 sa ta sb tb :
  authenticate rq1 p env1 st = (Ok ev1, sa, ta) ->
  let first := run (Router.handleWebhook rq1 p) env1 st in
  authenticate rq2 p env2 (stores_of first) = (Ok ev2, sb, tb) ->
  to_string (eventId ev1) = to_string (eventId ev2) ->
  let second := run (Router.handleWebhook rq2 p) env2 (stores_of first) in
  response_of second = successResponse Router.received "Event already processed"
  /\ stores_of second = stores_of first
  /\ forwards (effects_of second) = 0%nat.
Proof.
  intros H1 first H2 Hid second.
  assert (Hk : marker_key p ev2 = marker_key p ev1)
    by (unfold marker_key, KV.event_key; rewrite Hid; reflexivity).
  assert (Hs : is_Some (events (stores_of first) !! marker_key p ev2)).
  { rewrite Hk. subst first.
    destruct (events st !! marker_key p ev1) as [m|] eqn:Em.
    - destruct (duplicate_delivery _ _ _ _ _ _ _ H1 ltac:(rewrite Em; eauto)) as (_ & Hst & _).
      cbv zeta in Hst. rewrite Hst, Em. eauto.
    - destruct (fresh_delivery _ _ _ _ _ _ _ H1 Em) as (tl & _ & _ & _ & _ & He).
      cbv zeta in He. rewrite He, lookup_insert_eq. eauto. }
  destruct (duplicate_delivery _ _ _ _ _ _ _ H2 Hs) as (Hr & Hst & Hf & _).
  repeat split; assumption.
Qed.

Lemma same_id_text_is_duplicate_witness :
  let env := Demo.env Demo.up in
  let rq1 := Demo.signed "1" "{a}" (VObj [("event_type", VStr "a")]) in
  let rq2 := Demo.signed "2" "{b}" (VObj [("event_type", VStr "b")]) in
  let first := run (Router.handleWebhook rq1 "paddle") env Demo.empty in
  let second := run (Router.handleWebhook rq2 "paddle") env (stores_of first) in
  response_of second = successResponse Router.received "Event already processed"
  /\ stores_of second = stores_of first
  /\ forwards (effects_of second) = 0%nat.
Proof.
  intros env rq1 rq2 first second.
  apply (same_id_text_is_duplicate rq1 rq2 "paddle" env env Demo.empty
           (extract KPaddle (VObj [("event_type", VStr "a")]))
           (extract KPaddle (VObj [("event_type", VStr "b")]))
           Demo.empty [Imported "./paddle.js"; Logged INFO "Paddle webhook verified"]
           (stores_of first) [Imported "./paddle.js"; Logged INFO "Paddle webhook verified"]).
  - vm_compute. reflexivity.
  - vm_compute. reflexivity.
  - reflexivity.
Defined.

(** ** Logging below ERROR *)

Lemma log_below_error l message data env st :
  l <> ERROR ->
  Logger._log l message data env st
  = (Ok tt, st, if Logger.LOG_LEVELS l <? Logger.minLevel env then [] else [Logged l message]).
Proof.
  intros Hl. unfold Logger._log. cbv [bind ask tell ret].
  destruct (_ <? _); [reflexivity|]. destruct l; try contradiction; reflexivity.
Qed.

(** ** Every handler answers *)

Lemma catch_answers (body : M Response) s (d : string -> value) codes code :
  Post (answers codes) body -> In code codes ->
  forall env st, exists r st' t,
    try_catch body (fun message =>
      Logger.error s (d message) ;;; ret (errorResponse message code)) env st = (Ok r, st', t)
    /\ answers codes r.
Proof.
  intros Hb Hc env st. rewrite try_catch_run.
  destruct (body env st) as [[[r|msg] st1] t1] eqn:E.
  - exists r, st1, t1. split; [reflexivity|]. exact (Hb _ _ _ _ _ E).
  - rewrite bind_run. unfold Logger.error.
    destruct (log_total ERROR s (d msg) env st1) as (st2 & t2 & El). rewrite El.
    cbv [ret]. eexists _, _, _. split; [reflexivity|]. right. eauto.
Qed.

Lemma answers_success codes d m : answers codes (successResponse d m).
Proof. left. eauto. Qed.

Lemma answers_error codes msg code : In code codes -> answers codes (errorResponse msg code).
Proof. right. eauto. Qed.

Ltac post_step :=
  lazymatch goal with
  | |- Post _ (bind _ _) => eapply Post_bind; [apply Post_any|intros ? _]
  | |- Post _ (if ?b then _ else _) => destruct b
  | |- Post _ (ret (successResponse _ _)) => apply Post_ret, answers_success
  | |- Post _ (ret (errorResponse _ _)) => apply Post_ret, answers_error; simpl; tauto
  | |- Post _ (let _ := _ in _) => cbv zeta
  end.

Lemma handle_answers e env st :
  exists r st' t, handle e env st = (Ok r, st', t) /\ answers (statuses e) r.
Proof.
  destruct e as [rq|rq p|sid|rq|sid]; cbn [handle statuses];
    [unfold Router.handleCheckout | unfold Router.handleWebhook | unfold Router.handleReceipt
    | unfold Router.handleSubscriptionCreate | unfold Router.handleSubscriptionCancel];
    (eapply catch_answers; [repeat post_step|simpl; tauto]).
Qed.

(** The fields of the two envelopes. *)
Lemma envelope_fields codes r :
  answers codes r ->
  (status r = 200 /\ prop (body r) "success" = VBool true)
  \/ (In (status r) codes /\ prop (body r) "success" = VBool false
      /\ exists msg, prop (body r) "error" = VStr msg).
Proof.
  intros [(d & m & ->) | (msg & code & Hc & ->)].
  - left. split; [reflexivity|].
    unfold successResponse, jsonResponse. cbn [body]. rewrite jsonify_obj. reflexivity.
  - right. split; [exact Hc|].
    unfold errorResponse, errorResponseWith, jsonResponse. cbn [body spread map List.filter List.app has_key existsb negb fst].
    rewrite jsonify_obj. split; [reflexivity|]. exists msg. reflexivity.
Qed.

(** X8. Each of the five handlers always resolves, with one of the two
    envelopes: status 200 and [success: true], or [success: false] with
    an [error] text and a status among 400 and 500 for a checkout and a
    subscription creation, 400 alone for a webhook, 404 and 500 for a
    receipt and a subscription cancellation. *)
Theorem handlers_answer e env st :
  exists r st' t,
    handle e env st = (Ok r, st', t)
    /\ ((status r = 200 /\ prop (body r) "success" = VBool true)
        \/ (In (status r) (statuses e) /\ prop (body r) "success" = VBool false
            /\ exists msg, prop (body r) "error" = VStr msg)).
Proof.
  destruct (handle_answers e env st) as (r & st' & t & E & Ha).
  exists r, st', t. split; [exact E|]. apply envelope_fields, Ha.
Qed.

(** ** Routing *)

Lemma answers_incl codes codes' r :
  (forall c, In c codes -> In c codes') -> answers codes r -> answers codes' r.
Proof.
  intros Hi [H | (msg & code & Hc & ->)]; [left; exact H|].
  right. exists msg, code. split; [apply Hi, Hc|reflexivity].
Qed.

Lemma route_dispatch path method rq :
  (exists r, Router.route path method rq = ret r
             /\ (r = corsResponse \/ answers [400; 404; 500] r))
  \/ exists e, Router.route path method rq = handle e.
Proof.
  unfold Router.route.
  destruct (String.eqb method "OPTIONS"); [left; eexists; split; [reflexivity|left; reflexivity]|].
  destruct (_ && _); [right; exists (Checkout rq); reflexivity|].
  destruct (_ && _); [right; exists (Webhook rq (Router.segment path)); reflexivity|].
  destruct (_ && _); [right; exists (Receipt (Router.segment path)); reflexivity|].
  destruct (_ && _); [right; exists (SubscriptionCreate rq); reflexivity|].
  destruct (_ && _); [right; exists (SubscriptionCancel (Router.segment path)); reflexivity|].
  destruct (_ && _); left; eexists; (split; [reflexivity|right]).
  - apply answers_success.
  - apply answers_error. simpl. tauto.
Qed.

Lemma route_answers path method rq env st :
  exists r st' t,
    Router.route path method rq env st = (Ok r, st', t)
    /\ (r = corsResponse \/ answers [400; 404; 500] r).
Proof.
  destruct (route_dispatch path method rq) as [(r & -> & Hr) | (e & ->)].
  - exists r, st, []. split; [reflexivity|exact Hr].
  - destruct (handle_answers e env st) as (r & st' & t & E & Ha).
    exists r, st', t. split; [exact E|]. right.
    eapply answers_incl; [|exact Ha]. destruct e; simpl; tauto.
Qed.

(** X9. The worker's [fetch] returns the response of [route] and leaves the
    stores as [route] left them; it adds the log entries "Request
    received" before and "Request completed" after, and nothing else.
    [route] always resolves, so the [catch] that answers "Internal
    server error" is never taken; the response is the preflight answer
    or an envelope with status 200, 400, 404 or 500. *)
Theorem worker_returns_route path method rq env st :
  exists r st' t,
    Router.route path method rq env st = (Ok r, st', t)
    /\ Worker.fetch path method rq env st
       = (Ok r, st', log_line env "Request received" ++ t ++ log_line env "Request completed")
    /\ (r = corsResponse \/ answers [400; 404; 500] r).
Proof.
  destruct (route_answers path method rq env st) as (r & st' & t & E & Ha).
  exists r, st', t. split; [exact E|]. split; [|exact Ha].
  unfold Worker.fetch. rewrite try_catch_run, bind_run. unfold Logger.info.
  rewrite log_below_error by discriminate. rewrite bind_run, E, bind_run.
  rewrite log_below_error by discriminate. cbv [ret]. cbv beta iota.
  unfold log_line. rewrite List.app_nil_r. reflexivity.
Qed.

Lemma segment_webhook p rest :
  Str.includes "/" p = false -> (rest = "" \/ Str.startsWith "/" rest = true) ->
  Router.segment ("/api/webhook/" +:+ p +:+ rest) = p
  /\ Router.segment ("/api/receipt/" +:+ p +:+ rest) = p
  /\ Router.segment ("/api/subscription/" +:+ p +:+ rest) = p.
Proof.
  intros Hp Hr. unfold Router.segment.
  assert (H3 : hd "" (Str.split "/" (p +:+ rest)) = p).
  { destruct Hr as [-> | Hr].
    - rewrite append_nil_r, (split_none _ _ Hp). reflexivity.
    - destruct (startsWith_char _ _ Hr) as (r & ->).
      rewrite (split_app _ _ _ Hp). reflexivity. }
  assert (Hn : forall a b y, nth 3 ("" :: a :: b :: Str.split "/" y) "" = hd "" (Str.split "/" y)).
  { intros a b y. destruct (split_nonempty "/" y) as (q & qs & ->). reflexivity. }
  split; [|split].
  - change ("/api/webhook/" +:+ p +:+ rest)
      with ("" +:+ String "/" ("api" +:+ String "/" ("webhook" +:+ String "/" (p +:+ rest)))).
    rewrite !split_app by reflexivity. rewrite Hn. exact H3.
  - change ("/api/receipt/" +:+ p +:+ rest)
      with ("" +:+ String "/" ("api" +:+ String "/" ("receipt" +:+ String "/" (p +:+ rest)))).
    rewrite !split_app by reflexivity. rewrite Hn. exact H3.
  - change ("/api/subscription/" +:+ p +:+ rest)
      with ("" +:+ String "/" ("api" +:+ String "/" ("subscription" +:+ String "/" (p +:+ rest)))).
    rewrite !split_app by reflexivity. rewrite Hn. exact H3.
Qed.

(** X10. For a path [/api/webhook/{p}], [/api/receipt/{p}] or
    [/api/subscription/{p}], where [p] holds no slash, [route] calls the
    handler with [p]; what follows a further slash is ignored, and an
    empty [p] is passed on as the empty string. *)
Theorem route_path_segment p rest rq env st :
  Str.includes "/" p = false -> (rest = "" \/ Str.startsWith "/" rest = true) ->
  Router.route ("/api/webhook/" +:+ p +:+ rest) "POST" rq env st
  = Router.handleWebhook rq p env st
  /\ Router.route ("/api/receipt/" +:+ p +:+ rest) "GET" rq env st
     = Router.handleReceipt p env st
  /\ Router.route ("/api/subscription/" +:+ p +:+ rest) "DELETE" rq env st
     = Router.handleSubscriptionCancel p env st.
Proof.
  intros Hp Hr. destruct (segment_webhook p rest Hp Hr) as (H1 & H2 & H3).
  unfold Router.route. rewrite H1, H2, H3. repeat split; reflexivity.
Qed.

Lemma route_path_segment_witness :
  let env := Demo.env Demo.up in
  Router.route ("/api/webhook/" +:+ "paddle" +:+ "/extra") "POST" Demo.delivery env Demo.empty
  = Router.handleWebhook Demo.delivery "paddle" env Demo.empty
  /\ Router.route ("/api/receipt/" +:+ "paddle" +:+ "/extra") "GET" Demo.delivery env Demo.empty
     = Router.handleReceipt "paddle" env Demo.empty
  /\ Router.route ("/api/subscription/" +:+ "paddle" +:+ "/extra") "DELETE" Demo.delivery env
       Demo.empty
     = Router.handleSubscriptionCancel "paddle" env Demo.empty.
Proof.
  intros env.
  apply (route_path_segment "paddle" "/extra" Demo.delivery env Demo.empty).
  - reflexivity.
  - right. reflexivity.
Defined.

(** ** Resolution *)

Lemma getProviderAdapter_resolves name env st :
  getProviderAdapter (VStr name) env st
  = match provider_kind name with
    | Some KPaddle => (Ok (PaddleAdapter (Paddle.new env)), st, [Imported "./paddle.js"])
    | Some KPayPal => (Ok (PayPalAdapter (PayPal.new env)), st, [Imported "./paypal.js"])
    | Some KStripe => (Ok StripeAdapter, st, [Imported "./stripe.js"])
    | None => (Throw ("Unsupported payment provider: " +:+ name), st, [])
    end.
Proof.
  unfold provider_kind, getProviderAdapter. cbv [bind ask tell ret throw].
  destruct (String.eqb _ "paddle"); [reflexivity|].
  destruct (String.eqb _ "paypal"); [reflexivity|].
  destruct (String.eqb _ "stripe"); reflexivity.
Qed.

(** The [catch] of a handler: log at ERROR, answer with the message. *)
Lemma catch_run s data msg code env st :
  exists st' t,
    (Logger.error s data ;;; ret (errorResponse msg code)) env st
    = (Ok (errorResponse msg code), st', t)
    /\ frame st st' /\ forallb bookkeeping t = true.
Proof.
  rewrite bind_run. unfold Logger.error.
  destruct (log_run ERROR s data env st) as (st' & t & El & _ & Hb & _).
  pose proof (frame_log _ _ _ _ _ _ _ _ El) as Hf.
  rewrite El. cbv [ret]. exists st', t. rewrite List.app_nil_r. auto.
Qed.

Lemma bookkeeping_no_fetch t : forallb bookkeeping t = true -> existsb is_fetch t = false.
Proof.
  induction t as [|e t IH]; [reflexivity|]. cbn [forallb existsb].
  intros H. apply andb_true_iff in H as [He Ht]. rewrite (IH Ht).
  destruct e as [| |who ? ?| |]; try reflexivity. discriminate.
Qed.

(** ** Records that are not there *)

(** X11. [handleReceipt] and [handleSubscriptionCancel], on an identifier
    with no stored record, answer 404 after one read of SESSIONS:
    no adapter is resolved, no processor called, nothing logged. *)
Theorem missing_record_not_found sid env st :
  sessions st !! session_key (VStr sid) = None ->
  Router.handleReceipt sid env st
  = (Ok (errorResponse "Session not found" 404), st,
     [KvGet SESSIONS (session_key (VStr sid))])
  /\ Router.handleSubscriptionCancel sid env st
     = (Ok (errorResponse "Subscription not found" 404), st,
        [KvGet SESSIONS (session_key (VStr sid))]).
Proof.
  intros H. unfold Router.handleReceipt, Router.handleSubscriptionCancel, KV.getSession,
    KV.get_doc. fold (session_key (VStr sid)).
  cbv [try_catch bind get_stores tell ret]. rewrite H. split; reflexivity.
Qed.

Lemma missing_record_not_found_witness :
  let env := Demo.env Demo.up in
  Router.handleReceipt "txn_404" env Demo.empty
  = (Ok (errorResponse "Session not found" 404), Demo.empty,
     [KvGet SESSIONS (session_key (VStr "txn_404"))])
  /\ Router.handleSubscriptionCancel "txn_404" env Demo.empty
     = (Ok (errorResponse "Subscription not found" 404), Demo.empty,
        [KvGet SESSIONS (session_key (VStr "txn_404"))]).
Proof.
  intros env. apply (missing_record_not_found "txn_404" env Demo.empty). reflexivity.
Defined.

(** ** Sessions and the ledger: what is written is what is read *)

Lemma prefixed_inj p a b : p +:+ a = p +:+ b -> a = b.
Proof.
  induction p as [|c p IH]; [trivial|].
  change (String c (p +:+ a) = String c (p +:+ b) -> a = b). intros [= H]. auto.
Qed.

(** X12. [storeSession] writes the JSON form of the data under
    [session:{String(id)}] with the TTL, and [getSession] then returns
    that document for every identifier with the same text; for an
    identifier with another text, [getSession] returns what it returned
    before. *)
Theorem session_round_trip id data ttl env st :
  exists st',
    KV.storeSession id data ttl env st = (Ok tt, st', [KvPut SESSIONS (session_key id)])
    /\ st' = with_session st (session_key id) (jsonify data) ttl
    /\ (forall env' id',
          to_string id' = to_string id ->
          KV.getSession id' env' st'
          = (Ok (jsonify data), st', [KvGet SESSIONS (session_key id)]))
    /\ (forall env' id',
          to_string id' <> to_string id ->
          exists v,
            KV.getSession id' env' st' = (Ok v, st', [KvGet SESSIONS (session_key id')])
            /\ KV.getSession id' env' st = (Ok v, st, [KvGet SESSIONS (session_key id')])).
Proof.
  exists (with_session st (session_key id) (jsonify data) ttl).
  split; [reflexivity|]. split; [reflexivity|]. split.
  - intros env' id' Hid. unfold KV.getSession, KV.get_doc, session_key. rewrite Hid.
    cbv [bind get_stores tell ret]. cbn [with_session sessions]. rewrite lookup_insert_eq.
    reflexivity.
  - intros env' id' Hid. unfold KV.getSession, KV.get_doc.
    cbv [bind get_stores tell ret]. cbn [with_session sessions].
    rewrite lookup_insert_ne
      by (unfold session_key; intros Hk; apply prefixed_inj in Hk; congruence).
    eexists. split; reflexivity.
Qed.

(** X13. After [markEventProcessed], [isEventProcessed] is true for every
    provider and identifier with the same key [evt:{provider}:{id}] and
    as before for those with another key; SESSIONS and METRICS are
    untouched. *)
Theorem marked_event_is_processed provider eventId data ttl env st :
  exists st',
    KV.markEventProcessed provider eventId data ttl env st
    = (Ok tt, st', [KvPut EVENTS (KV.event_key provider eventId)])
    /\ sessions st' = sessions st /\ metrics st' = metrics st
    /\ (forall env' provider' eventId',
          KV.event_key provider' eventId' = KV.event_key provider eventId ->
          KV.isEventProcessed provider' eventId' env' st'
          = (Ok true, st', [KvGet EVENTS (KV.event_key provider eventId)]))
    /\ (forall env' provider' eventId',
          KV.event_key provider' eventId' <> KV.event_key provider eventId ->
          fst (fst (KV.isEventProcessed provider' eventId' env' st'))
          = fst (fst (KV.isEventProcessed provider' eventId' env' st))).
Proof.
  eexists. split; [reflexivity|]. split; [reflexivity|]. split; [reflexivity|]. split.
  - intros env' p' e' Hk. unfold KV.isEventProcessed. rewrite Hk.
    cbv [bind get_stores tell ret]. cbn [events].
    rewrite bool_decide_eq_true_2 by (rewrite lookup_insert_eq; eauto). reflexivity.
  - intros env' p' e' Hk. unfold KV.isEventProcessed.
    cbv [bind get_stores tell ret]. cbn [events fst].
    rewrite lookup_insert_ne by congruence. reflexivity.
Qed.

(** ** Log levels *)

(** X14. [logger.debug] writes an entry only when [LOG_LEVEL] is negative:
    [LOG_LEVEL = 0], the level of DEBUG, is falsy and falls back to INFO,
    so debug entries are dropped when it is 0, positive or unset. It
    never touches the stores. *)
Theorem debug_needs_negative_level message data env st :
  Logger.debug message data env st
  = (Ok tt, st,
     match LOG_LEVEL env with
     | Some n => if n <? 0 then [Logged DEBUG message] else []
     | None => []
     end).
Proof.
  unfold Logger.debug. rewrite log_below_error by discriminate.
  unfold Logger.minLevel. cbn [Logger.LOG_LEVELS].
  destruct (LOG_LEVEL env) as [n|]; [|reflexivity].
  destruct (n =? 0) eqn:E0.
  - apply Z.eqb_eq in E0. subst n. reflexivity.
  - apply Z.eqb_neq in E0.
    destruct (Z.ltb_spec 0 n), (Z.ltb_spec n 0); try reflexivity; lia.
Qed.

(** ** The PayPal access token *)

Lemma getAccessToken_cached a env st :
  PayPal.cache_valid a (now env) = true ->
  PayPal.getAccessToken a env st = (Ok (PayPal.accessToken a, a), st, []).
Proof. intros H. unfold PayPal.getAccessToken. cbv [bind ask]. rewrite H. reflexivity. Qed.

Lemma fetch_run who rq env st :
  fetch who rq env st
  = (match net env rq with NetworkError msg => Throw msg | res => Ok res end,
     st, [Fetched who rq (net env rq)]).
Proof. unfold fetch. cbv [bind ask tell]. destruct (net env rq); reflexivity. Qed.

Lemma getAccessToken_fetches a env st :
  PayPal.cache_valid a (now env) = false ->
  exists r st' t,
    PayPal.getAccessToken a env st
    = (r, st', Fetched Processor (token_request a) (net env (token_request a)) :: t).
Proof.
  intros H. unfold PayPal.getAccessToken. rewrite bind_run. cbv [ask]. rewrite H.
  rewrite try_catch_bind, fetch_run. fold (token_request a).
  destruct (net env (token_request a)) as [msg|code stt txt js].
  - match goal with |- context [bind ?m ?k env st] =>
      destruct (bind m k env st) as [[r2 s2] t2] end.
    eexists _, _, _. reflexivity.
  - match goal with |- context [try_catch ?m ?k env st] =>
      destruct (try_catch m k env st) as [[r2 s2] t2] end.
    eexists _, _, _. reflexivity.
Qed.

(** X15. After [getAccessToken] has fetched a token with [expires_in = n], a
    call on the same adapter before [now + (n - 300) * 1000] returns the
    cached token with no network call, and a call at or after that time
    requests a token again. *)
Theorem paypal_token_cached a env st code stt txt data n :
  PayPal.cache_valid a (now env) = false ->
  net env (token_request a) = HttpResponse code stt txt (Some data) ->
  response_ok code = true ->
  truthy (prop data "access_token") = true ->
  prop data "expires_in" = VNum n ->
  now env + (n - 300) * 1000 <> 0 ->
  exists a',
    PayPal.getAccessToken a env st
    = (Ok (prop data "access_token", a'), st,
       [Fetched Processor (token_request a) (net env (token_request a))])
    /\ token_request a' = token_request a
    /\ forall env2 st2,
         (now env2 < now env + (n - 300) * 1000 ->
          PayPal.getAccessToken a' env2 st2 = (Ok (prop data "access_token", a'), st2, []))
         /\ (now env + (n - 300) * 1000 <= now env2 ->
             exists r st' t,
               PayPal.getAccessToken a' env2 st2
               = (r, st', Fetched Processor (token_request a) (net env2 (token_request a)) :: t)).
Proof.
  intros Hc Hn Hok Ht He Hz.
  assert (Hnull : nullish data = false)
    by (destruct data; try reflexivity; discriminate Ht).
  eexists. split; [|split].
  - unfold PayPal.getAccessToken. rewrite bind_run. cbv [ask]. rewrite Hc.
    rewrite try_catch_bind, fetch_run. fold (token_request a). rewrite Hn.
    unfold response_is_ok, fetch_failed. rewrite Hok. cbn [negb].
    cbv [try_catch bind response_json ret read]. rewrite Hnull. cbv [ret]. rewrite He.
    reflexivity.
  - reflexivity.
  - intros env2 st2. split.
    + intros Hlt. rewrite getAccessToken_cached; [reflexivity|].
      unfold PayPal.cache_valid. cbn [PayPal.accessToken PayPal.tokenExpiry].
      rewrite Ht. apply andb_true_iff. split; [reflexivity|].
      apply andb_true_iff. split; [apply negb_true_iff, Z.eqb_neq, Hz|apply Z.ltb_lt, Hlt].
    + intros Hge.
      match goal with |- exists r st' t, PayPal.getAccessToken ?x _ _ = _ =>
        destruct (getAccessToken_fetches x env2 st2) as (r & s & t & E) end.
      * unfold PayPal.cache_valid. cbn [PayPal.accessToken PayPal.tokenExpiry].
        rewrite Ht. cbn [andb]. apply andb_false_iff. right. apply Z.ltb_ge, Hge.
      * exists r, s, t. exact E.
Qed.

Lemma paypal_token_cached_witness :
  let grant := VObj [("access_token", VStr "test_token"); ("expires_in", VNum 3600)] in
  let env := Demo.env (fun _ => HttpResponse 200 "OK" "" (Some grant)) in
  let a := PayPal.new env in
  exists a',
    PayPal.getAccessToken a env Demo.empty
    = (Ok (prop grant "access_token", a'), Demo.empty,
       [Fetched Processor (token_request a) (net env (token_request a))])
    /\ token_request a' = token_request a
    /\ forall env2 st2,
         (now env2 < now env + (3600 - 300) * 1000 ->
          PayPal.getAccessToken a' env2 st2 = (Ok (prop grant "access_token", a'), st2, []))
         /\ (now env + (3600 - 300) * 1000 <= now env2 ->
             exists r st' t,
               PayPal.getAccessToken a' env2 st2
               = (r, st', Fetched Processor (token_request a) (net env2 (token_request a)) :: t)).
Proof.
  intros grant env a.
  apply (paypal_token_cached a env Demo.empty 200 "OK" "" grant 3600).
  - reflexivity.
  - reflexivity.
  - reflexivity.
  - reflexivity.
  - reflexivity.
  - vm_compute. discriminate.
Defined.

(** X16. A PayPal adapter the factory returns is newly built from [env],
    with no cached token: its first [getAccessToken] always issues the
    token request, so the cache never outlives a request. *)
Theorem resolved_adapter_has_no_token provider env st a st' t :
  getProviderAdapter provider env st = (Ok (PayPalAdapter a), st', t) ->
  a = PayPal.new env
  /\ forall env2 st2, exists r s2 t2,
       PayPal.getAccessToken a env2 st2
       = (r, s2, Fetched Processor (token_request a) (net env2 (token_request a)) :: t2).
Proof.
  intros H.
  assert (Ha : a = PayPal.new env).
  { destruct provider as [| |b|n|name|items|props]; try discriminate H.
    rewrite getProviderAdapter_resolves in H.
    destruct (provider_kind name) as [[]|]; try discriminate H. congruence. }
  split; [exact Ha|]. intros env2 st2. apply getAccessToken_fetches. subst a. reflexivity.
Qed.

Lemma resolved_adapter_has_no_token_witness :
  let env := Demo.env Demo.up in
  let a := PayPal.new env in
  a = PayPal.new env
  /\ forall env2 st2, exists r s2 t2,
       PayPal.getAccessToken a env2 st2
       = (r, s2, Fetched Processor (token_request a) (net env2 (token_request a)) :: t2).
Proof.
  intros env a.
  apply (resolved_adapter_has_no_token (VStr "PayPal") env Demo.empty a Demo.empty
           [Imported "./paypal.js"]).
  vm_compute. reflexivity.
Defined.

(** ** Subscriptions *)

Lemma Inv_open_subscription body : Inv (open_subscription body).
Proof.
  unfold open_subscription. apply Inv_bind; [apply Inv_ask|]. intros env.
  apply Inv_bind; [apply Inv_getProviderAdapter|]. intros a.
  apply Inv_createSubscription.
Qed.

Lemma has_subscription_fields_cond body :
  negb (truthy (prop body "provider")) || negb (truthy (prop body "userId"))
  || negb (truthy (prop body "email"))
  || negb (truthy (prop body "planId")) && negb (truthy (prop body "priceId"))
  = negb (has_subscription_fields body).
Proof.
  unfold has_subscription_fields.
  destruct (truthy (prop body "provider")), (truthy (prop body "userId")),
    (truthy (prop body "email")), (truthy (prop body "planId")),
    (truthy (prop body "priceId")); reflexivity.
Qed.

Lemma has_subscription_fields_not_null body :
  has_subscription_fields body = true -> nullish body = false.
Proof. destruct body; try reflexivity; discriminate. Qed.

Lemma persist_subscription_run body subscription env st :
  persist_subscription body subscription env st
  = (Ok (successResponse subscription "Subscription created successfully"),
     with_session st (session_key (prop subscription "subscriptionId"))
       (jsonify (subscription_record env body)) 2592000,
     KvPut SESSIONS (session_key (prop subscription "subscriptionId"))
       :: log_line env "Subscription created").
Proof.
  unfold persist_subscription, KV.storeSession, KV.put_doc, Logger.info.
  rewrite bind_run. cbv [ask]. rewrite bind_run. cbv [bind get_stores tell set_stores ret].
  rewrite log_below_error by discriminate. change (86400 * 30) with 2592000.
  cbn [List.app]. rewrite List.app_nil_r. reflexivity.
Qed.

Lemma handleSubscriptionCreate_run rq body env st :
  json rq = Some body -> has_subscription_fields body = true ->
  Router.handleSubscriptionCreate rq env st =
  match open_subscription body env st with
  | (Ok subscription, st1, t1) =>
      let '(r, st2, t2) := persist_subscription body subscription env st1 in
      (r, st2, t1 ++ t2)
  | (Throw msg, st1, t1) =>
      let '(r, st2, t2) := subscription_failed msg env st1 in (r, st2, t1 ++ t2)
  end.
Proof.
  intros Hj Hr. pose proof (has_subscription_fields_not_null body Hr) as Hn.
  unfold Router.handleSubscriptionCreate, request_json, open_subscription.
  rewrite Hj. rewrite try_catch_bind. cbv [ret]. rewrite try_catch_bind.
  unfold Router.destructure. rewrite Hn. cbv [ret].
  cbv zeta. rewrite has_subscription_fields_cond, Hr. cbn [negb].
  rewrite try_catch_bind. rewrite bind_run. cbv [ask].
  rewrite try_catch_bind. rewrite bind_run.
  destruct (getProviderAdapter (prop body "provider") env st) as [[[a|msg] st0] t0]; simpl.
  - rewrite try_catch_bind.
    destruct (createSubscription a (Router.subscription_payload env body) env st0)
      as [[[subscription|msg] st1] t1].
    + match goal with |- context [try_catch ?rest _ env st1] =>
        assert (Hd : persist_subscription body subscription env st1 = rest env st1)
          by (transitivity (let '(r, st2, t2) := rest env st1 in (r, st2, [] ++ t2));
              [reflexivity|destruct (rest env st1) as [[? ?] ?]; reflexivity])
      end.
      rewrite try_catch_run, <- Hd, persist_subscription_run.
      cbv beta iota. f_equal. apply List.app_assoc.
    + unfold subscription_failed. cbv [ret].
      match goal with |- context [bind ?m ?k env st1] =>
        destruct (bind m k env st1) as [[r st2] t2] end.
      cbv beta iota. f_equal. apply List.app_assoc.
  - unfold subscription_failed. cbv [ret].
    match goal with |- context [bind ?m ?k env st0] =>
      destruct (bind m k env st0) as [[r st2] t2] end.
    reflexivity.
Qed.

Lemma handleSubscriptionCreate_missing rq body env st :
  json rq = Some body -> nullish body = false -> has_subscription_fields body = false ->
  Router.handleSubscriptionCreate rq env st
  = (Ok (errorResponse "Missing required fields" 400), st, []).
Proof.
  intros Hj Hn Hr. unfold Router.handleSubscriptionCreate, request_json.
  rewrite Hj. rewrite try_catch_bind. cbv [ret]. rewrite try_catch_bind.
  unfold Router.destructure. rewrite Hn. cbv [ret].
  cbv zeta. rewrite has_subscription_fields_cond, Hr. reflexivity.
Qed.

(** X17. For a JSON body that is not [null], [handleSubscriptionCreate]
    answers 400 "Missing required fields", with no effect, exactly when
    [provider], [userId] or [email] is falsy, or both [planId] and
    [priceId] are: either of the two is enough. *)
Theorem subscription_fields_required rq body env st :
  json rq = Some body -> nullish body = false ->
  (Router.handleSubscriptionCreate rq env st
   = (Ok (errorResponse "Missing required fields" 400), st, [])
   <-> (truthy (prop body "provider") = false \/ truthy (prop body "userId") = false
        \/ truthy (prop body "email") = false
        \/ (truthy (prop body "planId") = false /\ truthy (prop body "priceId") = false))).
Proof.
  intros Hj Hn.
  assert (Hc : has_subscription_fields body = false
               <-> (truthy (prop body "provider") = false \/ truthy (prop body "userId") = false
                    \/ truthy (prop body "email") = false
                    \/ (truthy (prop body "planId") = false
                        /\ truthy (prop body "priceId") = false))).
  { unfold has_subscription_fields.
    destruct (truthy (prop body "provider")), (truthy (prop body "userId")),
      (truthy (prop body "email")), (truthy (prop body "planId")),
      (truthy (prop body "priceId")); cbn; intuition discriminate. }
  rewrite <- Hc. split.
  - intros E. destruct (has_subscription_fields body) eqn:Hf; [|reflexivity].
    rewrite (handleSubscriptionCreate_run rq body env st Hj Hf) in E.
    destruct (open_subscription body env st) as [[[sub|msg] st1] t1].
    + rewrite persist_subscription_run in E. discriminate.
    + destruct (catch_run "Subscription creation error" (VObj [("error", VStr msg)]) msg 500
                  env st1) as (s2 & t2 & Ec & _).
      unfold subscription_failed in E. rewrite Ec in E. discriminate.
  - apply handleSubscriptionCreate_missing; assumption.
Qed.

Lemma subscription_fields_required_witness :
  let order := VObj [("provider", VStr "paypal"); ("userId", VStr "user_123");
                     ("email", VStr "t@example.com")] in
  Router.handleSubscriptionCreate (Demo.with_body order) (Demo.env Demo.up) Demo.empty
  = (Ok (errorResponse "Missing required fields" 400), Demo.empty, []).
Proof.
  intros order.
  apply (proj2 (subscription_fields_required (Demo.with_body order) order (Demo.env Demo.up)
                  Demo.empty eq_refl eq_refl)).
  right. right. right. split; reflexivity.
Defined.

(** X18. When the processor creates the subscription,
    [handleSubscriptionCreate] answers 200 with the adapter's result and
    stores the record (userId, provider, email, type subscription,
    planId or else priceId, createdAt) under
    [session:{subscriptionId}] with a TTL of 30 days; nothing else in
    the stores changes, and no counter moves. *)
Theorem subscription_persisted rq body env st subscription st1 t1 :
  json rq = Some body -> has_subscription_fields body = true ->
  open_subscription body env st = (Ok subscription, st1, t1) ->
  Router.handleSubscriptionCreate rq env st
  = (Ok (successResponse subscription "Subscription created successfully"),
     with_session st (session_key (prop subscription "subscriptionId"))
       (jsonify (subscription_record env body)) 2592000,
     t1 ++ KvPut SESSIONS (session_key (prop subscription "subscriptionId"))
             :: log_line env "Subscription created").
Proof.
  intros Hj Hf Ho. rewrite (handleSubscriptionCreate_run rq body env st Hj Hf), Ho.
  destruct (Inv_open_subscription body _ _ _ _ _ Ho) as (_ & _ & O).
  destruct (O subscription eq_refl) as [-> _].
  rewrite persist_subscription_run. reflexivity.
Qed.

Lemma subscription_persisted_witness :
  let env := Demo.env Demo.up in
  let order := VObj [("provider", VStr "paddle"); ("userId", VStr "user_123");
                     ("email", VStr "t@example.com"); ("priceId", VStr "pri_1")] in
  let subscription := VObj [("subscriptionId", VStr "txn_123");
                            ("checkoutUrl", VStr "https://paddle.test/checkout/123");
                            ("provider", VStr "paddle")] in
  Router.handleSubscriptionCreate (Demo.with_body order) env Demo.empty
  = (Ok (successResponse subscription "Subscription created successfully"),
     with_session Demo.empty (session_key (prop subscription "subscriptionId"))
       (jsonify (subscription_record env order)) 2592000,
     snd (open_subscription order env Demo.empty)
     ++ KvPut SESSIONS (session_key (prop subscription "subscriptionId"))
          :: log_line env "Subscription created").
Proof.
  intros env order subscription.
  apply (subscription_persisted (Demo.with_body order) order env Demo.empty subscription
           Demo.empty (snd (open_subscription order env Demo.empty))).
  - reflexivity.
  - reflexivity.
  - vm_compute. reflexivity.
Defined.

(** ** The Stripe placeholder *)

Lemma frame_same_docs st st' : frame st st' -> same_docs st st'.
Proof. intros (He & Hs & _). split; assumption. Qed.

Lemma existsb_app_false {A} (f : A -> bool) l1 l2 :
  existsb f l1 = false -> existsb f l2 = false -> existsb f (l1 ++ l2) = false.
Proof. intros H1 H2. rewrite existsb_app, H1, H2. reflexivity. Qed.

(** A handler whose processor-facing steps threw without a network call
    answers with the message and stays offline. *)
Lemma thrown_offline (h : M Response) s data msg code env st t1 :
  h env st
  = (let '(r, st2, t2) := (Logger.error s data ;;; ret (errorResponse msg code)) env st in
     (r, st2, t1 ++ t2)) ->
  existsb is_fetch t1 = false ->
  response_of (run h env st) = errorResponse msg code /\ offline st (run h env st).
Proof.
  intros E Ht. unfold run, offline. rewrite E.
  destruct (catch_run s data msg code env st) as (st' & t & -> & Hf & Hb).
  cbn [response_of stores_of effects_of fst snd]. split; [reflexivity|]. split.
  - apply existsb_app_false; [exact Ht|apply bookkeeping_no_fetch, Hb].
  - apply frame_same_docs, Hf.
Qed.

Lemma stripe_webhook name rq env st :
  provider_kind name = Some KStripe ->
  let out := run (Router.handleWebhook rq name) env st in
  response_of out
  = errorResponse "Stripe webhook verification not yet implemented. Coming soon!" 400
  /\ offline st out.
Proof.
  intros Hk. eapply thrown_offline with (t1 := [Imported "./stripe.js"]); [|reflexivity].
  rewrite handleWebhook_run. unfold authenticate. rewrite bind_run.
  rewrite getProviderAdapter_resolves, Hk. reflexivity.
Qed.

Lemma stripe_checkout name rq body env st :
  provider_kind name = Some KStripe ->
  json rq = Some body -> has_required body = true -> prop body "provider" = VStr name ->
  let out := run (Router.handleCheckout rq) env st in
  response_of out = errorResponse "Stripe adapter not yet implemented. Coming soon!" 500
  /\ offline st out.
Proof.
  intros Hk Hj Hr Hp. eapply thrown_offline with (t1 := [Imported "./stripe.js"]); [|reflexivity].
  rewrite (handleCheckout_run rq body env st Hj Hr). unfold open_checkout.
  rewrite bind_run. cbv [ask]. rewrite bind_run.
  rewrite Hp, getProviderAdapter_resolves, Hk. reflexivity.
Qed.

Lemma stripe_subscription name rq body env st :
  provider_kind name = Some KStripe ->
  json rq = Some body -> has_subscription_fields body = true ->
  prop body "provider" = VStr name ->
  let out := run (Router.handleSubscriptionCreate rq) env st in
  response_of out
  = errorResponse "Stripe subscription creation not yet implemented. Coming soon!" 500
  /\ offline st out.
Proof.
  intros Hk Hj Hr Hp. eapply thrown_offline with (t1 := [Imported "./stripe.js"]); [|reflexivity].
  rewrite (handleSubscriptionCreate_run rq body env st Hj Hr). unfold open_subscription.
  rewrite bind_run. cbv [ask]. rewrite bind_run.
  rewrite Hp, getProviderAdapter_resolves, Hk. reflexivity.
Qed.

Lemma stripe_stored name sid doc ttl env st :
  provider_kind name = Some KStripe ->
  sessions st !! session_key (VStr sid) = Some (doc, ttl) ->
  truthy doc = true -> prop doc "provider" = VStr name ->
  (let out := run (Router.handleReceipt sid) env st in
   response_of out
   = errorResponse "Stripe session retrieval not yet implemented. Coming soon!" 500
   /\ offline st out)
  /\ (let out := run (Router.handleSubscriptionCancel sid) env st in
      response_of out
      = errorResponse "Stripe subscription cancellation not yet implemented. Coming soon!" 500
      /\ offline st out).
Proof.
  intros Hk Hs Ht Hp. split.
  - eapply thrown_offline
      with (t1 := [KvGet SESSIONS (session_key (VStr sid)); Imported "./stripe.js"]);
      [|reflexivity].
    unfold Router.handleReceipt, KV.getSession, KV.get_doc. fold (session_key (VStr sid)).
    rewrite try_catch_bind. cbv [bind get_stores tell ret]. rewrite Hs.
    cbn [from_option fst]. rewrite Ht. cbn [negb]. rewrite try_catch_run, Hp.
    rewrite getProviderAdapter_resolves, Hk. cbv [getSession Stripe.getSession throw].
    destruct (Logger.error "Receipt retrieval error"
                (VObj [("error", VStr "Stripe session retrieval not yet implemented. Coming soon!");
                       ("sessionId", VStr sid)]) env st) as [[[[]|m] s2] t2] eqn:El;
      unfold Logger.error in El |- *; rewrite El; reflexivity.
  - eapply thrown_offline
      with (t1 := [KvGet SESSIONS (session_key (VStr sid)); Imported "./stripe.js"]);
      [|reflexivity].
    unfold Router.handleSubscriptionCancel, KV.getSession, KV.get_doc.
    fold (session_key (VStr sid)).
    rewrite try_catch_bind. cbv [bind get_stores tell ret]. rewrite Hs.
    cbn [from_option fst]. rewrite Ht. cbn [negb]. rewrite try_catch_run, Hp.
    rewrite getProviderAdapter_resolves, Hk.
    cbv [cancelSubscription Stripe.cancelSubscription throw].
    destruct (Logger.error "Subscription cancellation error"
                (VObj [("error", VStr "Stripe subscription cancellation not yet implemented. Coming soon!");
                       ("subscriptionId", VStr sid)]) env st) as [[[[]|m] s2] t2] eqn:El;
      unfold Logger.error in El |- *; rewrite El; reflexivity.
Qed.

(** X19. For a provider name that lowercases to [stripe], every entry point
    answers with the adapter's "not yet implemented" message (400 for a
    webhook, 500 elsewhere), calls nothing over the network and leaves
    EVENTS and SESSIONS as they were. *)
Theorem stripe_is_a_placeholder name env st :
  provider_kind name = Some KStripe ->
  (forall rq,
     let out := run (Router.handleWebhook rq name) env st in
     response_of out
     = errorResponse "Stripe webhook verification not yet implemented. Coming soon!" 400
     /\ offline st out)
  /\ (forall rq body,
        json rq = Some body -> has_required body = true -> prop body "provider" = VStr name ->
        let out := run (Router.handleCheckout rq) env st in
        response_of out = errorResponse "Stripe adapter not yet implemented. Coming soon!" 500
        /\ offline st out)
  /\ (forall rq body,
        json rq = Some body -> has_subscription_fields body = true ->
        prop body "provider" = VStr name ->
        let out := run (Router.handleSubscriptionCreate rq) env st in
        response_of out
        = errorResponse "Stripe subscription creation not yet implemented. Coming soon!" 500
        /\ offline st out)
  /\ (forall sid doc ttl,
        sessions st !! session_key (VStr sid) = Some (doc, ttl) ->
        truthy doc = true -> prop doc "provider" = VStr name ->
        (let out := run (Router.handleReceipt sid) env st in
         response_of out
         = errorResponse "Stripe session retrieval not yet implemented. Coming soon!" 500
         /\ offline st out)
        /\ (let out := run (Router.handleSubscriptionCancel sid) env st in
            response_of out
            = errorResponse
                "Stripe subscription cancellation not yet implemented. Coming soon!" 500
            /\ offline st out)).
Proof.
  intros Hk. split; [|split; [|split]].
  - intros rq. apply stripe_webhook, Hk.
  - intros rq body. apply stripe_checkout, Hk.
  - intros rq body. apply stripe_subscription, Hk.
  - intros sid doc ttl. apply stripe_stored, Hk.
Qed.

Lemma stripe_is_a_placeholder_witness :
  let out := run (Router.handleWebhook Demo.unsigned "Stripe") (Demo.env Demo.up) Demo.empty in
  response_of out
  = errorResponse "Stripe webhook verification not yet implemented. Coming soon!" 400
  /\ offline Demo.empty out.
Proof.
  apply (proj1 (stripe_is_a_placeholder "Stripe" (Demo.env Demo.up) Demo.empty eq_refl)
           Demo.unsigned).
Defined.

(** ** Checkouts that fail *)

Lemma catch_quiet s data msg code env st :
  exists st' t,
    (Logger.error s data ;;; ret (errorResponse msg code)) env st
    = (Ok (errorResponse msg code), st', t)
    /\ frame st st' /\ forallb adapter_effect t = true.
Proof.
  rewrite bind_run. unfold Logger.error.
  destruct (log_total ERROR s data env st) as (st' & t & El).
  destruct (Quiet_log _ _ _ _ _ _ _ _ El) as [Hf Ha].
  rewrite El. cbv [ret]. exists st', t. rewrite List.app_nil_r. auto.
Qed.

Ltac refold_catch env st :=
  match goal with
  | |- context [bind (Logger.error ?s (VObj [("error", VStr ?m)])) ?k env st] =>
      change (bind (Logger.error s (VObj [("error", VStr m)])) k env st)
        with ((Logger.error s (VObj [("error", VStr m)]) ;;; ret (errorResponse m 500)) env st);
      let st' := fresh "st'" in let t := fresh "t" in
      let Hf := fresh "Hf" in let Ha := fresh "Ha" in
      destruct (catch_quiet s (VObj [("error", VStr m)]) m 500 env st)
        as (st' & t & -> & Hf & Ha)
  end.

(** The two outcomes of a checkout: refused, or created by the processor
    and then persisted. *)
Lemma handleCheckout_cases rq env st :
  refused st (run (Router.handleCheckout rq) env st)
  \/ exists body session t1,
       json rq = Some body /\ has_required body = true
       /\ open_checkout body env st = (Ok session, st, t1)
       /\ Router.handleCheckout rq env st
          = (let '(r, st2, t2) := persist_checkout body session env st in (r, st2, t1 ++ t2)).
Proof.
  destruct (json rq) as [body|] eqn:Hj.
  2:{ left. unfold run, Router.handleCheckout, request_json. rewrite try_catch_bind, Hj.
      cbv [throw]. refold_catch env st.
      split; [discriminate|]. split; [exact Hf|exact Ha]. }
  destruct (nullish body) eqn:Hn.
  { left. unfold run, Router.handleCheckout, request_json. rewrite try_catch_bind, Hj.
    cbv [ret]. rewrite try_catch_bind. unfold Router.destructure. rewrite Hn. cbv [throw].
    refold_catch env st. split; [discriminate|]. split; [exact Hf|exact Ha]. }
  destruct (has_required body) eqn:Hr.
  2:{ left. unfold run. rewrite (handleCheckout_missing rq body env st Hj Hn Hr).
      split; [discriminate|]. split; [apply frame_refl|reflexivity]. }
  destruct (open_checkout body env st) as [[[session|msg] st1] t1] eqn:Eo.
  - right. destruct (Inv_open_checkout body _ _ _ _ _ Eo) as (_ & _ & O).
    destruct (O session eq_refl) as [-> _].
    exists body, session, t1. repeat (split; [first [reflexivity|assumption]|]).
    rewrite (handleCheckout_run rq body env st Hj Hr), Eo. reflexivity.
  - left. unfold run. rewrite (handleCheckout_run rq body env st Hj Hr), Eo.
    destruct (Inv_open_checkout body _ _ _ _ _ Eo) as (Hf1 & Ha1 & _).
    unfold checkout_failed.
    destruct (catch_quiet "Checkout error" (VObj [("error", VStr msg)]) msg 500 env st1)
      as (st' & t & -> & Hf & Ha).
    split; [discriminate|]. cbn [stores_of effects_of fst snd].
    split; [eapply frame_trans; eassumption|].
    rewrite forallb_app, Ha1, Ha. reflexivity.
Qed.

(** Likewise for a subscription. *)
Lemma handleSubscriptionCreate_cases rq env st :
  refused st (run (Router.handleSubscriptionCreate rq) env st)
  \/ exists body subscription t1,
       json rq = Some body /\ has_subscription_fields body = true
       /\ open_subscription body env st = (Ok subscription, st, t1)
       /\ Router.handleSubscriptionCreate rq env st
          = (let '(r, st2, t2) := persist_subscription body subscription env st in
             (r, st2, t1 ++ t2)).
Proof.
  destruct (json rq) as [body|] eqn:Hj.
  2:{ left. unfold run, Router.handleSubscriptionCreate, request_json.
      rewrite try_catch_bind, Hj. cbv [throw]. refold_catch env st.
      split; [discriminate|]. split; [exact Hf|exact Ha]. }
  destruct (nullish body) eqn:Hn.
  { left. unfold run, Router.handleSubscriptionCreate, request_json.
    rewrite try_catch_bind, Hj.
    cbv [ret]. rewrite try_catch_bind. unfold Router.destructure. rewrite Hn. cbv [throw].
    refold_catch env st. split; [discriminate|]. split; [exact Hf|exact Ha]. }
  destruct (has_subscription_fields body) eqn:Hr.
  2:{ left. unfold run. rewrite (handleSubscriptionCreate_missing rq body env st Hj Hn Hr).
      split; [discriminate|]. split; [apply frame_refl|reflexivity]. }
  destruct (open_subscription body env st) as [[[sub|msg] st1] t1] eqn:Eo.
  - right. destruct (Inv_open_subscription body _ _ _ _ _ Eo) as (_ & _ & O).
    destruct (O sub eq_refl) as [-> _].
    exists body, sub, t1. repeat (split; [first [reflexivity|assumption]|]).
    rewrite (handleSubscriptionCreate_run rq body env st Hj Hr), Eo. reflexivity.
  - left. unfold run. rewrite (handleSubscriptionCreate_run rq body env st Hj Hr), Eo.
    destruct (Inv_open_subscription body _ _ _ _ _ Eo) as (Hf1 & Ha1 & _).
    unfold subscription_failed.
    destruct (catch_quiet "Subscription creation error" (VObj [("error", VStr msg)]) msg 500
                env st1) as (st' & t & -> & Hf & Ha).
    split; [discriminate|]. cbn [stores_of effects_of fst snd].
    split; [eapply frame_trans; eassumption|].
    rewrite forallb_app, Ha1, Ha. reflexivity.
Qed.

(** X20. A checkout or a subscription creation that is not answered 200
    leaves EVENTS, SESSIONS and every counter but the error counters as
    they were, and does no more than log, load an adapter, call the
    processor and count the error. *)
Theorem failed_creation_stores_nothing rq env st :
  (let out := run (Router.handleCheckout rq) env st in
   status (response_of out) <> 200 ->
   frame st (stores_of out) /\ forallb adapter_effect (effects_of out) = true)
  /\ (let out := run (Router.handleSubscriptionCreate rq) env st in
      status (response_of out) <> 200 ->
      frame st (stores_of out) /\ forallb adapter_effect (effects_of out) = true).
Proof.
  split; intros out Hs; subst out.
  - destruct (handleCheckout_cases rq env st)
      as [(_ & Hf & Ha) | (body & session & t1 & _ & _ & _ & E)]; [split; assumption|].
    contradiction Hs. unfold run. rewrite E.
    destruct (persist_checkout_run body session env st) as (st2 & tl & -> & _). reflexivity.
  - destruct (handleSubscriptionCreate_cases rq env st)
      as [(_ & Hf & Ha) | (body & sub & t1 & _ & _ & _ & E)]; [split; assumption|].
    contradiction Hs. unfold run. rewrite E, persist_subscription_run. reflexivity.
Qed.

Lemma failed_creation_stores_nothing_witness :
  let out := run (Router.handleCheckout Demo.checkout) (Demo.env Demo.unreachable)
               Demo.empty in
  frame Demo.empty (stores_of out) /\ forallb adapter_effect (effects_of out) = true.
Proof.
  apply (proj1 (failed_creation_stores_nothing Demo.checkout (Demo.env Demo.unreachable)
                  Demo.empty)).
  vm_compute. discriminate.
Defined.

(** ** What a checkout reports when the processor fails *)

Lemma rethrow_run {A} s data msg env st :
  exists st' t, (Logger.error s data ;;; @throw A msg) env st = (Throw msg, st', t).
Proof.
  rewrite bind_run. unfold Logger.error.
  destruct (log_total ERROR s data env st) as (st' & t & ->). cbv [throw]. eauto.
Qed.









(** ** The ledger key spells the provider as the path does *)

Lemma toLowerCase_length s : String.length (Str.toLowerCase s) = String.length s.
Proof.
  induction s as [|c s IH]; [reflexivity|].
  change (S (String.length (Str.toLowerCase s)) = S (String.length s)). f_equal. exact IH.
Qed.

Lemma append_same_length a : forall b x y,
  String.length a = String.length b -> a +:+ x = b +:+ y -> a = b.
Proof.
  induction a as [|c a IH]; intros [|d b] x y Hl H; try discriminate; [reflexivity|].
  change (String c (a +:+ x) = String d (b +:+ y)) in H. injection H as -> H.
  injection Hl as Hl. f_equal. exact (IH b x y Hl H).
Qed.

Lemma marker_key_spelling p q ev1 ev2 :
  Str.toLowerCase p = Str.toLowerCase q -> p <> q -> marker_key p ev1 <> marker_key q ev2.
Proof.
  intros Hl Hne H. apply Hne. unfold marker_key, KV.event_key in H.
  change (to_string (VStr p)) with p in H. change (to_string (VStr q)) with q in H.
  apply prefixed_inj in H.
  eapply append_same_length; [|exact H].
  rewrite <- (toLowerCase_length p), <- (toLowerCase_length q), Hl. reflexivity.
Qed.

(** X22. The ledger key spells the provider as the path does. After a
    delivery to [/api/webhook/{p}], a notification delivered to another
    spelling [q] of the same provider (another letter case), with no
    marker under [q], is processed again and forwarded once. *)
Theorem provider_spelling_splits_ledger rq p q env1 env2 st ev1 ev2 sa ta sb tb :
  Str.toLowerCase p = Str.toLowerCase q -> p <> q ->
  authenticate rq p env1 st = (Ok ev1, sa, ta) ->
  let first := run (Router.handleWebhook rq p) env1 st in
  authenticate rq q env2 (stores_of first) = (Ok ev2, sb, tb) ->
  events st !! marker_key q ev2 = None ->
  let second := run (Router.handleWebhook rq q) env2 (stores_of first) in
  response_of second = successResponse Router.received "Webhook processed successfully"
  /\ forwards (effects_of second) = 1%nat.
Proof.
  intros Hl Hne H1 first H2 Hm second.
  assert (Hm' : events (stores_of first) !! marker_key q ev2 = None).
  { subst first. destruct (events st !! marker_key p ev1) as [x|] eqn:Em.
    - destruct (duplicate_delivery _ _ _ _ _ _ _ H1 ltac:(rewrite Em; eauto)) as (_ & Hst & _).
      cbv zeta in Hst. rewrite Hst. exact Hm.
    - destruct (fresh_delivery _ _ _ _ _ _ _ H1 Em) as (tl & _ & _ & _ & _ & He).
      cbv zeta in He. rewrite He, lookup_insert_ne; [exact Hm|].
      apply marker_key_spelling; assumption. }
  destruct (fresh_delivery _ _ _ _ _ _ _ H2 Hm') as (tl & Hr & He & Hf1 & Hf2 & _).
  split; [exact Hr|]. subst second. cbv zeta in He. rewrite He.
  rewrite !forwards_app, !forwards_cons, Hf1, Hf2. reflexivity.
Qed.

Lemma provider_spelling_splits_ledger_witness :
  let env := Demo.env Demo.up in
  let first := run (Router.handleWebhook Demo.delivery "paddle") env Demo.empty in
  let second := run (Router.handleWebhook Demo.delivery "Paddle") env (stores_of first) in
  response_of second = successResponse Router.received "Webhook processed successfully"
  /\ forwards (effects_of second) = 1%nat.
Proof.
  intros env first second.
  apply (provider_spelling_splits_ledger Demo.delivery "paddle" "Paddle" env env Demo.empty
           Demo.event Demo.event Demo.empty [Imported "./paddle.js"; Logged INFO "Paddle webhook verified"]
           (stores_of first) [Imported "./paddle.js"; Logged INFO "Paddle webhook verified"]).
  - reflexivity.
  - discriminate.
  - vm_compute. reflexivity.
  - vm_compute. reflexivity.
  - vm_compute. reflexivity.
Defined.

(** ** PayPal deliveries without their headers *)

(** X23. A PayPal webhook without its [paypal-transmission-id] or
    [paypal-transmission-sig] header is answered 400 "Missing PayPal
    webhook headers" before any call to PayPal, and EVENTS and SESSIONS
    stay as they were. *)
Theorem paypal_headers_required name rq env st :
  provider_kind name = Some KPayPal ->
  truthy (header_get rq "paypal-transmission-id") = false
  \/ truthy (header_get rq "paypal-transmission-sig") = false ->
  let out := run (Router.handleWebhook rq name) env st in
  response_of out = errorResponse "Missing PayPal webhook headers" 400
  /\ offline st out.
Proof.
  intros Hk Hh. eapply thrown_offline with (t1 := [Imported "./paypal.js"]); [|reflexivity].
  rewrite handleWebhook_run. unfold authenticate. rewrite bind_run.
  rewrite getProviderAdapter_resolves, Hk. cbn [verifyWebhook]. unfold PayPal.verifyWebhook.
  assert (Hc : negb (truthy (header_get rq "paypal-transmission-id"))
               || negb (truthy (header_get rq "paypal-transmission-sig")) = true)
    by (destruct Hh as [-> | ->]; [reflexivity|apply orb_true_r]).
  rewrite Hc. reflexivity.
Qed.

Lemma paypal_headers_required_witness :
  let out := run (Router.handleWebhook Demo.unsigned "paypal") (Demo.env Demo.up) Demo.empty in
  response_of out = errorResponse "Missing PayPal webhook headers" 400
  /\ offline Demo.empty out.
Proof.
  apply (paypal_headers_required "paypal" Demo.unsigned (Demo.env Demo.up) Demo.empty).
  - reflexivity.
  - left. reflexivity.
Defined.

(** ** The approval link of a PayPal order *)

(** X24. [links.find(link => link.rel === 'approve')], when it resolves,
    gives the first link whose [rel] is [approve], or [undefined] when
    there is none; it has no effect. *)
Theorem find_approve_first links env st v st' t :
  PayPal.find_approve links env st = (Ok v, st', t) ->
  st' = st /\ t = []
  /\ ((v = VUndefined /\ Forall (fun l => ~ approves l) links)
      \/ exists before after,
           links = before ++ v :: after /\ approves v
           /\ Forall (fun l => ~ approves l) before).
Proof.
  revert t. induction links as [|link links IH]; intros t E.
  - cbv in E. pair_inv. split; [reflexivity|]. split; [reflexivity|]. left. split; constructor.
  - cbn [PayPal.find_approve] in E. rewrite bind_run in E. unfold read in E.
    destruct (nullish link); [discriminate|]. cbv [ret] in E.
    destruct (prop link "rel") as [| |b|n|s|items|props] eqn:Er;
      try (destruct (PayPal.find_approve links env st) as [[r2 s2] t2] eqn:E2;
           pair_inv; destruct (IH _ eq_refl) as (-> & -> & H);
           split; [reflexivity|]; split; [reflexivity|];
           destruct H as [[-> Hall] | (before & after & -> & Hv & Hb)];
           [left; split; [reflexivity|constructor; [unfold approves; congruence|exact Hall]]
           |right; exists (link :: before), after;
            split; [reflexivity|split; [exact Hv|constructor; [unfold approves; congruence|exact Hb]]]]).
    destruct (String.eqb_spec s "approve") as [-> | Hne].
    + cbv [ret] in E. pair_inv. split; [reflexivity|]. split; [reflexivity|].
      right. exists [], links. split; [reflexivity|]. split; [exact Er|constructor].
    + assert (Hs : (let '(r, st2, t2) := PayPal.find_approve links env st in (r, st2, [] ++ t2))
                   = (Ok v, st', t)).
      { rewrite <- E. clear -Hne.
        destruct s as [|c1 s]; [reflexivity|].
        repeat (match goal with
                | |- context [match ?x with EmptyString => _ | String _ _ => _ end] =>
                    destruct x; try reflexivity
                | |- context [match ?x with Ascii _ _ _ _ _ _ _ _ => _ end] =>
                    destruct x as [[] [] [] [] [] [] [] []]; try reflexivity
                end).
        contradiction Hne. reflexivity. }
      destruct (PayPal.find_approve links env st) as [[r2 s2] t2] eqn:E2.
      pair_inv. destruct (IH _ eq_refl) as (-> & -> & H).
      split; [reflexivity|]. split; [reflexivity|].
      destruct H as [[-> Hall] | (before & after & -> & Hv & Hb)].
      * left. split; [reflexivity|]. constructor; [unfold approves; congruence|exact Hall].
      * right. exists (link :: before), after. split; [reflexivity|].
        split; [exact Hv|]. constructor; [unfold approves; congruence|exact Hb].
Qed.

Lemma find_approve_first_witness :
  let self := VObj [("rel", VStr "self"); ("href", VStr "https://paypal.test/orders/1")] in
  let approve := VObj [("rel", VStr "approve"); ("href", VStr "https://paypal.test/approve/1")] in
  Demo.empty = Demo.empty /\ @nil effect = []
  /\ ((approve = VUndefined /\ Forall (fun l => ~ approves l) [self; approve; self])
      \/ exists before after,
           [self; approve; self] = before ++ approve :: after /\ approves approve
           /\ Forall (fun l => ~ approves l) before).
Proof.
  intros self approve.
  apply (find_approve_first [self; approve; self] (Demo.env Demo.up) Demo.empty approve
           Demo.empty []).
  vm_compute. reflexivity.
Defined.

(** ** Which namespace each entry point writes *)

Lemma Quiet_of_Inv {A} (m : M A) : Inv m -> Quiet m.
Proof. intros H env st r st' t E. destruct (H _ _ _ _ _ E) as (Hf & Ha & _). auto. Qed.

Lemma Framed_of_Quiet {A} (m : M A) : Quiet m -> Keeps (fun _ => true) frame m.
Proof. apply Keeps_weaken; auto. Qed.

Lemma Framed_getSession id : Keeps (fun _ => true) frame (KV.getSession id).
Proof.
  unfold KV.getSession, KV.get_doc.
  apply Keeps_bind; [apply _|apply Keeps_get_stores; apply _|]. intros st.
  apply Keeps_bind; [apply _|apply Keeps_tell; [apply _|reflexivity]|]. intros _.
  apply Keeps_ret; apply _.
Qed.

Lemma Framed_handleReceipt sid : Keeps (fun _ => true) frame (Router.handleReceipt sid).
Proof.
  unfold Router.handleReceipt. apply Keeps_try_catch; [apply _| |].
  - apply Keeps_bind; [apply _|apply Framed_getSession|]. intros session.
    destruct (negb _); [apply Keeps_ret; apply _|].
    apply Keeps_bind; [apply _|apply Framed_of_Quiet, Quiet_of_Inv, Inv_getProviderAdapter|].
    intros a.
    apply Keeps_bind; [apply _|apply Framed_of_Quiet, Quiet_of_Inv, Inv_getSession|].
    intros d.
    apply Keeps_bind; [apply _|apply Framed_of_Quiet, Quiet_log|]. intros _.
    apply Keeps_ret; apply _.
  - intros msg. apply Keeps_bind; [apply _|apply Framed_of_Quiet, Quiet_log|]. intros _.
    apply Keeps_ret; apply _.
Qed.

Lemma Framed_handleSubscriptionCancel sid :
  Keeps (fun _ => true) frame (Router.handleSubscriptionCancel sid).
Proof.
  unfold Router.handleSubscriptionCancel. apply Keeps_try_catch; [apply _| |].
  - apply Keeps_bind; [apply _|apply Framed_getSession|]. intros session.
    destruct (negb _); [apply Keeps_ret; apply _|].
    apply Keeps_bind; [apply _|apply Framed_of_Quiet, Quiet_of_Inv, Inv_getProviderAdapter|].
    intros a.
    apply Keeps_bind; [apply _|apply Framed_of_Quiet, Quiet_of_Inv, Inv_cancelSubscription|].
    intros d.
    apply Keeps_bind; [apply _|apply Framed_of_Quiet, Quiet_log|]. intros _.
    apply Keeps_ret; apply _.
  - intros msg. apply Keeps_bind; [apply _|apply Framed_of_Quiet, Quiet_log|]. intros _.
    apply Keeps_ret; apply _.
Qed.

Lemma run_stores (h : M Response) env st r st' t :
  h env st = (r, st', t) -> stores_of (run h env st) = st'.
Proof. intros E. unfold run. rewrite E. destruct r; reflexivity. Qed.

Lemma webhook_keeps_sessions rq p env st :
  sessions (stores_of (run (Router.handleWebhook rq p) env st)) = sessions st.
Proof.
  destruct (Router.handleWebhook rq p env st) as [[r st'] t] eqn:E.
  rewrite (run_stores _ _ _ _ _ _ E). rewrite handleWebhook_run in E.
  destruct (authenticate rq p env st) as [[[ev|msg] st1] t1] eqn:Ea.
  - destruct (authenticate_ok _ _ _ _ _ _ _ Ea) as [-> _].
    destruct (events st !! marker_key p ev) as [x|] eqn:Em.
    + destruct (deliver_duplicate p ev env st ltac:(rewrite Em; eauto)) as (tl & Ed & _).
      rewrite Ed in E. pair_inv. reflexivity.
    + destruct (deliver_fresh p ev env st Em) as (s2 & tl & Ed & _ & _ & Hs).
      rewrite Ed in E. pair_inv. exact Hs.
  - destruct (Inv_authenticate rq p _ _ _ _ _ Ea) as ((_ & Hs1 & _) & _).
    destruct (reject_run p msg env st1) as (s2 & t2 & Er & (_ & Hs2 & _) & _).
    rewrite Er in E. pair_inv. congruence.
Qed.

(** X25. Which documents an entry point can change: a checkout and a
    subscription creation never change EVENTS, a webhook never changes
    SESSIONS, a receipt and a subscription cancellation change neither
    (a cancelled subscription's record stays). *)
Theorem namespaces_by_entry e env st :
  let st' := stores_of (run (handle e) env st) in
  match e with
  | Checkout _ | SubscriptionCreate _ => events st' = events st
  | Webhook _ _ => sessions st' = sessions st
  | Receipt _ | SubscriptionCancel _ => events st' = events st /\ sessions st' = sessions st
  end.
Proof.
  destruct e as [rq|rq p|sid|rq|sid]; cbn [handle]; cbv zeta.
  - destruct (handleCheckout_cases rq env st)
      as [(_ & (He & _) & _) | (body & session & t1 & _ & _ & _ & E)]; [exact He|].
    destruct (persist_checkout_run body session env st) as (st2 & tl & Ep & _ & He & _).
    rewrite Ep in E. rewrite (run_stores _ _ _ _ _ _ E). exact He.
  - apply webhook_keeps_sessions.
  - destruct (Router.handleReceipt sid env st) as [[r st'] t] eqn:E.
    rewrite (run_stores _ _ _ _ _ _ E).
    destruct (Framed_handleReceipt sid _ _ _ _ _ E) as ((He & Hs & _) & _). auto.
  - destruct (handleSubscriptionCreate_cases rq env st)
      as [(_ & (He & _) & _) | (body & sub & t1 & _ & _ & _ & E)]; [exact He|].
    rewrite persist_subscription_run in E. rewrite (run_stores _ _ _ _ _ _ E). reflexivity.
  - destruct (Router.handleSubscriptionCancel sid env st) as [[r st'] t] eqn:E.
    rewrite (run_stores _ _ _ _ _ _ E).
    destruct (Framed_handleSubscriptionCancel sid _ _ _ _ _ E) as ((He & Hs & _) & _). auto.
Qed.

(** ** PayPal deliveries are verified by PayPal *)

Lemma success_only {A} (vs : value) (k other : M A) :
  match vs with VStr "SUCCESS" => k | _ => other end
  = if match vs with VStr s => String.eqb s "SUCCESS" | _ => false end then k else other.
Proof.
  destruct vs as [| |b|n|s|items|props]; try reflexivity.
  destruct (String.eqb_spec s "SUCCESS") as [-> | Hne]; [reflexivity|].
  destruct s as [|c1 s]; [reflexivity|].
  repeat (match goal with
          | |- context [match ?x with EmptyString => _ | String _ _ => _ end] =>
              destruct x; try reflexivity
          | |- context [match ?x with Ascii _ _ _ _ _ _ _ _ => _ end] =>
              destruct x as [[] [] [] [] [] [] [] []]; try reflexivity
          end).
  contradiction Hne. reflexivity.
Qed.

(** A step that threw inside a [try] whose [catch] logs and throws again:
    the whole cannot have resolved. *)
Ltac rethrown env st :=
  cbv [throw];
  match goal with
  | |- context [bind (Logger.error ?s (VObj [("error", VStr ?m)])) ?k env st] =>
      let Er := fresh "Er" in
      destruct (@rethrow_run WebhookEvent s (VObj [("error", VStr m)]) m env st)
        as (? & ? & Er);
      cbv [throw] in Er; rewrite Er; discriminate
  end.

(** What a resolved [verifyWebhook] of the PayPal adapter has checked. *)
Lemma paypal_verifyWebhook_sound a rq env st ev st' t :
  PayPal.verifyWebhook a rq env st = (Ok ev, st', t) ->
  truthy (header_get rq "paypal-transmission-id") = true
  /\ truthy (header_get rq "paypal-transmission-sig") = true
  /\ exists body token code statusText txt verification,
       json rq = Some body /\ ev = extract KPayPal body
       /\ In (Fetched Processor (verification_request a rq token body)
                (HttpResponse code statusText txt (Some verification))) t
       /\ net env (verification_request a rq token body)
          = HttpResponse code statusText txt (Some verification)
       /\ response_ok code = true
       /\ prop verification "verification_status" = VStr "SUCCESS"
       /\ st' = st.
Proof.
  intros E.
  destruct (Post_paypal_verifyWebhook a rq _ _ _ _ _ E) as (body & Hb & Hev).
  destruct (Inv_paypal_verifyWebhook a rq _ _ _ _ _ E) as (_ & _ & O).
  destruct (O ev eq_refl) as [Hst _]. clear O.
  revert E. unfold PayPal.verifyWebhook.
  destruct (truthy (header_get rq "paypal-transmission-id")) eqn:H1; [|discriminate].
  destruct (truthy (header_get rq "paypal-transmission-sig")) eqn:H2; [|discriminate].
  cbn [negb orb]. unfold request_json. rewrite Hb, bind_run. cbv [ret].
  rewrite try_catch_bind.
  destruct (PayPal.getAccessToken a env st) as [[[[token a']|msg] s1] t1] eqn:Et;
    [|rethrown env s1].
  rewrite try_catch_bind, fetch_run. cbn [fst].
  fold (verification_request a rq token body).
  destruct (net env (verification_request a rq token body)) as [msg|code stt txt js] eqn:En;
    [rethrown env s1|].
  unfold response_is_ok, fetch_failed.
  destruct (response_ok code) eqn:Hok; cbn [negb response_statusText];
    [|rewrite try_catch_run; rethrown env s1].
  rewrite try_catch_bind. unfold response_json.
  destruct js as [verification|]; [|rethrown env s1].
  cbv [ret]. rewrite try_catch_bind. unfold read at 1.
  destruct (nullish verification) eqn:Hn; [rethrown env s1|].
  cbv [ret]. rewrite success_only.
  destruct (prop verification "verification_status") as [| |b|n|s|items|props] eqn:Hs;
    try (rewrite try_catch_run; rethrown env s1).
  destruct (String.eqb_spec s "SUCCESS") as [-> | Hne];
    [|rewrite try_catch_run; rethrown env s1].
  match goal with |- context [try_catch ?m ?h env s1] =>
    destruct (try_catch m h env s1) as [[r3 s3] t3] end.
  intros E. pair_inv. split; [reflexivity|]. split; [reflexivity|].
  exists body, token, code, stt, txt, verification.
  split; [reflexivity|]. split; [reflexivity|]. split.
  { apply in_or_app. right. cbn [List.app]. left. reflexivity. }
  auto.
Qed.

(** ** A webhook answered 200 was verified *)

Lemma accepted_authenticated rq p env st :
  status (response_of (run (Router.handleWebhook rq p) env st)) = 200 ->
  exists ev ta t2,
    authenticate rq p env st = (Ok ev, st, ta)
    /\ effects_of (run (Router.handleWebhook rq p) env st) = ta ++ t2.
Proof.
  unfold run. rewrite handleWebhook_run.
  destruct (authenticate rq p env st) as [[[ev|msg] s1] t1] eqn:Ea.
  - intros _. destruct (authenticate_ok _ _ _ _ _ _ _ Ea) as [-> _].
    destruct (deliver_total p ev env st) as (r & s2 & t2 & ->).
    exists ev, t1, t2. split; reflexivity.
  - destruct (reject_run p msg env s1) as (s2 & t2 & -> & _). cbn. discriminate.
Qed.


Lemma authenticate_paddle rq p env st :
  provider_kind p = Some KPaddle ->
  authenticate rq p env st
  = (let '(r, s1, t1) := Paddle.verifyWebhook (Paddle.new env) rq env st in
     (r, s1, [Imported "./paddle.js"] ++ t1)).
Proof.
  intros Hk. unfold authenticate. rewrite bind_run, getProviderAdapter_resolves, Hk.
  reflexivity.
Qed.

Lemma authenticate_paypal rq p env st :
  provider_kind p = Some KPayPal ->
  authenticate rq p env st
  = (let '(r, s1, t1) := PayPal.verifyWebhook (PayPal.new env) rq env st in
     (r, s1, [Imported "./paypal.js"] ++ t1)).
Proof.
  intros Hk. unfold authenticate. rewrite bind_run, getProviderAdapter_resolves, Hk.
  reflexivity.
Qed.

(** X26. A Paddle webhook is answered 200 only if it was signed: the
    [Paddle-Signature] header held a [ts] and an [h1] piece,
    [PADDLE_WEBHOOK_SECRET] is set and not empty, and [h1] is the
    hexadecimal HMAC-SHA-256 of [ts:rawBody] under it. *)
Theorem paddle_accepted_is_signed p rq env st :
  provider_kind p = Some KPaddle ->
  status (response_of (run (Router.handleWebhook rq p) env st)) = 200 ->
  exists header ts h1 key body,
    header_get rq "paddle-signature" = VStr header
    /\ lookup_prop "ts" (Paddle.sigParts header) = VStr ts
    /\ lookup_prop "h1" (Paddle.sigParts header) = VStr h1
    /\ PADDLE_WEBHOOK_SECRET env = Some key /\ key <> ""
    /\ h1 = digest key (ts +:+ ":" +:+ text rq)
    /\ json rq = Some body.
Proof.
  intros Hk Hs. destruct (accepted_authenticated rq p env st Hs) as (ev & ta & t2 & Ea & _).
  rewrite (authenticate_paddle rq p env st Hk) in Ea.
  destruct (Paddle.verifyWebhook (Paddle.new env) rq env st) as [[r s1] t1] eqn:Ev.
  pair_inv.
  destruct (paddle_verifyWebhook_sound _ _ _ _ _ _ _ Ev)
    as (header & ts & h1 & key & body & H1 & H2 & H3 & H4 & H5 & H6 & H7 & _).
  exists header, ts, h1, key, body. auto 10.
Qed.

Lemma paddle_accepted_is_signed_witness :
  exists header ts h1 key body,
    header_get Demo.delivery "paddle-signature" = VStr header
    /\ lookup_prop "ts" (Paddle.sigParts header) = VStr ts
    /\ lookup_prop "h1" (Paddle.sigParts header) = VStr h1
    /\ PADDLE_WEBHOOK_SECRET (Demo.env Demo.unreachable) = Some key /\ key <> ""
    /\ h1 = digest key (ts +:+ ":" +:+ text Demo.delivery)
    /\ json Demo.delivery = Some body.
Proof.
  apply (paddle_accepted_is_signed "Paddle" Demo.delivery (Demo.env Demo.unreachable)
           Demo.empty).
  - reflexivity.
  - vm_compute. reflexivity.
Defined.

(** X27. A Paddle webhook whose [Paddle-Signature] header is
    [ts=<ts>;h1=<HMAC of ts:rawBody>], for a [ts] that is not empty and
    holds no [;] and no [=], with a JSON body that is not [null] and a
    secret that is not empty, is answered 200; afterwards the event's
    marker is in the ledger, and SESSIONS is as it was. *)
Theorem paddle_signed_is_accepted p rq env st ts key body :
  provider_kind p = Some KPaddle ->
  PADDLE_WEBHOOK_SECRET env = Some key -> key <> "" ->
  ts <> "" -> Str.includes ";" ts = false -> Str.includes "=" ts = false ->
  header_get rq "paddle-signature"
  = VStr ("ts=" +:+ ts +:+ ";h1=" +:+ digest key (ts +:+ ":" +:+ text rq)) ->
  json rq = Some body -> nullish body = false ->
  let out := run (Router.handleWebhook rq p) env st in
  status (response_of out) = 200
  /\ is_Some (events (stores_of out) !! marker_key p (extract KPaddle body))
  /\ sessions (stores_of out) = sessions st.
Proof.
  intros Hk Hsec Hne Hts Hts1 Hts2 Hh Hb Hn out. subst out.
  destruct (paddle_verifyWebhook_complete (Paddle.new env) rq env st ts key body
              Hsec Hne Hts Hts1 Hts2 Hh Hb Hn) as (t & Ev & _).
  assert (Ea : authenticate rq p env st
               = (Ok (extract KPaddle body), st, [Imported "./paddle.js"] ++ t))
    by (rewrite (authenticate_paddle rq p env st Hk), Ev; reflexivity).
  split; [|split; [|apply webhook_keeps_sessions]].
  - destruct (events st !! marker_key p (extract KPaddle body)) as [x|] eqn:Em.
    + destruct (duplicate_delivery _ _ _ _ _ _ _ Ea ltac:(rewrite Em; eauto)) as (Hr & _).
      cbv zeta in Hr. rewrite Hr. reflexivity.
    + destruct (fresh_delivery _ _ _ _ _ _ _ Ea Em) as (tl & Hr & _).
      cbv zeta in Hr. rewrite Hr. reflexivity.
  - destruct (events st !! marker_key p (extract KPaddle body)) as [x|] eqn:Em.
    + destruct (duplicate_delivery _ _ _ _ _ _ _ Ea ltac:(rewrite Em; eauto)) as (_ & Hst & _).
      cbv zeta in Hst. rewrite Hst, Em. eauto.
    + destruct (fresh_delivery _ _ _ _ _ _ _ Ea Em) as (tl & _ & _ & _ & _ & He).
      cbv zeta in He. rewrite He, lookup_insert_eq. eauto.
Qed.

Lemma paddle_signed_is_accepted_witness :
  let out := run (Router.handleWebhook Demo.delivery "paddle") (Demo.env Demo.up)
               Demo.empty in
  status (response_of out) = 200
  /\ is_Some (events (stores_of out) !! marker_key "paddle" (extract KPaddle Demo.paddle_body))
  /\ sessions (stores_of out) = sessions Demo.empty.
Proof.
  apply (paddle_signed_is_accepted "paddle" Demo.delivery (Demo.env Demo.up) Demo.empty
           "1" Demo.secret Demo.paddle_body).
  - reflexivity.
  - reflexivity.
  - discriminate.
  - discriminate.
  - reflexivity.
  - reflexivity.
  - vm_compute. reflexivity.
  - reflexivity.
  - reflexivity.
Defined.

(** X28. A PayPal webhook is answered 200 only if both transmission headers
    were present and the run asked PayPal's verification endpoint about
    the JSON body, with the configured webhook id, and was answered 2xx
    with [verification_status] equal to [SUCCESS]. *)
Theorem paypal_accepted_is_verified p rq env st :
  provider_kind p = Some KPayPal ->
  let out := run (Router.handleWebhook rq p) env st in
  status (response_of out) = 200 ->
  truthy (header_get rq "paypal-transmission-id") = true
  /\ truthy (header_get rq "paypal-transmission-sig") = true
  /\ exists body token code statusText txt verification,
       json rq = Some body
       /\ In (Fetched Processor (verification_request (PayPal.new env) rq token body)
                (HttpResponse code statusText txt (Some verification))) (effects_of out)
       /\ response_ok code = true
       /\ prop verification "verification_status" = VStr "SUCCESS".
Proof.
  intros Hk out Hs. subst out.
  destruct (accepted_authenticated rq p env st Hs) as (ev & ta & t2 & Ea & ->).
  rewrite (authenticate_paypal rq p env st Hk) in Ea.
  destruct (PayPal.verifyWebhook (PayPal.new env) rq env st) as [[r s1] t1] eqn:Ev.
  pair_inv.
  destruct (paypal_verifyWebhook_sound _ _ _ _ _ _ _ Ev)
    as (H1 & H2 & body & token & code & stt & txt & v & Hb & _ & Hin & _ & Hok & Hv & _).
  split; [exact H1|]. split; [exact H2|].
  exists body, token, code, stt, txt, v. split; [exact Hb|]. split; [|auto].
  apply in_or_app. left. right. exact Hin.
Qed.

Lemma paypal_accepted_is_verified_witness :
  let answer := VObj [("access_token", VStr "test_token"); ("expires_in", VNum 3600);
                      ("verification_status", VStr "SUCCESS")] in
  let env := Demo.env (fun _ => HttpResponse 200 "OK" "" (Some answer)) in
  let out := run (Router.handleWebhook Demo.paypal_delivery "paypal") env Demo.empty in
  truthy (header_get Demo.paypal_delivery "paypal-transmission-id") = true
  /\ truthy (header_get Demo.paypal_delivery "paypal-transmission-sig") = true
  /\ exists body token code statusText txt verification,
       json Demo.paypal_delivery = Some body
       /\ In (Fetched Processor
                (verification_request (PayPal.new env) Demo.paypal_delivery token body)
                (HttpResponse code statusText txt (Some verification))) (effects_of out)
       /\ response_ok code = true
       /\ prop verification "verification_status" = VStr "SUCCESS".
Proof.
  intros answer env.
  apply (paypal_accepted_is_verified "paypal" Demo.paypal_delivery env Demo.empty).
  - reflexivity.
  - vm_compute. reflexivity.
Defined.

(** ** What a checkout asks of Paddle *)





(** ** Cancelling a stored subscription *)

Lemma filter_fetch_log env message : List.filter is_fetch (log_line env message) = [].
Proof. unfold log_line. destruct (_ <? _); reflexivity. Qed.

(** X30. Cancelling a subscription whose stored record names Paddle, when
    Paddle answers 2xx with a JSON document: the provider is the one
    the record names; one network call is made, a POST to
    [{baseUrl}/subscriptions/{id}/cancel] with the API key as bearer
    token, asking for the cancellation to take effect at the next
    billing period; the answer is 200 with the document's [data], and
    the stores, the record included, are as they were. *)
Theorem stored_subscription_cancelled sid doc ttl name env st code statusText txt answer :
  sessions st !! session_key (VStr sid) = Some (doc, ttl) -> truthy doc = true ->
  prop doc "provider" = VStr name -> provider_kind name = Some KPaddle ->
  (forall q, net env q = HttpResponse code statusText txt (Some answer)) ->
  response_ok code = true -> nullish answer = false ->
  let out := run (Router.handleSubscriptionCancel sid) env st in
  exists q,
    response_of out
    = successResponse (prop answer "data") "Subscription cancelled successfully"
    /\ stores_of out = st
    /\ List.filter is_fetch (effects_of out) = [Fetched Processor q (net env q)]
    /\ url q = Paddle.baseUrl (Paddle.new env) +:+ "/subscriptions/" +:+ sid +:+ "/cancel"
    /\ method q = "POST"
    /\ authorization q = "Bearer " +:+ Router.interp (PADDLE_API_KEY env)
    /\ payload q = VObj [("effective_from", VStr "next_billing_period")].
Proof.
  intros Hs Ht Hp Hk Hn Hok Ha out. subst out.
  unfold run, Router.handleSubscriptionCancel, KV.getSession, KV.get_doc.
  fold (session_key (VStr sid)).
  rewrite try_catch_bind. cbv [bind get_stores tell ret]. rewrite Hs.
  cbn [from_option fst]. rewrite Ht. cbn [negb]. rewrite try_catch_run, Hp.
  rewrite getProviderAdapter_resolves, Hk.
  cbv [cancelSubscription Paddle.cancelSubscription try_catch].
  fold (@bind FetchResult value).
  rewrite bind_run, fetch_run.
  match goal with |- context [net env ?q] => set (rq := q) end.
  rewrite (Hn rq). unfold response_is_ok, fetch_failed. rewrite Hok. cbn [negb].
  cbv [bind response_json ret]. unfold Logger.info.
  rewrite !log_below_error by discriminate.
  unfold read. rewrite Ha. cbv [ret]. rewrite !log_below_error by discriminate.
  exists rq. cbn [response_of stores_of effects_of fst snd].
  split; [reflexivity|]. split; [reflexivity|]. split.
  - fold (log_line env "Paddle subscription cancelled").
    fold (log_line env "Subscription cancelled").
    cbn [List.app List.filter is_fetch]. rewrite !List.app_nil_r, !List.filter_app.
    cbn [List.filter is_fetch]. rewrite !filter_fetch_log, (Hn rq). reflexivity.
  - repeat split; reflexivity.
Qed.

Lemma stored_subscription_cancelled_witness :
  let env := Demo.env Demo.up in
  let record := VObj [("userId", VStr "user_123"); ("provider", VStr "Paddle");
                      ("type", VStr "subscription")] in
  let st := with_session Demo.empty (session_key (VStr "sub_1")) record 2592000 in
  let out := run (Router.handleSubscriptionCancel "sub_1") env st in
  exists q,
    response_of out
    = successResponse (prop Demo.transaction "data") "Subscription cancelled successfully"
    /\ stores_of out = st
    /\ List.filter is_fetch (effects_of out) = [Fetched Processor q (net env q)]
    /\ url q = Paddle.baseUrl (Paddle.new env) +:+ "/subscriptions/" +:+ "sub_1" +:+ "/cancel"
    /\ method q = "POST"
    /\ authorization q = "Bearer " +:+ Router.interp (PADDLE_API_KEY env)
    /\ payload q = VObj [("effective_from", VStr "next_billing_period")].
Proof.
  intros env record st.
  apply (stored_subscription_cancelled "sub_1" record 2592000 "Paddle" env st
           200 "OK" "" Demo.transaction).
  - vm_compute. reflexivity.
  - reflexivity.
  - reflexivity.
  - reflexivity.
  - intros q. reflexivity.
  - reflexivity.
  - reflexivity.
Defined.
